(** * Airtable -> SQLite synchronisation layer

    A shallow embedding of [airtable_csv.py] ([AirtableCSVManager]) and
    [airtable_multi_manager.py] ([AirtableMultiManager]), together with
    the parts of the Python standard library they rely on
    ([str.replace], [in] on strings, [csv.DictWriter], [csv.reader] with
    the default excel dialect).  The two class methods that read the
    environment or a configuration dictionary before calling the
    constructor take them as arguments.  Strings are sequences of
    8-bit characters. *)

From Stdlib Require Import ZArith String Ascii List Lia DecimalString.
From stdpp Require Import base option list gmap strings.

(** ** Python values, exceptions and results *)

Module Py.

(** An exception object: its class name and [str(e)].  Only
    exceptions derived from [Exception] are modelled, the ones an
    [except Exception] clause catches. *)
Record exn := Exception { exc_type : string; exc_msg : string }.

(** What a call produces: a returned value or a raised exception. *)
Inductive res (A : Type) : Type :=
| Ret (a : A)
| Raise (e : exn).
Arguments Ret {A} a.
Arguments Raise {A} e.

Definition bind {A B} (r : res A) (k : A -> res B) : res B :=
  match r with
  | Ret a => k a
  | Raise e => Raise e
  end.

(** The double-quote character (code 34), line feed and carriage return. *)
Definition dq : ascii := "034"%char.
Definition lf : ascii := "010"%char.
Definition cr : ascii := "013"%char.
Definition comma : ascii := ","%char.

Definition str1 (c : ascii) : string := String c EmptyString.

(** [sub in s] on strings: substring test. *)
Fixpoint str_in (sub s : string) : bool :=
  String.prefix sub s ||
  match s with
  | EmptyString => false
  | String _ s' => str_in sub s'
  end.

(** [s.replace(old, new)] for a non-empty [old]: occurrences are found
    left to right and do not overlap; [skip] counts the characters of
    the current occurrence still to be dropped. *)
Fixpoint replace_from (old new : string) (skip : nat) (s : string) : string :=
  match s with
  | EmptyString => EmptyString
  | String c s' =>
      match skip with
      | S k => replace_from old new k s'
      | O =>
          if String.prefix old s
          then new +:+ replace_from old new (String.length old - 1) s'
          else String c (replace_from old new 0 s')
      end
  end.

(** With an empty [old], Python puts [new] before every character and
    at the end. *)
Fixpoint intersperse_all (new s : string) : string :=
  match s with
  | EmptyString => new
  | String c s' => new +:+ String c (intersperse_all new s')
  end.

Definition str_replace (old new s : string) : string :=
  match old with
  | EmptyString => intersperse_all new s
  | String _ _ => replace_from old new 0 s
  end.

(** [s.count(c)] for a character [c] *)
Fixpoint str_count (c : ascii) (s : string) : nat :=
  match s with
  | EmptyString => 0
  | String a s' => (if Ascii.eqb a c then 1 else 0) + str_count c s'
  end.

(** [sep.join(l)] *)
Fixpoint str_join (sep : string) (l : list string) : string :=
  match l with
  | [] => EmptyString
  | [x] => x
  | x :: xs => x +:+ sep +:+ str_join sep xs
  end.

(** [str(n)] for an integer. *)
Definition str_of_int (n : Z) : string := NilZero.string_of_int (Z.to_int n).

End Py.
Import Py.

(** ** Records fetched from Airtable *)

(** A field value: string, number, boolean or null.  Numbers are the
    integers; floating-point values are outside this model. *)
Inductive value :=
| VStr (s : string)
| VInt (n : Z)
| VBool (b : bool)
| VNone.

#[global] Instance value_eq_dec : EqDecision value.
Proof. solve_decision. Defined.

(** [isinstance(v, str)] *)
Definition is_str (v : value) : bool :=
  match v with VStr _ => true | _ => false end.

(** One element of [airtable.get_all()]: a dict with the keys ['id'],
    ['fields'] and ['createdTime']. *)
Record record := Record_ {
  rec_id : string;
  fields : gmap string value;
  createdTime : string
}.

(** The body of the loop of [record_comma_check], for one value. *)
Definition comma_check_value (v : value) : value :=
  match v with
  | VStr s =>
      if str_in "," s
      then VStr (str_replace (str1 dq) (String dq (str1 dq)) s)
      else v
  | _ => v
  end.

(** [AirtableCSVManager.record_comma_check]: every key of
    [record['fields']] is visited once; its value is overwritten when
    it is a string that holds a comma. *)
Definition record_comma_check (r : record) : record :=
  {| rec_id := rec_id r;
     fields := comma_check_value <$> fields r;
     createdTime := createdTime r |}.

(** ** The [csv] module, excel dialect

    [delimiter = ','], the double quote as [quotechar], [doublequote = True],
    [escapechar = None], [skipinitialspace = False],
    [lineterminator = '\r\n'], [quoting = QUOTE_MINIMAL],
    [strict = False].  The branches of the C implementation that need
    an escape character or another quoting mode cannot be taken under
    this dialect and are left out. *)

Module Csv.

Definition crlf : string := String cr (str1 lf).

(** *** Writer *)

(** The characters that make [join_append_data] quote a field: the
    delimiter, the quote character and the characters of the line
    terminator. *)
Definition special (c : ascii) : bool :=
  Ascii.eqb c comma || Ascii.eqb c dq || Ascii.eqb c cr || Ascii.eqb c lf.

Fixpoint any_special (s : string) : bool :=
  match s with
  | EmptyString => false
  | String c s' => special c || any_special s'
  end.

(** Copying the field data: a quote character is written twice. *)
Fixpoint double_quotes (s : string) : string :=
  match s with
  | EmptyString => EmptyString
  | String c s' =>
      if Ascii.eqb c dq
      then String dq (String dq (double_quotes s'))
      else String c (double_quotes s')
  end.

Definition write_field (f : string) : string :=
  if any_special f
  then String dq (double_quotes f +:+ str1 dq)
  else f.

(** What the writer makes of one cell: [None] is written as the empty
    string, a string as it is, anything else through [str()]. *)
Definition cell_text (v : value) : string :=
  match v with
  | VStr s => s
  | VInt n => str_of_int n
  | VBool true => "True"
  | VBool false => "False"
  | VNone => EmptyString
  end.

Definition is_empty (s : string) : bool :=
  match s with EmptyString => true | _ => false end.

(** [writer.writerow(row)]: the text written to the file object.  A
    record that would be empty although it has a field (one empty
    field) is written as a quoted empty field. *)
Definition writer_writerow (row : list string) : string :=
  let body := str_join (str1 comma) (map write_field row) in
  (if (0 <? length row)%nat && is_empty body
   then String dq (str1 dq) else body) +:+ crlf.

(** [DictWriter._dict_to_list] with [extrasaction = 'raise'] and
    [restval = '']: a key outside [fieldnames] raises [ValueError]
    (the message lists the offending keys, which is left out here). *)
Definition dict_to_list (fieldnames : list string)
    (rowdict : gmap string value) : res (list value) :=
  if decide (dom rowdict ⊆ list_to_set fieldnames)
  then Ret (map (fun key => default (VStr EmptyString) (rowdict !! key)) fieldnames)
  else Raise (Exception "ValueError" "dict contains fields not in fieldnames").

(** [DictWriter.writerow(rowdict)] *)
Definition DictWriter_writerow (fieldnames : list string)
    (rowdict : gmap string value) : res string :=
  bind (dict_to_list fieldnames rowdict)
       (fun cells => Ret (writer_writerow (map cell_text cells))).

(** [DictWriter.writeheader()]:
    [self.writerow(dict(zip(self.fieldnames, self.fieldnames)))] *)
Definition DictWriter_writeheader (fieldnames : list string) : res string :=
  DictWriter_writerow fieldnames
    (list_to_map (zip fieldnames (map VStr fieldnames))).

(** *** Reader *)

Inductive parser_state :=
| START_RECORD | START_FIELD | IN_FIELD
| IN_QUOTED_FIELD | QUOTE_IN_QUOTED_FIELD | EAT_CRNL.

#[global] Instance parser_state_eq_dec : EqDecision parser_state.
Proof. solve_decision. Defined.

(** The reader object: the automaton state, the characters of the
    field being read and the fields of the record read so far.  The
    configurable limit on the size of one field
    ([csv.field_size_limit], 131072 characters unless changed) is not
    modelled: fields are taken to stay within it. *)
Record reader := Reader {
  state : parser_state;
  field : string;
  row_fields : list string
}.

(** A character of the line, or the end-of-line mark the reader feeds
    itself after each line. *)
Inductive input := Ch (c : ascii) | EOL.

Definition is_newline (i : input) : bool :=
  match i with
  | Ch c => Ascii.eqb c lf || Ascii.eqb c cr
  | EOL => false
  end.

Definition parse_reset : reader := Reader START_RECORD EmptyString [].

Definition parse_add_char (c : ascii) (st : parser_state) (r : reader) : reader :=
  Reader st (field r +:+ str1 c) (row_fields r).

Definition parse_save_field (st : parser_state) (r : reader) : reader :=
  Reader st EmptyString (row_fields r ++ [field r]).

Definition set_state (st : parser_state) (r : reader) : reader :=
  Reader st (field r) (row_fields r).

Definition csv_error (msg : string) : exn := Exception "_csv.Error" msg.

(** [case START_FIELD] of [parse_process_char] *)
Definition start_field (i : input) (r : reader) : res reader :=
  match i with
  | EOL => Ret (parse_save_field START_RECORD r)
  | Ch c =>
      if is_newline i then Ret (parse_save_field EAT_CRNL r)
      else if Ascii.eqb c dq then Ret (set_state IN_QUOTED_FIELD r)
      else if Ascii.eqb c comma then Ret (parse_save_field START_FIELD r)
      else Ret (parse_add_char c IN_FIELD r)
  end.

(** [parse_process_char] *)
Definition parse_process_char (i : input) (r : reader) : res reader :=
  match state r with
  | START_RECORD =>
      match i with
      | EOL => Ret r
      | Ch _ =>
          if is_newline i then Ret (set_state EAT_CRNL r)
          else start_field i r
      end
  | START_FIELD => start_field i r
  | IN_FIELD =>
      match i with
      | EOL => Ret (parse_save_field START_RECORD r)
      | Ch c =>
          if is_newline i then Ret (parse_save_field EAT_CRNL r)
          else if Ascii.eqb c comma then Ret (parse_save_field START_FIELD r)
          else Ret (parse_add_char c IN_FIELD r)
      end
  | IN_QUOTED_FIELD =>
      match i with
      | EOL => Ret r
      | Ch c =>
          if Ascii.eqb c dq then Ret (set_state QUOTE_IN_QUOTED_FIELD r)
          else Ret (parse_add_char c IN_QUOTED_FIELD r)
      end
  | QUOTE_IN_QUOTED_FIELD =>
      match i with
      | EOL => Ret (parse_save_field START_RECORD r)
      | Ch c =>
          if Ascii.eqb c dq then Ret (parse_add_char c IN_QUOTED_FIELD r)
          else if Ascii.eqb c comma then Ret (parse_save_field START_FIELD r)
          else if is_newline i then Ret (parse_save_field EAT_CRNL r)
          else Ret (parse_add_char c IN_FIELD r)
      end
  | EAT_CRNL =>
      match i with
      | EOL => Ret (set_state START_RECORD r)
      | Ch _ =>
          if is_newline i then Ret r
          else Raise (csv_error "new-line character seen in unquoted field - do you need to open the file in universal-newline mode?")
      end
  end.

(** The inner [while] loop of [Reader_iternext]: the characters of
    one line. *)
Fixpoint feed_line (line : string) (r : reader) : res reader :=
  match line with
  | EmptyString => Ret r
  | String c line' => bind (parse_process_char (Ch c) r) (feed_line line')
  end.

(** What is returned when the line iterator is exhausted: a pending
    field closes a last record, otherwise the iteration stops. *)
Definition end_of_input (r : reader) : list (list string) :=
  if negb (is_empty (field r)) || bool_decide (state r = IN_QUOTED_FIELD)
  then [row_fields r ++ [field r]]
  else [].

(** [list(csv.reader(lines))]: [Reader_iternext] called until it
    stops.  [r] is the reader in the middle of a record that spans
    several lines, [parse_reset] at the start of each record. *)
Fixpoint read_rows (lines : list string) (r : reader) : res (list (list string)) :=
  match lines with
  | [] => Ret (end_of_input r)
  | line :: lines' =>
      bind (feed_line line r) (fun r1 =>
      bind (parse_process_char EOL r1) (fun r2 =>
        if bool_decide (state r2 = START_RECORD)
        then bind (read_rows lines' parse_reset)
                  (fun rows => Ret (row_fields r2 :: rows))
        else read_rows lines' r2))
  end.

(** Iterating over [io.StringIO(text)]: a line ends after each line
    feed and keeps it; [cur] is the line being collected. *)
Fixpoint readlines_from (cur : string) (text : string) : list string :=
  match text with
  | EmptyString => if is_empty cur then [] else [cur]
  | String c text' =>
      if Ascii.eqb c lf
      then (cur +:+ str1 c) :: readlines_from EmptyString text'
      else readlines_from (cur +:+ str1 c) text'
  end.

(** [list(csv.reader(io.StringIO(text)))] *)
Definition csv_reader (text : string) : res (list (list string)) :=
  read_rows (readlines_from EmptyString text) parse_reset.

(** *** The text of several records, and the reader character by character *)

(** What [writerow] leaves in the file object after the records
    [rows]. *)
Fixpoint concat_rows (rows : list (list string)) : string :=
  match rows with
  | [] => EmptyString
  | r :: rows' => writer_writerow r +:+ concat_rows rows'
  end.

(** The reader run over the text itself instead of over its lines:
    the end-of-line mark is fed after each line feed and at the end
    of a last line without one ([open_line] tells whether the current
    line has characters).  [read_rows_scan] below shows that this is
    [read_rows] over [readlines_from]. *)
Fixpoint scan (text : string) (r : reader) (open_line : bool)
    : res (list (list string)) :=
  match text with
  | EmptyString =>
      if open_line then
        bind (parse_process_char EOL r) (fun r2 =>
          if bool_decide (state r2 = START_RECORD)
          then Ret [row_fields r2]
          else Ret (end_of_input r2))
      else Ret (end_of_input r)
  | String c text' =>
      bind (parse_process_char (Ch c) r) (fun r1 =>
        if Ascii.eqb c lf then
          bind (parse_process_char EOL r1) (fun r2 =>
            if bool_decide (state r2 = START_RECORD)
            then bind (scan text' parse_reset false)
                      (fun rows => Ret (row_fields r2 :: rows))
            else scan text' r2 false)
        else scan text' r1 true)
  end.

End Csv.

(** ** Python containers *)

(** A [dict] keeps its keys in insertion order: an association list
    whose keys are pairwise distinct. *)
Module Dict.
Section Ops.
Context {V : Type}.

Definition t := list (string * V).

Definition keys (d : t) : list string := map fst d.

(** [d.get(k)] *)
Fixpoint get (k : string) (d : t) : option V :=
  match d with
  | [] => None
  | (k', v) :: d' => if String.eqb k k' then Some v else get k d'
  end.

(** [k in d] *)
Definition mem (k : string) (d : t) : bool :=
  match get k d with Some _ => true | None => false end.

(** [d[k] = v]: an existing key keeps its place, a new one goes
    last. *)
Fixpoint set (k : string) (v : V) (d : t) : t :=
  match d with
  | [] => [(k, v)]
  | (k', v') :: d' =>
      if String.eqb k k' then (k', v) :: d' else (k', v') :: set k v d'
  end.

(** [del d[k]]: [KeyError] when the key is missing. *)
Fixpoint del (k : string) (d : t) : res t :=
  match d with
  | [] => Raise (Exception "KeyError" k)
  | (k', v') :: d' =>
      if String.eqb k k' then Ret d'
      else bind (del k d') (fun d'' => Ret ((k', v') :: d''))
  end.

Definition wf (d : t) : Prop := NoDup (keys d).
End Ops.
Arguments t : clear implicits.
End Dict.

(** [x in l] for a list of strings *)
Definition list_mem (x : string) (l : list string) : bool :=
  existsb (String.eqb x) l.

(** [l.remove(x)]: the first occurrence goes, [ValueError] when there is
    none. *)
Fixpoint list_remove (x : string) (l : list string) : res (list string) :=
  match l with
  | [] => Raise (Exception "ValueError" "list.remove(x): x not in list")
  | y :: l' =>
      if String.eqb x y then Ret l'
      else bind (list_remove x l') (fun l'' => Ret (y :: l''))
  end.

(** ** Stateful computations

    A method call runs on a state, may change it, and returns or
    raises; the state reached when an exception is raised is kept. *)
Module St.
Definition M (S A : Type) : Type := S -> res A * S.

Definition ret {S A} (a : A) : M S A := fun s => (Ret a, s).
Definition raise {S A} (e : exn) : M S A := fun s => (Raise e, s).
Definition lift {S A} (r : res A) : M S A := fun s => (r, s).

Definition bindM {S A B} (m : M S A) (k : A -> M S B) : M S B :=
  fun s =>
    match m s with
    | (Ret a, s') => k a s'
    | (Raise e, s') => (Raise e, s')
    end.

(** [try: m  except Exception as e: h e] *)
Definition try_except {S A} (m : M S A) (h : exn -> M S A) : M S A :=
  fun s =>
    match m s with
    | (Ret a, s') => (Ret a, s')
    | (Raise e, s') => h e s'
    end.

(** Running a computation on the second component of a pair. *)
Definition on_snd {S T A} (m : M T A) : M (S * T) A :=
  fun st => let '(r, t') := m (snd st) in (r, (fst st, t')).

(** Running a computation on the first component of a pair. *)
Definition on_fst {S T A} (m : M S A) : M (S * T) A :=
  fun st => let '(r, s') := m (fst st) in (r, (s', snd st)).

Definition get {S} : M S S := fun s => (Ret s, s).
End St.
Import St.

Notation "x <- m ;; k" := (bindM m (fun x => k))
  (at level 100, m at next level, right associativity).
Notation "m ;;; k" := (bindM m (fun _ => k))
  (at level 100, right associativity).

(** ** Objects *)

(** The identity of a [SQLiteStorage] object. *)
Definition storage_ref := positive.

(** A row as the storage returns it: column name to value. *)
Definition row := gmap string value.

(** [AirtableCSVManager] *)
Record AirtableCSVManager := Handle {
  base_id : string;
  table_name : string;
  api_key : string;
  sqlite_storage : option storage_ref
}.

(** [AirtableMultiManager].  [table_names] is a Python list and is kept
    as one. *)
Record AirtableMultiManager := Coordinator {
  mm_api_key : string;
  mm_base_id : string;
  managers : Dict.t AirtableCSVManager;
  mm_sqlite_storage : storage_ref;
  table_names : list string
}.

(** The answer of [requests.get]: status, body text and what
    [response.json()] gives.  The body read by [get_tables_from_base]
    is an object whose optional ['tables'] entry lists objects with
    string attributes. *)
Record response := Response {
  status_code : Z;
  text : string;
  json : res (option (list (gmap string string)))
}.

(** The entries [from_config_dict] reads from its [config] dictionary
    with [config.get]: ['api_key'], ['base_id'] and ['table_names'],
    each absent or present with a value of its type.  Other entries
    are not looked at. *)
Record config := Config {
  cfg_api_key : option string;
  cfg_base_id : option string;
  cfg_table_names : option (list string)
}.

(** The objects a call can reach: the content of every storage object
    ([db] is the content of one), the next unused identity, and what
    was printed. *)
Record world (db : Type) := World {
  stores : storage_ref -> db;
  next_ref : storage_ref;
  stdout : list string
}.
Arguments World {db} _ _ _.
Arguments stores {db} _ _.
Arguments next_ref {db} _.
Arguments stdout {db} _.

(** ** A storage backend *)

(** Modelled from the spec: [sqlite_storage.SQLiteStorage] is missing
    from these files.  The specification describes it as a keyed
    relational store addressed by table name, with an import that
    replaces all rows of one table and leaves the others alone, a point
    lookup of the first row whose key column holds a value, the same
    lookup followed by the extraction of one column, and a read query
    scoped to a table.  The text of a query is not interpreted here:
    a query on a stored table returns all its rows. *)
Module SimpleStorage.

Definition db := gmap string (list row).

Definition empty_db : db := ∅.

(** The rows of a CSV text: the first row names the columns. *)
Definition rows_of_csv (csv_data : string) : res (list row) :=
  bind (Csv.csv_reader csv_data) (fun rows =>
    match rows with
    | [] => Ret []
    | header :: body =>
        Ret (map (fun cells => list_to_map (zip header (map VStr cells))) body)
    end).

Definition import_csv_rows (table csv_data : string) : M db unit :=
  fun d =>
    match rows_of_csv csv_data with
    | Ret rows => (Ret tt, <[table := rows]> d)
    | Raise e => (Raise e, d)
    end.

Definition matches (column val : string) (r : row) : bool :=
  bool_decide (r !! column = Some (VStr val)).

Definition find_row_by_column (table column val : string) : M db (option row) :=
  fun d => (Ret (List.find (matches column val) (default [] (d !! table))), d).

Definition find_value_by_row_and_column (table column val target : string)
    : M db (option value) :=
  fun d =>
    (Ret (match List.find (matches column val) (default [] (d !! table)) with
          | Some r => r !! target
          | None => None
          end), d).

Definition execute_sql_query (table sql_query : string) : M db (option (list row)) :=
  fun d => (Ret (d !! table), d).

End SimpleStorage.

(** ** Sample data *)

Module Sample.

(** The value [He said "hi", bye] of the specification. *)
Definition hi_bye : string :=
  "He said " +:+ String dq ("hi" +:+ String dq ", bye").

(** The same text with each quote written twice. *)
Definition hi_bye_doubled : string :=
  "He said " +:+ String dq (String dq ("hi" +:+ String dq (String dq ", bye"))).

(** A string with a quote and no comma. *)
Definition a_quote_b : string := String "a" (String dq "b").

Definition quote_record : record :=
  Record_ "rec1" {[ "Quote" := VStr hi_bye ]} "2024-01-01T00:00:00.000Z".

Definition plain_record : record :=
  Record_ "rec2" {[ "Note" := VStr a_quote_b ]} "2024-01-01T00:00:00.000Z".

Definition mixed_record : record :=
  Record_ "rec3" (<[ "Count" := VInt 3 ]> {[ "Done" := VBool true ]})
          "2024-01-01T00:00:00.000Z".

Definition connection_error : exn :=
  Exception "ConnectionError" "connection refused".

(** A remote base with the tables [T1] and [T3]; fetching [T2] fails
    and every other table is empty. *)
Definition airtable_get_all (base table key : string) : res (list record) :=
  if String.eqb table "T1" then Ret [quote_record; mixed_record]
  else if String.eqb table "T2" then Raise connection_error
  else if String.eqb table "T3" then Ret [plain_record]
  else Ret [].

(** A remote table holding only [quote_record]. *)
Definition airtable_quotes (base table key : string) : res (list record) :=
  Ret [quote_record].

(** A metadata endpoint that cannot be reached. *)
Definition requests_get_down (url : string) (headers : list (string * string))
    : res response :=
  Raise connection_error.

(** A metadata endpoint that answers 404. *)
Definition requests_get_404 (url : string) (headers : list (string * string))
    : res response :=
  Ret (Response 404 "NOT_FOUND" (Ret None)).

Definition w0 : world SimpleStorage.db :=
  World (fun _ => SimpleStorage.empty_db) 2%positive [].

Definition handle (name : string) : AirtableCSVManager :=
  Handle "appBase" name "key" (Some 1%positive).

(** A handle without storage. *)
Definition bare_handle : AirtableCSVManager :=
  Handle "appBase" "T1" "key" None.

Definition coordinator : AirtableMultiManager :=
  Coordinator "key" "appBase"
    [("T1", handle "T1"); ("T2", handle "T2"); ("T3", handle "T3")]
    1%positive ["T1"; "T2"; "T3"].

(** A metadata endpoint that lists the tables [T3] and [T4]. *)
Definition requests_get_tables (url : string) (headers : list (string * string))
    : res response :=
  Ret (Response 200 "OK"
         (Ret (Some [ {[ "name" := "T3" ]};
                      <[ "id" := "tbl4" ]> {[ "name" := "T4" ]} ]))).

(** A metadata endpoint that answers 200 and lists no table. *)
Definition requests_get_empty (url : string) (headers : list (string * string))
    : res response :=
  Ret (Response 200 "OK" (Ret (Some []))).

(** A process environment with both variables set, and one without
    the base. *)
Definition environ : gmap string string :=
  <[ "AIRTABLE_API_KEY" := "key" ]> {[ "AIRTABLE_BASE_ID" := "appBase" ]}.

Definition environ_no_base : gmap string string :=
  {[ "AIRTABLE_API_KEY" := "key" ]}.

(** A configuration for the tables [T1] and [T2], and one with an
    empty key. *)
Definition config_T1_T2 : config :=
  Config (Some "key") (Some "appBase") (Some ["T1"; "T2"]).

Definition config_empty_key : config :=
  Config (Some EmptyString) (Some "appBase") None.

End Sample.

Section Sync.

#[local] Set Default Proof Using "Type".
#[local] Set Proof Using Clear Unused.

(** *** Collaborators

    [sqlite_storage.SQLiteStorage] and the [airtable] and [requests]
    packages are not part of these files: their operations are taken
    as they are called.  [db] is the content of one storage object;
    every storage operation may change it and may raise. *)
Context {db : Type}.
Variable SQLiteStorage_new : db.
Variable import_csv_rows : string -> string -> M db unit.
Variable find_row_by_column : string -> string -> string -> M db (option row).
Variable find_value_by_row_and_column :
  string -> string -> string -> string -> M db (option value).
Variable storage_execute_sql_query : string -> string -> M db (option (list row)).
(** [Airtable(base_id, table_name, api_key).get_all()] *)
Variable airtable_get_all : string -> string -> string -> res (list record).
(** [requests.get(url, headers=headers)] *)
Variable requests_get : string -> list (string * string) -> res response.

(** A method call on the storage object [st]. *)
Definition on_store {A} (st : storage_ref) (m : M db A) : M (world db) A :=
  fun w =>
    let '(r, d') := m (stores w st) in
    (r, World (fun st' => if decide (st' = st) then d' else stores w st')
              (next_ref w) (stdout w)).

(** [SQLiteStorage()] *)
Definition SQLiteStorage_init : M (world db) storage_ref :=
  fun w =>
    let st := next_ref w in
    (Ret st, World (fun st' => if decide (st' = st) then SQLiteStorage_new
                                else stores w st')
                   (Pos.succ st) (stdout w)).

Definition print (line : string) : M (world db) unit :=
  fun w => (Ret tt, World (stores w) (next_ref w) (stdout w ++ [line])).

(** The world after the lines [lines] were printed. *)
Definition printed (w : world db) (lines : list string) : world db :=
  World (stores w) (next_ref w) (stdout w ++ lines).

(** *** [AirtableCSVManager] *)

(** Lines 23-26: the union of the field names of all records. *)
Definition union_fieldnames (records : list record) : gset string :=
  foldl (fun acc r => acc ∪ dom (fields r)) ∅ records.

Definition collect_fieldnames (records : list record) : list string :=
  elements (union_fieldnames records).

(** Lines 32-36: each record goes through [record_comma_check] and is
    written; [output] is the text written so far. *)
Fixpoint write_records (fieldnames : list string) (records : list record)
    (output : string) : res string :=
  match records with
  | [] => Ret output
  | r :: records' =>
      let r' := record_comma_check r in
      bind (Csv.DictWriter_writerow fieldnames (fields r'))
           (fun line => write_records fieldnames records' (output +:+ line))
  end.

(** Lines 23-39: [csv_data] for a non-empty list of records. *)
Definition build_csv (records : list record) : res string :=
  let fieldnames := collect_fieldnames records in
  bind (Csv.DictWriter_writeheader fieldnames)
       (fun header => write_records fieldnames records header).

(** The cells [DictWriter.writerow] writes for a record, as texts. *)
Definition row_cells (fieldnames : list string) (r : record) : list string :=
  map (fun key => Csv.cell_text (default (VStr EmptyString)
                               (fields (record_comma_check r) !! key)))
      fieldnames.

Definition success_message (name : string) : string :=
  "Successfully updated DB from Airtable for table " +:+ name +:+ ".".

Definition update_csv_from_airtable (self : AirtableCSVManager)
    : M (world db) (option string) :=
  records <- lift (airtable_get_all (base_id self) (table_name self) (api_key self)) ;;
  match records with
  | [] => ret None
  | _ :: _ =>
      csv_data <- lift (build_csv records) ;;
      match sqlite_storage self with
      | Some st => on_store st (import_csv_rows (table_name self) csv_data)
      | None => ret tt
      end ;;;
      ret (Some (success_message (table_name self)))
  end.

Definition get_row (self : AirtableCSVManager)
    (column_containing_reference reference_value : string)
    : M (world db) (option row) :=
  match sqlite_storage self with
  | Some st =>
      on_store st (find_row_by_column (table_name self)
                     column_containing_reference reference_value)
  | None => ret None
  end.

Definition get_value_by_row_and_column (self : AirtableCSVManager)
    (column_containing_reference reference_value target_column : string)
    : M (world db) (option value) :=
  match sqlite_storage self with
  | Some st =>
      on_store st (find_value_by_row_and_column (table_name self)
                     column_containing_reference reference_value target_column)
  | None => ret None
  end.

Definition execute_sql_query (self : AirtableCSVManager) (sql_query : string)
    : M (world db) (option (list row)) :=
  match sqlite_storage self with
  | Some st => on_store st (storage_execute_sql_query (table_name self) sql_query)
  | None => ret None
  end.

(** *** [AirtableMultiManager] *)

(** The handle built at lines 41-46 and again at lines 57-62. *)
Definition new_manager (self : AirtableMultiManager) (name : string)
    : AirtableCSVManager :=
  Handle (mm_base_id self) name (mm_api_key self) (Some (mm_sqlite_storage self)).

Definition set_managers (self : AirtableMultiManager)
    (ms : Dict.t AirtableCSVManager) : AirtableMultiManager :=
  Coordinator (mm_api_key self) (mm_base_id self) ms
              (mm_sqlite_storage self) (table_names self).

Definition set_table_names (self : AirtableMultiManager)
    (names : list string) : AirtableMultiManager :=
  Coordinator (mm_api_key self) (mm_base_id self) (managers self)
              (mm_sqlite_storage self) names.

Definition _initialize_managers (self : AirtableMultiManager)
    : AirtableMultiManager :=
  foldl (fun self' name =>
           set_managers self' (Dict.set name (new_manager self' name) (managers self')))
        self (table_names self).

(** [__init__]: [sqlite_storage or SQLiteStorage()], the default
    table list, then the handles. *)
Definition init (api_key base_id : string) (names : option (list string))
    (storage : option storage_ref) : M (world db) AirtableMultiManager :=
  st <- match storage with
        | Some st => ret st
        | None => SQLiteStorage_init
        end ;;
  ret (_initialize_managers
         (Coordinator api_key base_id [] st
            (match names with
             | None => ["DataHub_Craffft"]
             | Some l => l
             end))).

(** The storage object of a new coordinator and the world after it
    was chosen: the one passed, or a new one. *)
Definition chosen_storage (storage : option storage_ref) (w : world db)
    : storage_ref * world db :=
  match storage with
  | Some st => (st, w)
  | None =>
      (next_ref w,
       World (fun st' => if decide (st' = next_ref w) then SQLiteStorage_new
                         else stores w st')
             (Pos.succ (next_ref w)) (stdout w))
  end.

(** [not s] for an optional string: [None] and the empty string are
    false. *)
Definition str_falsy (o : option string) : bool :=
  match o with
  | None => true
  | Some s => Csv.is_empty s
  end.

Definition value_error (msg : string) : exn := Exception "ValueError" msg.

(** [from_environment]: [environ] is the process environment read by
    [os.getenv]. *)
Definition from_environment (environ : gmap string string)
    : M (world db) AirtableMultiManager :=
  let api_key := environ !! "AIRTABLE_API_KEY" in
  let base_id := environ !! "AIRTABLE_BASE_ID" in
  if str_falsy api_key then
    raise (value_error "AIRTABLE_API_KEY environment variable is required")
  else if str_falsy base_id then
    raise (value_error "AIRTABLE_BASE_ID environment variable is required")
  else
    sqlite_storage <- SQLiteStorage_init ;;
    init (default EmptyString api_key) (default EmptyString base_id)
         None (Some sqlite_storage).

(** [from_config_dict] *)
Definition from_config_dict (cfg : config) : M (world db) AirtableMultiManager :=
  let api_key := cfg_api_key cfg in
  let base_id := cfg_base_id cfg in
  let table_names := cfg_table_names cfg in
  if str_falsy api_key then
    raise (value_error "api_key is required in config")
  else if str_falsy base_id then
    raise (value_error "base_id is required in config")
  else
    sqlite_storage <- SQLiteStorage_init ;;
    init (default EmptyString api_key) (default EmptyString base_id)
         table_names (Some sqlite_storage).

Definition add_table (name : string) : M AirtableMultiManager unit :=
  fun self =>
    let self1 :=
      if list_mem name (table_names self) then self
      else set_table_names self (table_names self ++ [name]) in
    (Ret tt,
     set_managers self1 (Dict.set name (new_manager self1 name) (managers self1))).

Definition get_manager (self : AirtableMultiManager) (name : string)
    : option AirtableCSVManager :=
  Dict.get name (managers self).

Definition no_attribute (attr : string) : exn :=
  Exception "AttributeError"
    ("'AirtableCSVManager' object has no attribute '" +:+ attr +:+ "'").

(** [AirtableCSVManager] has no [read_csv]. *)
Definition get_csv_data (self : AirtableMultiManager) (name : string)
    : M (world db) (option string) :=
  match get_manager self name with
  | Some _ => raise (no_attribute "read_csv")
  | None => ret None
  end.

Definition mm_update_csv_from_airtable (self : AirtableMultiManager)
    (name : string) : M (world db) (option string) :=
  match get_manager self name with
  | Some manager => update_csv_from_airtable manager
  | None => ret None
  end.

(** [AirtableCSVManager] has no [convert_csv_to_json]. *)
Definition convert_csv_to_json (self : AirtableMultiManager) (name : string)
    : M (world db) (option string) :=
  match get_manager self name with
  | Some _ => raise (no_attribute "convert_csv_to_json")
  | None => ret None
  end.

(** [result if result else "Failed to update"] *)
Definition or_failed (result : option string) : string :=
  match result with
  | Some msg => if Csv.is_empty msg then "Failed to update" else msg
  | None => "Failed to update"
  end.

(** The loop of [update_all_tables] over the keys still to visit. *)
Fixpoint update_tables (self : AirtableMultiManager) (names : list string)
    (results : Dict.t string) : M (world db) (Dict.t string) :=
  match names with
  | [] => ret results
  | name :: names' =>
      results' <-
        try_except
          (result <- mm_update_csv_from_airtable self name ;;
           ret (Dict.set name (or_failed result) results))
          (fun e => ret (Dict.set name ("Error: " +:+ exc_msg e) results)) ;;
      update_tables self names' results'
  end.

Definition update_all_tables (self : AirtableMultiManager)
    : M (world db) (Dict.t string) :=
  update_tables self (Dict.keys (managers self)) [].

Definition get_available_tables (self : AirtableMultiManager) : list string :=
  Dict.keys (managers self).

Definition remove_table (name : string) : M AirtableMultiManager bool :=
  fun self =>
    if Dict.mem name (managers self) then
      match Dict.del name (managers self) with
      | Raise e => (Raise e, self)
      | Ret ms =>
          let self1 := set_managers self ms in
          if list_mem name (table_names self1) then
            match list_remove name (table_names self1) with
            | Raise e => (Raise e, self1)
            | Ret names => (Ret true, set_table_names self1 names)
            end
          else (Ret true, self1)
      end
    else (Ret false, self).

(** [table['name']] *)
Definition table_name_of (table : gmap string string) : res string :=
  match table !! "name" with
  | Some n => Ret n
  | None => Raise (Exception "KeyError" "'name'")
  end.

(** The list comprehension of line 236. *)
Fixpoint names_of_tables (tables : list (gmap string string)) : res (list string) :=
  match tables with
  | [] => Ret []
  | t :: tables' =>
      bind (table_name_of t) (fun n =>
      bind (names_of_tables tables') (fun ns => Ret (n :: ns)))
  end.

(** The request of lines 224-230. *)
Definition meta_headers (self : AirtableMultiManager) : list (string * string) :=
  [("Authorization", "Bearer " +:+ mm_api_key self);
   ("Content-Type", "application/json")].

Definition meta_url (base : string) : string :=
  "https://api.airtable.com/v0/meta/bases/" +:+ base +:+ "/tables".

Definition get_tables_from_base (self : AirtableMultiManager)
    (base : option string) : M (world db) (option (list string)) :=
  let base := match base with None => mm_base_id self | Some b => b end in
  try_except
    (response <- lift (requests_get (meta_url base) (meta_headers self)) ;;
     if (status_code response =? 200)%Z then
       data <- lift (json response) ;;
       names <- lift (names_of_tables (default [] data)) ;;
       ret (Some names)
     else
       print ("Failed to get tables from base " +:+ base +:+ ": "
              +:+ str_of_int (status_code response)) ;;;
       print ("Response: " +:+ text response) ;;;
       ret None)
    (fun e =>
       print ("Error getting tables from base " +:+ base +:+ ": " +:+ exc_msg e) ;;;
       ret None).

(** The loop of [discover_and_add_tables_from_base]. *)
Fixpoint add_discovered (names : list string) (results : Dict.t bool)
    : M (AirtableMultiManager * world db) (Dict.t bool) :=
  match names with
  | [] => ret results
  | name :: names' =>
      results' <-
        try_except
          (on_fst (add_table name) ;;;
           ret (Dict.set name true results))
          (fun e =>
             on_snd (print ("Failed to add table " +:+ name +:+ ": " +:+ exc_msg e)) ;;;
             ret (Dict.set name false results)) ;;
      add_discovered names' results'
  end.

Definition discover_and_add_tables_from_base
    : M (AirtableMultiManager * world db) (Dict.t bool) :=
  self <- on_fst get ;;
  found <- on_snd (get_tables_from_base self None) ;;
  match found with
  | Some (n :: ns) => add_discovered (n :: ns) []
  | Some [] | None =>
      on_snd (print ("No tables found or failed to retrieve tables from base "
                     +:+ mm_base_id self)) ;;;
      ret []
  end.

Definition get_value (self : AirtableMultiManager)
    (name column_containing_reference reference_value target_column : string)
    : M (world db) (option value) :=
  match get_manager self name with
  | Some manager =>
      get_value_by_row_and_column manager
        column_containing_reference reference_value target_column
  | None => ret None
  end.

Definition mm_execute_sql_query (self : AirtableMultiManager)
    (name sql_query : string) : M (world db) (option (list row)) :=
  match get_manager self name with
  | Some manager => execute_sql_query manager sql_query
  | None => ret None
  end.

(** *** Sequences of registrations *)

(** The operations that change the set of tables. *)
Inductive op :=
| OpAdd (name : string)
| OpRemove (name : string)
| OpDiscover.

Definition apply_op (o : op) : M (AirtableMultiManager * world db) unit :=
  match o with
  | OpAdd name => on_fst (add_table name)
  | OpRemove name => on_fst (remove_table name) ;;; ret tt
  | OpDiscover => discover_and_add_tables_from_base ;;; ret tt
  end.

Fixpoint run_ops (ops : list op) : M (AirtableMultiManager * world db) unit :=
  match ops with
  | [] => ret tt
  | o :: ops' => apply_op o ;;; run_ops ops'
  end.

(** The registered names and the handles correspond: the keys of
    [managers] are the names of [table_names], in the same order and
    without repetition, and each handle is the one the coordinator
    builds for its key. *)
Definition coordinator_inv (self : AirtableMultiManager) : Prop :=
  NoDup (table_names self) /\
  Dict.keys (managers self) = table_names self /\
  forall k h, In (k, h) (managers self) -> h = new_manager self k.

(** The three outcomes [update_all_tables] records for a table. *)
Definition outcome (self : AirtableMultiManager) (name msg : string) : Prop :=
  (exists h, get_manager self name = Some h /\
             msg = success_message (table_name h))
  \/ msg = "Failed to update"
  \/ exists e, msg = "Error: " +:+ exc_msg e.

(** *** Calling a method by name *)

(** What the table-scoped methods return. *)
Inductive pyobj :=
| PNone
| PStr (s : string)
| PValue (v : value)
| PRows (rs : list row)
| PManager (m : AirtableCSVManager).

Definition of_option {A} (inj : A -> pyobj) (o : option A) : pyobj :=
  match o with Some a => inj a | None => PNone end.

(** Every name bound in the body of [class AirtableMultiManager] or
    assigned on [self] by [__init__]. *)
Definition AirtableMultiManager_attributes : list string :=
  ["__init__"; "_initialize_managers"; "add_table"; "get_manager";
   "get_csv_data"; "update_csv_from_airtable"; "convert_csv_to_json";
   "update_all_tables"; "get_available_tables"; "remove_table";
   "from_environment"; "from_config_dict"; "get_tables_from_base";
   "discover_and_add_tables_from_base"; "get_value"; "execute_sql_query";
   "api_key"; "base_id"; "managers"; "sqlite_storage"; "table_names"].

Definition type_error (msg : string) : exn := Exception "TypeError" msg.

(** The names of the missing parameters as CPython lists them: ['a'],
    ['a' and 'b'], ['a', 'b', and 'c']. *)
Definition quoted (s : string) : string := "'" +:+ s +:+ "'".

Definition missing_names (names : list string) : string :=
  match names with
  | [] => EmptyString
  | [a] => quoted a
  | [a; b] => quoted a +:+ " and " +:+ quoted b
  | _ =>
      str_join ", " (map quoted (removelast names))
      +:+ ", and " +:+ quoted (List.last names EmptyString)
  end.

(** The [TypeError] of CPython (3.10 and later, which name the
    function by its qualified name) for a call with [given]
    positional arguments, and no others, of a function whose
    parameters [params] are all positional and without default;
    both counts include [self]. *)
Definition arity_error (qualname : string) (params : list string) (given : nat)
    : exn :=
  let missing := drop given params in
  if (given <? length params)%nat then
    type_error
      (qualname +:+ "() missing " +:+ str_of_int (Z.of_nat (length missing))
       +:+ " required positional argument"
       +:+ (if (length missing =? 1)%nat then EmptyString else "s")
       +:+ ": " +:+ missing_names missing)
  else
    type_error
      (qualname +:+ "() takes " +:+ str_of_int (Z.of_nat (length params))
       +:+ " positional argument"
       +:+ (if (length params =? 1)%nat then EmptyString else "s")
       +:+ " but " +:+ str_of_int (Z.of_nat given)
       +:+ (if (given =? 1)%nat then " was" else " were") +:+ " given").

Definition mm_no_attribute (attr : string) : exn :=
  Exception "AttributeError"
    ("'AirtableMultiManager' object has no attribute '" +:+ attr +:+ "'").

(** [getattr(self, attr)(name, *args)] with string arguments, for the
    methods that read through the handle of the table [name].  A call
    with too few or too many arguments raises [TypeError]; an
    attribute the object does not have raises [AttributeError]; the
    result is [None] for the other attributes of the class and for
    the special names every object has, which are not calls of this
    kind. *)
Definition call_table_method (self : AirtableMultiManager)
    (attr name : string) (args : list string) : option (M (world db) pyobj) :=
  let wrong_arity {A} (params : list string) : M (world db) A :=
    raise (arity_error ("AirtableMultiManager." +:+ attr) ("self" :: params)
             (2 + length args)) in
  if String.eqb attr "get_manager" then
    Some (match args with
          | [] => ret (of_option PManager (get_manager self name))
          | _ => wrong_arity ["table_name"]
          end)
  else if String.eqb attr "get_csv_data" then
    Some (match args with
          | [] => r <- get_csv_data self name ;; ret (of_option PStr r)
          | _ => wrong_arity ["table_name"]
          end)
  else if String.eqb attr "update_csv_from_airtable" then
    Some (match args with
          | [] => r <- mm_update_csv_from_airtable self name ;; ret (of_option PStr r)
          | _ => wrong_arity ["table_name"]
          end)
  else if String.eqb attr "convert_csv_to_json" then
    Some (match args with
          | [] => r <- convert_csv_to_json self name ;; ret (of_option PStr r)
          | _ => wrong_arity ["table_name"]
          end)
  else if String.eqb attr "get_value" then
    Some (match args with
          | [c; v; t] => r <- get_value self name c v t ;; ret (of_option PValue r)
          | _ => wrong_arity ["table_name"; "column_containing_reference";
                              "reference_value"; "target_column"]
          end)
  else if String.eqb attr "execute_sql_query" then
    Some (match args with
          | [q] => r <- mm_execute_sql_query self name q ;; ret (of_option PRows r)
          | _ => wrong_arity ["table_name"; "sql_query"]
          end)
  else if list_mem attr AirtableMultiManager_attributes
          || (String.prefix "__" attr) then None
  else Some (raise (mm_no_attribute attr)).

(** ** Facts about strings and the [csv] module *)

Import Csv.

Lemma str_app_nil (s : string) : EmptyString +:+ s = s.
Proof. reflexivity. Qed.

Lemma str_app_cons (a : ascii) (s t : string) : String a s +:+ t = String a (s +:+ t).
Proof. reflexivity. Qed.

Ltac str_simpl := repeat (rewrite ?str_app_nil, ?str_app_cons; simpl).

Lemma app_nil_r_str (s : string) : s +:+ EmptyString = s.
Proof. induction s; str_simpl; congruence. Qed.

Lemma app_assoc_str (a b c : string) : (a +:+ b) +:+ c = a +:+ (b +:+ c).
Proof. induction a; str_simpl; congruence. Qed.

Lemma app_str1 (a : string) (c : ascii) (b : string) :
  (a +:+ str1 c) +:+ b = a +:+ String c b.
Proof. unfold str1. induction a; str_simpl; congruence. Qed.

Lemma is_empty_app_str1 (a : string) (c : ascii) : is_empty (a +:+ str1 c) = false.
Proof. destruct a; reflexivity. Qed.

Lemma feed_line_snoc (cur : string) (c : ascii) (r : reader) :
  feed_line (cur +:+ str1 c) r = bind (feed_line cur r) (parse_process_char (Ch c)).
Proof.
  revert r. induction cur as [|a cur IH]; intros r; str_simpl.
  - destruct (parse_process_char (Ch c) r); reflexivity.
  - destruct (parse_process_char (Ch a) r) as [r1|e]; simpl; [apply IH | reflexivity].
Qed.

Lemma read_rows_raise (text cur : string) (r : reader) (e : exn) :
  feed_line cur r = Raise e -> is_empty cur = false ->
  read_rows (readlines_from cur text) r = Raise e.
Proof.
  revert cur. induction text as [|c text IH]; intros cur Hf Hne; simpl.
  - rewrite Hne. simpl. rewrite Hf. reflexivity.
  - destruct (Ascii.eqb c lf).
    + simpl. rewrite feed_line_snoc, Hf. reflexivity.
    + apply IH; [rewrite feed_line_snoc, Hf; reflexivity | apply is_empty_app_str1].
Qed.

Lemma read_rows_scan (text cur : string) (r r' : reader) :
  feed_line cur r = Ret r' ->
  read_rows (readlines_from cur text) r = scan text r' (negb (is_empty cur)).
Proof.
  revert cur r r'. induction text as [|c text IH]; intros cur r r' Hf; simpl.
  - destruct (is_empty cur) eqn:Hc; simpl.
    + destruct cur; [|discriminate]. simpl in Hf. congruence.
    + rewrite Hf. simpl.
      destruct (parse_process_char EOL r') as [r2|e]; simpl; [|reflexivity].
      destruct (bool_decide (state r2 = START_RECORD)); reflexivity.
  - destruct (Ascii.eqb c lf) eqn:Hc; simpl.
    + rewrite feed_line_snoc, Hf. simpl.
      destruct (parse_process_char (Ch c) r') as [r1|e]; simpl; [|reflexivity].
      destruct (parse_process_char EOL r1) as [r2|e]; simpl; [|reflexivity].
      destruct (bool_decide (state r2 = START_RECORD)).
      * rewrite (IH EmptyString parse_reset parse_reset eq_refl). reflexivity.
      * apply (IH EmptyString r2 r2 eq_refl).
    + destruct (parse_process_char (Ch c) r') as [r1|e] eqn:Hp; simpl.
      * rewrite (IH (cur +:+ str1 c) r r1).
        -- rewrite is_empty_app_str1. reflexivity.
        -- rewrite feed_line_snoc, Hf. exact Hp.
      * apply read_rows_raise; [|apply is_empty_app_str1].
        rewrite feed_line_snoc, Hf. exact Hp.
Qed.

Lemma csv_reader_scan (text : string) :
  csv_reader text = scan text parse_reset false.
Proof. apply (read_rows_scan text EmptyString parse_reset parse_reset eq_refl). Qed.

(** Characters *)
Lemma special_dq : special dq = true. Proof. reflexivity. Qed.

Lemma not_special (c : ascii) :
  special c = false ->
  Ascii.eqb c comma = false /\ Ascii.eqb c dq = false /\
  Ascii.eqb c cr = false /\ Ascii.eqb c lf = false.
Proof.
  unfold special. intros H.
  destruct (Ascii.eqb c comma), (Ascii.eqb c dq), (Ascii.eqb c cr), (Ascii.eqb c lf);
    simpl in H; try discriminate; auto.
Qed.

Lemma scan_cons_other (c : ascii) (text : string) (r : reader) (b : bool) :
  Ascii.eqb c lf = false ->
  scan (String c text) r b
  = bind (parse_process_char (Ch c) r) (fun r1 => scan text r1 true).
Proof. intros H. simpl. rewrite H. reflexivity. Qed.

Lemma scan_cons_lf (text : string) (r : reader) (b : bool) :
  scan (String lf text) r b
  = bind (parse_process_char (Ch lf) r) (fun r1 =>
    bind (parse_process_char EOL r1) (fun r2 =>
      if bool_decide (state r2 = START_RECORD)
      then bind (scan text parse_reset false)
                (fun rows => Ret (row_fields r2 :: rows))
      else scan text r2 false)).
Proof. reflexivity. Qed.

(** Single steps of the automaton. *)
Lemma step_in_field (c : ascii) (acc : string) (row : list string) :
  special c = false ->
  parse_process_char (Ch c) (Reader IN_FIELD acc row)
  = Ret (Reader IN_FIELD (acc +:+ str1 c) row).
Proof.
  intros H. destruct (not_special c H) as (H1 & H2 & H3 & H4).
  unfold parse_process_char; simpl. rewrite H4, H3, H1. reflexivity.
Qed.

Lemma step_first_char (c : ascii) (st : parser_state) (row : list string) :
  st = START_RECORD \/ st = START_FIELD ->
  special c = false ->
  parse_process_char (Ch c) (Reader st EmptyString row)
  = Ret (Reader IN_FIELD (str1 c) row).
Proof.
  intros Hst H. destruct (not_special c H) as (H1 & H2 & H3 & H4).
  destruct Hst; subst st; unfold parse_process_char, start_field; simpl;
    rewrite H4, H3, H2, H1; reflexivity.
Qed.

Lemma step_open_quote (st : parser_state) (row : list string) :
  st = START_RECORD \/ st = START_FIELD ->
  parse_process_char (Ch dq) (Reader st EmptyString row)
  = Ret (Reader IN_QUOTED_FIELD EmptyString row).
Proof. intros [->| ->]; reflexivity. Qed.

Lemma step_empty_comma (st : parser_state) (row : list string) :
  st = START_RECORD \/ st = START_FIELD ->
  parse_process_char (Ch comma) (Reader st EmptyString row)
  = Ret (Reader START_FIELD EmptyString (row ++ [EmptyString])).
Proof. intros [->| ->]; reflexivity. Qed.

Lemma step_in_quoted (c : ascii) (acc : string) (row : list string) :
  Ascii.eqb c dq = false ->
  parse_process_char (Ch c) (Reader IN_QUOTED_FIELD acc row)
  = Ret (Reader IN_QUOTED_FIELD (acc +:+ str1 c) row).
Proof. intros H. unfold parse_process_char; simpl. rewrite H. reflexivity. Qed.

Arguments scan : simpl never.

Ltac run_step :=
  unfold parse_process_char, start_field, parse_add_char, set_state,
    parse_save_field, parse_reset;
  simpl.

(** A run of ordinary characters extends the unquoted field. *)
Lemma scan_plain (f : string) :
  any_special f = false ->
  forall acc row t rest b,
    scan (f +:+ String t rest) (Reader IN_FIELD acc row) b
    = scan (String t rest) (Reader IN_FIELD (acc +:+ f) row) true.
Proof.
  induction f as [|c f IH]; intros Hs acc row t rest b.
  - rewrite app_nil_r_str. reflexivity.
  - simpl in Hs. apply orb_false_elim in Hs as [Hc Hf].
    rewrite str_app_cons, scan_cons_other by apply (not_special c Hc).
    rewrite step_in_field by assumption. simpl.
    rewrite (IH Hf), app_str1. reflexivity.
Qed.

(** The body of a quoted field up to its closing quote. *)
Lemma scan_quoted (f : string) :
  forall acc row rest b,
    scan (double_quotes f +:+ String dq rest) (Reader IN_QUOTED_FIELD acc row) b
    = scan rest (Reader QUOTE_IN_QUOTED_FIELD (acc +:+ f) row) true.
Proof.
  induction f as [|c f IH]; intros acc row rest b.
  - rewrite app_nil_r_str. reflexivity.
  - simpl. destruct (Ascii.eqb c dq) eqn:Hq.
    + apply Ascii.eqb_eq in Hq. subst c.
      rewrite !str_app_cons, scan_cons_other by reflexivity. run_step.
      rewrite scan_cons_other by reflexivity. run_step.
      rewrite IH, app_str1. reflexivity.
    + rewrite str_app_cons.
      destruct (Ascii.eqb c lf) eqn:Hl.
      * apply Ascii.eqb_eq in Hl. subst c.
        rewrite scan_cons_lf. run_step. rewrite IH, app_str1. reflexivity.
      * rewrite scan_cons_other, step_in_quoted by assumption. simpl.
        rewrite IH, app_str1. reflexivity.
Qed.

(** A written field followed by the delimiter. *)
Lemma scan_field_comma (f : string) (st : parser_state) (row : list string)
    (rest : string) (b : bool) :
  st = START_RECORD \/ st = START_FIELD ->
  scan (write_field f +:+ String comma rest) (Reader st EmptyString row) b
  = scan rest (Reader START_FIELD EmptyString (row ++ [f])) true.
Proof.
  intros Hst. unfold write_field. destruct (any_special f) eqn:Hs.
  - rewrite str_app_cons, scan_cons_other, step_open_quote by (assumption || reflexivity).
    simpl. rewrite app_str1, scan_quoted.
    rewrite scan_cons_other by reflexivity. reflexivity.
  - destruct f as [|c f].
    + rewrite str_app_nil, scan_cons_other, step_empty_comma by (assumption || reflexivity).
      reflexivity.
    + simpl in Hs. apply orb_false_elim in Hs as [Hc Hf].
      rewrite str_app_cons, scan_cons_other by apply (not_special c Hc).
      rewrite step_first_char by assumption. simpl.
      rewrite scan_plain by assumption.
      rewrite scan_cons_other by reflexivity. reflexivity.
Qed.

(** The line terminator after a saved field or at the start of a record. *)
Lemma scan_crlf_after (st : parser_state) (acc : string) (row : list string)
    (rest : string) (b : bool) :
  st = IN_FIELD \/ st = QUOTE_IN_QUOTED_FIELD \/ st = START_FIELD ->
  scan (crlf +:+ rest) (Reader st acc row) b
  = bind (scan rest parse_reset false) (fun rows => Ret ((row ++ [acc]) :: rows)).
Proof.
  intros Hst. unfold crlf, str1. rewrite !str_app_cons, str_app_nil.
  rewrite scan_cons_other by reflexivity.
  destruct Hst as [->|[->| ->]]; run_step; rewrite scan_cons_lf; reflexivity.
Qed.

Lemma scan_crlf_empty (rest : string) (b : bool) :
  scan (crlf +:+ rest) parse_reset b
  = bind (scan rest parse_reset false) (fun rows => Ret ([] :: rows)).
Proof.
  unfold crlf, str1. rewrite !str_app_cons, str_app_nil.
  rewrite scan_cons_other by reflexivity. run_step. rewrite scan_cons_lf. reflexivity.
Qed.

(** A written field followed by the line terminator; at the start of a
    record the field must have been written as a non-empty text. *)
Lemma scan_field_crlf (f : string) (st : parser_state) (row : list string)
    (rest : string) (b : bool) :
  st = START_FIELD \/ (st = START_RECORD /\ is_empty f = false) ->
  scan (write_field f +:+ crlf +:+ rest) (Reader st EmptyString row) b
  = bind (scan rest parse_reset false) (fun rows => Ret ((row ++ [f]) :: rows)).
Proof.
  intros Hst.
  assert (Hst' : st = START_RECORD \/ st = START_FIELD) by tauto.
  unfold write_field. destruct (any_special f) eqn:Hs.
  - rewrite str_app_cons, scan_cons_other, step_open_quote by (assumption || reflexivity).
    simpl. rewrite app_str1, scan_quoted.
    rewrite scan_crlf_after by tauto. reflexivity.
  - destruct f as [|c f].
    + destruct Hst as [->|[_ Hne]]; [|discriminate].
      rewrite str_app_nil, scan_crlf_after by tauto. reflexivity.
    + simpl in Hs. apply orb_false_elim in Hs as [Hc Hf].
      rewrite str_app_cons, scan_cons_other by apply (not_special c Hc).
      rewrite step_first_char by assumption. simpl.
      unfold crlf at 1, str1. rewrite str_app_cons.
      rewrite scan_plain by assumption.
      change (String cr (String lf EmptyString +:+ rest)) with (crlf +:+ rest).
      rewrite scan_crlf_after by tauto. reflexivity.
Qed.

Lemma is_empty_app_cons (a : string) (c : ascii) (b : string) :
  is_empty (a +:+ String c b) = false.
Proof. destruct a; reflexivity. Qed.

Lemma write_field_empty (f : string) :
  is_empty (write_field f) = true -> f = EmptyString.
Proof.
  unfold write_field. destruct (any_special f); [discriminate|].
  destruct f; [reflexivity | discriminate].
Qed.

(** The fields of a record after the first one. *)
Lemma scan_fields (fs : list string) :
  forall f row rest b,
    scan (str_join (str1 comma) (map write_field (f :: fs)) +:+ crlf +:+ rest)
         (Reader START_FIELD EmptyString row) b
    = bind (scan rest parse_reset false)
           (fun rows => Ret ((row ++ f :: fs) :: rows)).
Proof.
  induction fs as [|g fs IH]; intros f row rest b.
  - simpl. apply scan_field_crlf. tauto.
  - change (str_join (str1 comma) (map write_field (f :: g :: fs)))
      with (write_field f +:+ str1 comma
            +:+ str_join (str1 comma) (map write_field (g :: fs))).
    rewrite !app_assoc_str. unfold str1 at 1. rewrite str_app_cons, str_app_nil.
    rewrite scan_field_comma by tauto.
    rewrite IH. rewrite <- app_assoc. reflexivity.
Qed.

(** One written record is read back as it was. *)
Lemma scan_row (row : list string) (rest : string) (b : bool) :
  scan (writer_writerow row +:+ rest) parse_reset b
  = bind (scan rest parse_reset false) (fun rows => Ret (row :: rows)).
Proof.
  unfold writer_writerow. destruct row as [|f [|g fs]].
  - simpl. rewrite str_app_nil. apply scan_crlf_empty.
  - simpl str_join. simpl length. simpl andb.
    destruct (is_empty (write_field f)) eqn:He.
    + apply write_field_empty in He. subst f. unfold str1.
      rewrite !str_app_cons.
      rewrite scan_cons_other by reflexivity. run_step.
      rewrite scan_cons_other by reflexivity. run_step.
      rewrite (scan_crlf_after QUOTE_IN_QUOTED_FIELD) by tauto. reflexivity.
    + rewrite app_assoc_str. apply scan_field_crlf. right. split; [reflexivity|].
      destruct f; [discriminate He | reflexivity].
  - change (str_join (str1 comma) (map write_field (f :: g :: fs)))
      with (write_field f +:+ str1 comma
            +:+ str_join (str1 comma) (map write_field (g :: fs))).
    unfold str1 at 1. rewrite str_app_cons, str_app_nil.
    rewrite is_empty_app_cons, andb_false_r.
    rewrite !app_assoc_str. unfold str1 at 1. rewrite str_app_cons, str_app_nil.
    unfold parse_reset. rewrite scan_field_comma by tauto.
    rewrite scan_fields. reflexivity.
Qed.

Lemma scan_concat_rows (rows : list (list string)) :
  scan (concat_rows rows) parse_reset false = Ret rows.
Proof.
  induction rows as [|row rows IH]; [reflexivity|].
  simpl. rewrite scan_row, IH. reflexivity.
Qed.

(** Reading back what the writer wrote gives the rows that were
    written. *)
Lemma csv_roundtrip (rows : list (list string)) :
  csv_reader (concat_rows rows) = Ret rows.
Proof. rewrite csv_reader_scan. apply scan_concat_rows. Qed.

Lemma union_fieldnames_from (records : list record) (acc : gset string) (k : string) :
  k ∈ foldl (fun acc r => acc ∪ dom (fields r)) acc records
  <-> k ∈ acc \/ exists r, r ∈ records /\ k ∈ dom (fields r).
Proof.
  revert acc. induction records as [|r records IH]; intros acc; simpl.
  - split; [auto | intros [H|(r & Hr & _)]; [exact H | inversion Hr]].
  - rewrite IH, elem_of_union. split.
    + intros [[H|H]|(r' & Hin & Hk)]; [auto | right; exists r | right; exists r'];
        split; auto; constructor; assumption.
    + intros [H|(r' & Hin & Hk)]; [auto|].
      apply elem_of_cons in Hin as [->|Hin]; [auto | right; eauto].
Qed.

Lemma elem_of_union_fieldnames (records : list record) (k : string) :
  k ∈ union_fieldnames records <-> exists r, r ∈ records /\ k ∈ dom (fields r).
Proof.
  unfold union_fieldnames. rewrite union_fieldnames_from.
  split; [intros [H|H]; [|exact H] | auto].
  exfalso. exact (not_elem_of_empty k H).
Qed.

Lemma elem_of_collect_fieldnames (records : list record) (k : string) :
  k ∈ collect_fieldnames records <-> exists r, r ∈ records /\ k ∈ dom (fields r).
Proof.
  unfold collect_fieldnames.
  rewrite (elem_of_elements (union_fieldnames records) k).
  apply elem_of_union_fieldnames.
Qed.

Lemma NoDup_collect_fieldnames (records : list record) :
  NoDup (collect_fieldnames records).
Proof. unfold collect_fieldnames. apply NoDup_elements. Qed.

Lemma dom_record_comma_check (r : record) :
  dom (fields (record_comma_check r)) = dom (fields r).
Proof. simpl. apply dom_fmap_L. Qed.

Lemma dict_to_list_covered (fieldnames : list string) (rowdict : gmap string value) :
  dom rowdict ⊆ list_to_set fieldnames ->
  dict_to_list fieldnames rowdict
  = Ret (map (fun key => default (VStr EmptyString) (rowdict !! key)) fieldnames).
Proof. intros H. unfold dict_to_list. rewrite decide_True by exact H. reflexivity. Qed.

Lemma write_records_covered (fieldnames : list string) (records : list record) :
  (forall r, r ∈ records -> dom (fields r) ⊆ list_to_set fieldnames) ->
  forall output,
    write_records fieldnames records output
    = Ret (output +:+ concat_rows (map (row_cells fieldnames) records)).
Proof.
  induction records as [|r records IH]; intros Hcov output; simpl.
  - rewrite app_nil_r_str. reflexivity.
  - unfold DictWriter_writerow. rewrite dict_to_list_covered.
    + simpl. rewrite IH.
      * rewrite app_assoc_str, map_map. reflexivity.
      * intros r' Hr'. apply Hcov. constructor. exact Hr'.
    + change (dom (comma_check_value <$> fields r)) with (dom (fields (record_comma_check r))).
      rewrite dom_record_comma_check. apply Hcov. constructor.
Qed.

Lemma lookup_header_dict (l : list string) (k : string) :
  k ∈ l ->
  (list_to_map (zip l (map VStr l)) : gmap string value) !! k = Some (VStr k).
Proof.
  induction l as [|a l IH]; intros Hk; [inversion Hk|].
  simpl. destruct (decide (k = a)) as [->|Hne].
  - apply lookup_insert_eq.
  - rewrite lookup_insert_ne by congruence. apply IH.
    apply elem_of_cons in Hk as [?|?]; [contradiction | assumption].
Qed.

Lemma dom_header_dict (l : list string) :
  dom (list_to_map (zip l (map VStr l)) : gmap string value) ⊆ list_to_set l.
Proof.
  induction l as [|a l IH]; simpl.
  - rewrite dom_empty_L. apply empty_subseteq.
  - rewrite dom_insert_L. apply union_mono_l. exact IH.
Qed.

Lemma writeheader_text (fieldnames : list string) :
  DictWriter_writeheader fieldnames = Ret (writer_writerow fieldnames).
Proof.
  unfold DictWriter_writeheader, DictWriter_writerow.
  rewrite dict_to_list_covered by apply dom_header_dict.
  simpl. do 2 f_equal. rewrite map_map.
  rewrite <- (map_id fieldnames) at 2.
  apply map_ext_in. intros k Hk.
  rewrite lookup_header_dict by (apply list_elem_of_In; exact Hk).
  reflexivity.
Qed.

(** The text built from the records: the header line and one line per
    record. *)
Lemma build_csv_text (records : list record) :
  build_csv records
  = Ret (concat_rows (collect_fieldnames records
                      :: map (row_cells (collect_fieldnames records)) records)).
Proof.
  unfold build_csv. rewrite writeheader_text. simpl.
  apply write_records_covered.
  intros r Hr k Hk. apply elem_of_list_to_set, elem_of_collect_fieldnames. eauto.
Qed.

(** ** Facts about [AirtableCSVManager] *)

Lemma prefix_one_char (c a : ascii) (s : string) :
  String.prefix (String c EmptyString) (String a s) = Ascii.eqb a c.
Proof.
  cbn [String.prefix]. destruct (Ascii.ascii_dec c a) as [->|Hne].
  - rewrite Ascii.eqb_refl. destruct s; reflexivity.
  - symmetry. apply Ascii.eqb_neq. congruence.
Qed.

Lemma replace_from_cons (old new : string) (c : ascii) (s : string) :
  replace_from old new 0 (String c s)
  = if String.prefix old (String c s)
    then new +:+ replace_from old new (String.length old - 1) s
    else String c (replace_from old new 0 s).
Proof. reflexivity. Qed.

(** On the one-character pattern of [record_comma_check],
    [str.replace] is the doubling the [csv] writer itself applies. *)
Lemma str_replace_quote (s : string) :
  str_replace (str1 dq) (String dq (str1 dq)) s = double_quotes s.
Proof.
  unfold str_replace, str1.
  induction s as [|c s IH]; [reflexivity|].
  rewrite replace_from_cons, prefix_one_char.
  cbn [double_quotes]. destruct (Ascii.eqb c dq).
  - cbn [String.length Nat.sub]. rewrite IH, !str_app_cons, str_app_nil. reflexivity.
  - rewrite IH. reflexivity.
Qed.

Lemma double_quotes_count_other (c : ascii) (s : string) :
  c <> dq -> str_count c (double_quotes s) = str_count c s.
Proof.
  intros Hc. induction s as [|a s IH]; [reflexivity|].
  cbn [double_quotes]. destruct (Ascii.eqb a dq) eqn:Ha; cbn [str_count].
  - apply Ascii.eqb_eq in Ha. subst a.
    assert (Hf : Ascii.eqb dq c = false) by (apply Ascii.eqb_neq; congruence).
    rewrite Hf, IH. reflexivity.
  - rewrite IH. reflexivity.
Qed.

Lemma double_quotes_count_dq (s : string) :
  str_count dq (double_quotes s) = 2 * str_count dq s.
Proof.
  induction s as [|a s IH]; [reflexivity|].
  cbn [double_quotes]. destruct (Ascii.eqb a dq) eqn:Ha; cbn [str_count].
  - apply Ascii.eqb_eq in Ha. subst a. rewrite Ascii.eqb_refl, IH. lia.
  - rewrite Ha, IH. lia.
Qed.

Lemma double_quotes_length (s : string) :
  String.length (double_quotes s) = String.length s + str_count dq s.
Proof.
  induction s as [|a s IH]; [reflexivity|].
  cbn [double_quotes str_count]. destruct (Ascii.eqb a dq);
    cbn [String.length]; rewrite IH; lia.
Qed.

Lemma double_quotes_none (s : string) :
  str_count dq s = 0 -> double_quotes s = s.
Proof.
  induction s as [|a s IH]; [reflexivity|].
  cbn [double_quotes str_count]. destruct (Ascii.eqb a dq); [discriminate|].
  intros H. rewrite (IH H). reflexivity.
Qed.

Lemma double_quotes_changes (s : string) :
  0 < str_count dq s -> double_quotes s <> s.
Proof.
  intros Hq Heq. apply (f_equal String.length) in Heq.
  rewrite double_quotes_length in Heq. lia.
Qed.

Lemma lookup_record_comma_check (r : record) (k : string) :
  fields (record_comma_check r) !! k = comma_check_value <$> fields r !! k.
Proof. simpl. apply lookup_fmap. Qed.

(** Reading back the text built by [build_csv]: the header, then the
    cells of every record. *)
Lemma build_csv_roundtrip (records : list record) :
  bind (build_csv records) csv_reader
  = Ret (collect_fieldnames records
         :: map (row_cells (collect_fieldnames records)) records).
Proof. rewrite build_csv_text. cbn [bind]. apply csv_roundtrip. Qed.

Lemma success_message_not_empty (name : string) :
  is_empty (success_message name) = false.
Proof. reflexivity. Qed.

(** The three ways [update_csv_from_airtable] can end. *)
Lemma update_csv_from_airtable_cases (self : AirtableCSVManager) (w : world db) :
  (exists e w', update_csv_from_airtable self w = (Raise e, w'))
  \/ update_csv_from_airtable self w = (Ret None, w)
  \/ (exists w', update_csv_from_airtable self w
                 = (Ret (Some (success_message (table_name self))), w')).
Proof.
  unfold update_csv_from_airtable, bindM, lift, ret.
  destruct (airtable_get_all _ _ _) as [[|r rs]|e]; [auto | | eauto].
  rewrite build_csv_text.
  destruct (sqlite_storage self) as [st|]; [|eauto].
  destruct (on_store st _ w) as [[[]|e] w']; eauto.
Qed.

(** Whatever the record, a value with a comma and a quote is read
    back with its quotes doubled, and so differs from what was
    fetched. *)
Lemma quoted_value_read_back_doubled (r : record) (k s : string) :
  fields r !! k = Some (VStr s) ->
  str_in "," s = true ->
  0 < str_count dq s ->
  exists header cells,
    bind (build_csv [r]) csv_reader = Ret [header; cells] /\
    (forall i, header !! i = Some k -> cells !! i = Some (double_quotes s)) /\
    double_quotes s <> s.
Proof.
  intros Hk Hcomma Hq.
  exists (collect_fieldnames [r]), (row_cells (collect_fieldnames [r]) r).
  split; [apply build_csv_roundtrip|].
  split; [|apply double_quotes_changes; exact Hq].
  intros i Hi. unfold row_cells.
  change (map ?f ?l) with (f <$> l). rewrite list_lookup_fmap, Hi.
  cbn [fmap option_fmap option_map].
  rewrite lookup_record_comma_check, Hk.
  cbn [fmap option_fmap option_map default comma_check_value].
  rewrite Hcomma, str_replace_quote. reflexivity.
Qed.

(** ** Claims about [AirtableCSVManager] *)

(** C2, as amended: [record_comma_check] keeps every key; a value
    that is not a string, or a string without a comma, is left as it
    is; a string with a comma gets each double quote doubled and
    nothing else changed: the other characters, commas included, are
    all kept, the text grows by one character per quote, so no quote
    is put around it, and a text without quotes is returned as it
    was. *)
Theorem C2_record_comma_check_escaping (r : record) (k : string) (v : value) :
  fields r !! k = Some v ->
  exists v',
    fields (record_comma_check r) !! k = Some v' /\
    dom (fields (record_comma_check r)) = dom (fields r) /\
    (is_str v = false -> v' = v) /\
    (forall s, v = VStr s -> str_in "," s = false -> v' = v) /\
    (forall s, v = VStr s -> str_in "," s = true ->
       v' = VStr (double_quotes s) /\
       (forall c, c <> dq -> str_count c (double_quotes s) = str_count c s) /\
       str_count dq (double_quotes s) = 2 * str_count dq s /\
       String.length (double_quotes s) = String.length s + str_count dq s /\
       (str_count dq s = 0 -> v' = v)).
Proof.
  intros Hk. exists (comma_check_value v).
  split; [rewrite lookup_record_comma_check, Hk; reflexivity|].
  split; [apply dom_record_comma_check|].
  split; [destruct v; simpl; try discriminate; reflexivity|].
  split.
  - intros s -> Hs. simpl. rewrite Hs. reflexivity.
  - intros s -> Hs. cbn [comma_check_value]. rewrite Hs, str_replace_quote.
    split; [reflexivity|].
    split; [intros c Hc; apply double_quotes_count_other; exact Hc|].
    split; [apply double_quotes_count_dq|].
    split; [apply double_quotes_length|].
    intros H0. rewrite double_quotes_none by exact H0. reflexivity.
Qed.

(** C3: for a non-empty fetch the text built by
    [update_csv_from_airtable] is the header line followed by one
    line per record, and reads back as the header row and one row
    per record; the header holds, once each, exactly the field names
    that occur in some record, and every row has one cell per column:
    the text of the record's value for the column, empty when the
    record has no such field.  With a storage configured, this text
    is what [import_csv_rows] receives. *)
Theorem C3_columns_are_union_of_fields (records : list record) :
  records <> [] ->
  exists csv_data header rows,
    build_csv records = Ret csv_data /\
    csv_data = concat_rows (header :: rows) /\
    csv_reader csv_data = Ret (header :: rows) /\
    NoDup header /\
    (forall k, k ∈ header <-> exists r, r ∈ records /\ k ∈ dom (fields r)) /\
    rows = map (row_cells header) records /\
    Forall (fun cells => length cells = length header) rows /\
    (forall self st w,
       sqlite_storage self = Some st ->
       airtable_get_all (base_id self) (table_name self) (api_key self)
         = Ret records ->
       update_csv_from_airtable self w
       = (on_store st (import_csv_rows (table_name self) csv_data) ;;;
          ret (Some (success_message (table_name self)))) w).
Proof.
  intros Hne.
  exists (concat_rows (collect_fieldnames records
                       :: map (row_cells (collect_fieldnames records)) records)),
         (collect_fieldnames records),
         (map (row_cells (collect_fieldnames records)) records).
  split; [apply build_csv_text|].
  split; [reflexivity|].
  split; [apply csv_roundtrip|].
  split; [apply NoDup_collect_fieldnames|].
  split; [apply elem_of_collect_fieldnames|].
  split; [reflexivity|].
  split.
  - apply Forall_forall. intros cells Hin.
    apply list_elem_of_In, in_map_iff in Hin as (r & <- & _).
    unfold row_cells. apply length_map.
  - intros self st w Hst Hfetch.
    unfold update_csv_from_airtable, bindM at 1, lift. rewrite Hfetch.
    destruct records as [|r rs]; [contradiction|].
    unfold bindM at 1. rewrite build_csv_text, Hst. reflexivity.
Qed.

(** C4: when the fetch returns no record, [update_csv_from_airtable]
    returns [None], which is not an exception and not the success
    message, and leaves every storage object, and the rest of the
    world, as it was. *)
Theorem C4_empty_fetch_is_noop (self : AirtableCSVManager) (w : world db) :
  airtable_get_all (base_id self) (table_name self) (api_key self) = Ret [] ->
  update_csv_from_airtable self w = (Ret None, w) /\
  (forall e, fst (update_csv_from_airtable self w) <> Raise e) /\
  fst (update_csv_from_airtable self w)
    <> Ret (Some (success_message (table_name self))).
Proof.
  intros Hfetch.
  assert (H : update_csv_from_airtable self w = (Ret None, w)).
  { unfold update_csv_from_airtable, bindM, lift. rewrite Hfetch. reflexivity. }
  rewrite H. split; [reflexivity|]. split; [intros e|]; discriminate.
Qed.

(** C10: on a handle without storage, a non-empty fetch gives the
    success message naming the table although nothing is written: the
    world after the call is the world before it. *)
Theorem C10_success_without_storage (self : AirtableCSVManager) (w : world db)
    (r : record) (rs : list record) :
  sqlite_storage self = None ->
  airtable_get_all (base_id self) (table_name self) (api_key self)
    = Ret (r :: rs) ->
  update_csv_from_airtable self w
  = (Ret (Some (success_message (table_name self))), w).
Proof.
  intros Hst Hfetch.
  unfold update_csv_from_airtable, bindM, lift. rewrite Hfetch.
  rewrite build_csv_text, Hst. reflexivity.
Qed.

(** ** Facts about dictionaries and lists *)

Lemma list_mem_In (x : string) (l : list string) :
  list_mem x l = true <-> In x l.
Proof.
  unfold list_mem. rewrite existsb_exists. split.
  - intros (y & Hy & Heq). apply String.eqb_eq in Heq. subst y. exact Hy.
  - intros H. exists x. split; [exact H | apply String.eqb_refl].
Qed.

Lemma list_mem_false (x : string) (l : list string) :
  list_mem x l = false <-> ~ In x l.
Proof.
  rewrite <- list_mem_In. destruct (list_mem x l); split; congruence.
Qed.

(** Removing a present element succeeds; in a list without
    duplicates nothing of it is left. *)
Lemma list_remove_present (x : string) (l : list string) :
  In x l ->
  exists l',
    list_remove x l = Ret l' /\
    (forall y, In y l' -> In y l) /\
    (NoDup l -> NoDup l' /\ ~ In x l' /\ forall y, y <> x -> In y l -> In y l').
Proof.
  induction l as [|y l IH]; intros Hin; [destruct Hin|].
  simpl. destruct (String.eqb x y) eqn:Hxy.
  - apply String.eqb_eq in Hxy. subst y. exists l.
    split; [reflexivity|]. split; [intros z Hz; right; exact Hz|].
    intros Hnd. apply NoDup_cons in Hnd as [Hx Hnd].
    split; [exact Hnd|]. split; [rewrite <- list_elem_of_In; exact Hx|].
    intros z Hz [Heq|Hz']; [congruence | exact Hz'].
  - apply String.eqb_neq in Hxy.
    destruct Hin as [Heq|Hin]; [congruence|].
    destruct (IH Hin) as (l' & Hrm & Hsub & Hnd'). rewrite Hrm. simpl.
    exists (y :: l'). split; [reflexivity|].
    split; [intros z [Hz|Hz]; [left; exact Hz | right; apply Hsub; exact Hz]|].
    intros Hnd. apply NoDup_cons in Hnd as [Hy Hnd].
    destruct (Hnd' Hnd) as (Hnd1 & Hx & Hkeep).
    split.
    + apply NoDup_cons. split; [|exact Hnd1].
      rewrite list_elem_of_In. intros Hy'. apply Hy.
      rewrite list_elem_of_In. apply Hsub. exact Hy'.
    + split; [intros [Heq|Hx']; [congruence | exact (Hx Hx')]|].
      intros z Hz [Heq|Hz']; [left; exact Heq | right; apply Hkeep; assumption].
Qed.

Section DictFacts.
Context {V : Type}.
Implicit Types (d : Dict.t V) (k : string) (v : V).

Lemma dict_get_In k d v : Dict.get k d = Some v -> In (k, v) d.
Proof.
  induction d as [|[k' v'] d IH]; simpl; [discriminate|].
  destruct (String.eqb k k') eqn:Hk.
  - apply String.eqb_eq in Hk. subst k'. intros [= ->]. left. reflexivity.
  - intros H. right. apply IH. exact H.
Qed.

Lemma dict_mem_keys k d : Dict.mem k d = true <-> In k (Dict.keys d).
Proof.
  unfold Dict.mem. induction d as [|[k' v'] d IH]; simpl.
  - split; [discriminate | tauto].
  - destruct (String.eqb k k') eqn:Hk.
    + apply String.eqb_eq in Hk. subst k'. tauto.
    + apply String.eqb_neq in Hk. rewrite IH. split; [tauto|].
      intros [Heq|H]; [congruence | exact H].
Qed.

Lemma dict_get_none_keys k d : Dict.get k d = None <-> ~ In k (Dict.keys d).
Proof.
  rewrite <- dict_mem_keys. unfold Dict.mem.
  destruct (Dict.get k d); split; congruence.
Qed.

Lemma dict_get_set_same k v d : Dict.get k (Dict.set k v d) = Some v.
Proof.
  induction d as [|[k' v'] d IH]; simpl.
  - rewrite String.eqb_refl. reflexivity.
  - destruct (String.eqb k k') eqn:Hk; simpl; rewrite Hk; [reflexivity | exact IH].
Qed.

Lemma dict_get_set_other k k' v d :
  k <> k' -> Dict.get k' (Dict.set k v d) = Dict.get k' d.
Proof.
  intros Hne. induction d as [|[k0 v0] d IH]; simpl.
  - replace (String.eqb k' k) with false
      by (symmetry; apply String.eqb_neq; congruence).
    reflexivity.
  - destruct (String.eqb k k0) eqn:Hk; simpl.
    + apply String.eqb_eq in Hk. subst k0.
      replace (String.eqb k' k) with false
        by (symmetry; apply String.eqb_neq; congruence).
      reflexivity.
    + rewrite IH. reflexivity.
Qed.

Lemma dict_keys_set k v d :
  Dict.keys (Dict.set k v d)
  = if Dict.mem k d then Dict.keys d else Dict.keys d ++ [k].
Proof.
  unfold Dict.mem. induction d as [|[k' v'] d IH]; simpl; [reflexivity|].
  destruct (String.eqb k k') eqn:Hk; simpl; [reflexivity|].
  rewrite IH. destruct (Dict.get k d); reflexivity.
Qed.

Lemma dict_In_set k v d k' v' :
  In (k', v') (Dict.set k v d) -> (k' = k /\ v' = v) \/ In (k', v') d.
Proof.
  induction d as [|[k0 v0] d IH]; simpl.
  - intros [[= <- <-]|[]]. left. split; reflexivity.
  - destruct (String.eqb k k0) eqn:Hk; simpl.
    + apply String.eqb_eq in Hk. subst k0.
      intros [[= <- <-]|H]; [left; split; reflexivity | right; right; exact H].
    + intros [H|H]; [right; left; exact H|].
      destruct (IH H) as [?|?]; [left; assumption | right; right; assumption].
Qed.

(** Deleting a present key succeeds and takes it out of the keys
    the way [list.remove] would. *)
Lemma dict_del_present k d :
  In k (Dict.keys d) ->
  exists d',
    Dict.del k d = Ret d' /\
    list_remove k (Dict.keys d) = Ret (Dict.keys d') /\
    (forall k' v', In (k', v') d' -> In (k', v') d).
Proof.
  induction d as [|[k0 v0] d IH]; simpl; [tauto|].
  intros Hin. destruct (String.eqb k k0) eqn:Hk.
  - exists d. split; [reflexivity|]. split; [reflexivity|].
    intros k' v' H. right. exact H.
  - apply String.eqb_neq in Hk.
    destruct Hin as [Heq|Hin]; [congruence|].
    destruct (IH Hin) as (d' & Hdel & Hrm & Hsub).
    rewrite Hdel, Hrm. simpl. exists ((k0, v0) :: d').
    split; [reflexivity|]. split; [reflexivity|].
    intros k' v' [H|H]; [left; exact H | right; apply Hsub; exact H].
Qed.

Lemma dict_wf_count k d :
  Dict.wf d -> In k (Dict.keys d) -> count_occ string_dec (Dict.keys d) k = 1.
Proof.
  unfold Dict.wf. intros Hnd Hin.
  apply NoDup_ListNoDup in Hnd.
  apply (proj1 (NoDup_count_occ' string_dec (Dict.keys d)) Hnd). exact Hin.
Qed.

Lemma dict_wf_set k v d : Dict.wf d -> Dict.wf (Dict.set k v d).
Proof.
  unfold Dict.wf. rewrite dict_keys_set. intros Hnd.
  destruct (Dict.mem k d) eqn:Hm; [exact Hnd|].
  apply NoDup_app. split; [exact Hnd|]. split; [|apply NoDup_singleton].
  intros x Hx Hx'. apply list_elem_of_singleton in Hx'. subst x.
  apply list_elem_of_In, dict_mem_keys in Hx. congruence.
Qed.
End DictFacts.

(** ** Facts about [AirtableMultiManager] *)

Lemma add_table_eq (name : string) (self : AirtableMultiManager) :
  add_table name self
  = (Ret tt,
     Coordinator (mm_api_key self) (mm_base_id self)
       (Dict.set name (new_manager self name) (managers self))
       (mm_sqlite_storage self)
       (if list_mem name (table_names self) then table_names self
        else table_names self ++ [name])).
Proof. unfold add_table. destruct (list_mem name (table_names self)); reflexivity. Qed.

Lemma remove_table_absent (name : string) (self : AirtableMultiManager) :
  get_manager self name = None -> remove_table name self = (Ret false, self).
Proof.
  unfold get_manager, remove_table, Dict.mem. intros ->. reflexivity.
Qed.

(** Removing a registered table returns [True] and leaves no handle
    under that name. *)
Lemma remove_table_present (name : string) (self : AirtableMultiManager) :
  Dict.wf (managers self) ->
  In name (Dict.keys (managers self)) ->
  exists ms names,
    remove_table name self
    = (Ret true, Coordinator (mm_api_key self) (mm_base_id self) ms
                   (mm_sqlite_storage self) names) /\
    list_remove name (Dict.keys (managers self)) = Ret (Dict.keys ms) /\
    ~ In name (Dict.keys ms) /\
    (forall k h, In (k, h) ms -> In (k, h) (managers self)) /\
    (names = table_names self /\ ~ In name (table_names self)
     \/ list_remove name (table_names self) = Ret names).
Proof.
  intros Hwf Hin.
  destruct (dict_del_present name (managers self) Hin) as (ms & Hdel & Hkeys & Hsub).
  destruct (list_remove_present name _ Hin) as (l' & Hrm & _ & Hnd).
  rewrite Hkeys in Hrm. injection Hrm as <-.
  destruct (Hnd Hwf) as (_ & Hgone & _).
  unfold remove_table.
  rewrite (proj2 (dict_mem_keys name (managers self)) Hin), Hdel.
  cbn [set_managers table_names].
  destruct (list_mem name (table_names self)) eqn:Hm.
  - apply list_mem_In in Hm.
    destruct (list_remove_present name _ Hm) as (names & Hrm' & _).
    exists ms, names. rewrite Hrm'.
    split; [reflexivity|]. split; [exact Hkeys|]. split; [exact Hgone|].
    split; [exact Hsub|]. right. reflexivity.
  - apply list_mem_false in Hm. exists ms, (table_names self).
    split; [reflexivity|]. split; [exact Hkeys|]. split; [exact Hgone|].
    split; [exact Hsub|]. left. split; [reflexivity | exact Hm].
Qed.

Lemma init_eq (key base : string) (names : option (list string))
    (st : storage_ref) (w : world db) :
  init key base names (Some st) w
  = (Ret (_initialize_managers
            (Coordinator key base [] st
               (match names with
                | None => ["DataHub_Craffft"]
                | Some l => l
                end))), w).
Proof. reflexivity. Qed.

(** [_initialize_managers] visits the names from left to right;
    [visited] are the names already given a handle. *)
Lemma initialize_managers_from (todo : list string) :
  forall (self : AirtableMultiManager),
    let self' :=
      foldl (fun s name =>
               set_managers s (Dict.set name (new_manager s name) (managers s)))
            self todo in
    mm_api_key self' = mm_api_key self /\
    mm_base_id self' = mm_base_id self /\
    mm_sqlite_storage self' = mm_sqlite_storage self /\
    table_names self' = table_names self /\
    (forall k, In k (Dict.keys (managers self'))
               <-> In k (Dict.keys (managers self)) \/ In k todo) /\
    (Dict.wf (managers self) -> Dict.wf (managers self')) /\
    (NoDup todo -> (forall k, In k todo -> ~ In k (Dict.keys (managers self))) ->
     Dict.keys (managers self') = Dict.keys (managers self) ++ todo) /\
    ((forall k h, In (k, h) (managers self) -> h = new_manager self k) ->
     forall k h, In (k, h) (managers self') -> h = new_manager self k).
Proof.
  induction todo as [|name todo IH]; intros self; cbn zeta.
  - cbn [foldl]. rewrite app_nil_r.
    repeat split; auto; simpl; tauto.
  - cbn [foldl].
    set (self1 := set_managers self (Dict.set name (new_manager self name) (managers self))).
    destruct (IH self1) as (H1 & H2 & H3 & H4 & H5 & H6 & H7 & H8).
    cbn zeta in *.
    split; [exact H1|]. split; [exact H2|]. split; [exact H3|]. split; [exact H4|].
    assert (Hk1 : forall k, In k (Dict.keys (managers self1))
                            <-> In k (Dict.keys (managers self)) \/ k = name).
    { intros k. subst self1. cbn [managers set_managers]. rewrite dict_keys_set.
      destruct (Dict.mem name (managers self)) eqn:Hm.
      - apply dict_mem_keys in Hm. split; [tauto|].
        intros [?| ->]; assumption.
      - rewrite in_app_iff. simpl. split; intros [?|?]; auto.
        + destruct H as [?|[]]. auto.
    }
    split.
    { intros k. rewrite H5, Hk1. simpl. split; intros; intuition (subst; auto). }
    split.
    { intros Hwf. apply H6. subst self1. cbn [managers set_managers].
      apply dict_wf_set. exact Hwf. }
    split.
    { intros Hnd Hfresh. apply NoDup_cons in Hnd as [Hname Hnd].
      rewrite H7.
      - subst self1. cbn [managers set_managers]. rewrite dict_keys_set.
        replace (Dict.mem name (managers self)) with false.
        + rewrite <- app_assoc. reflexivity.
        + symmetry. destruct (Dict.mem name (managers self)) eqn:Hm; [|reflexivity].
          apply dict_mem_keys in Hm. exfalso. apply (Hfresh name); [left; reflexivity | exact Hm].
      - exact Hnd.
      - intros k Hk Hk'. apply Hk1 in Hk' as [Hk'| ->].
        + apply (Hfresh k); [right; exact Hk | exact Hk'].
        + apply Hname. apply list_elem_of_In. exact Hk. }
    intros Hh k h Hin.
    change (new_manager self k) with (new_manager self1 k). apply H8; [|exact Hin].
    intros k' h' Hin'. subst self1. cbn [managers set_managers] in Hin'.
    apply dict_In_set in Hin' as [[-> ->]|Hin']; [reflexivity|].
    apply Hh. exact Hin'.
Qed.

Lemma init_inv (key base : string) (names : list string) (st : storage_ref) :
  NoDup names ->
  coordinator_inv (_initialize_managers (Coordinator key base [] st names)).
Proof.
  intros Hnd. unfold coordinator_inv, _initialize_managers.
  cbn [table_names].
  pose proof (initialize_managers_from names (Coordinator key base [] st names)) as H.
  cbv zeta in H. destruct H as (H1 & H2 & H3 & H4 & H5 & H6 & H7 & H8).
  rewrite H4. split; [exact Hnd|]. split.
  - rewrite H7; [reflexivity | exact Hnd | intros k _ []].
  - intros k h Hin. unfold new_manager at 1. rewrite H1, H2, H3.
    apply H8; [intros k' h' []| exact Hin].
Qed.

(** *** The correspondence between names and handles is kept *)

Lemma add_table_inv (name : string) (self : AirtableMultiManager) :
  coordinator_inv self -> coordinator_inv (snd (add_table name self)).
Proof.
  intros (Hnd & Hkeys & Hh). rewrite add_table_eq. unfold coordinator_inv.
  cbn [snd table_names managers]. rewrite dict_keys_set.
  assert (Hm : Dict.mem name (managers self) = list_mem name (table_names self)).
  { destruct (list_mem name (table_names self)) eqn:Hl.
    - apply dict_mem_keys. rewrite Hkeys. apply list_mem_In. exact Hl.
    - apply list_mem_false in Hl.
      destruct (Dict.mem name (managers self)) eqn:Hd; [|reflexivity].
      apply dict_mem_keys in Hd. rewrite Hkeys in Hd. contradiction. }
  rewrite Hm. split; [|split].
  - destruct (list_mem name (table_names self)) eqn:Hl; [exact Hnd|].
    apply list_mem_false in Hl. apply NoDup_app.
    split; [exact Hnd|]. split; [|apply NoDup_singleton].
    intros x Hx Hx'. apply list_elem_of_singleton in Hx'. subst x.
    apply Hl, list_elem_of_In. exact Hx.
  - rewrite Hkeys. reflexivity.
  - intros k h Hin. apply dict_In_set in Hin as [[-> ->]|Hin]; [reflexivity|].
    apply (Hh k h Hin).
Qed.

Lemma remove_table_inv (name : string) (self : AirtableMultiManager) :
  coordinator_inv self ->
  exists b, fst (remove_table name self) = Ret b /\
            coordinator_inv (snd (remove_table name self)).
Proof.
  intros (Hnd & Hkeys & Hh).
  destruct (Dict.get name (managers self)) as [h|] eqn:Hget.
  - assert (Hin : In name (Dict.keys (managers self))).
    { apply dict_mem_keys. unfold Dict.mem. rewrite Hget. reflexivity. }
    assert (Hwf : Dict.wf (managers self)) by (unfold Dict.wf; rewrite Hkeys; exact Hnd).
    destruct (remove_table_present name self Hwf Hin)
      as (ms & names & Heq & Hrm & Hgone & Hsub & Hnames).
    rewrite Heq. exists true. split; [reflexivity|].
    unfold coordinator_inv. cbn [snd table_names managers].
    rewrite Hkeys in Hrm, Hin.
    destruct Hnames as [[_ Habs]|Hrm']; [contradiction|].
    rewrite Hrm in Hrm'. injection Hrm' as <-.
    destruct (list_remove_present name _ Hin) as (l' & Hl' & _ & Hnd').
    rewrite Hrm in Hl'. injection Hl' as <-.
    split; [apply (Hnd' Hnd)|]. split; [reflexivity|].
    intros k h' Hk. apply (Hh k h'), Hsub, Hk.
  - rewrite remove_table_absent by exact Hget. exists false.
    split; [reflexivity|]. split; [exact Hnd|]. split; assumption.
Qed.

Lemma add_discovered_cons (name : string) (names : list string)
    (results : Dict.t bool) (self : AirtableMultiManager) (w : world db) :
  add_discovered (name :: names) results (self, w)
  = add_discovered names (Dict.set name true results)
                   (snd (add_table name self), w).
Proof.
  rewrite add_table_eq. cbn [add_discovered].
  unfold bindM at 1, try_except, bindM at 1, on_fst. cbn [fst snd].
  rewrite add_table_eq. reflexivity.
Qed.

Lemma add_table_keeps_names (name k : string) (self : AirtableMultiManager) :
  In k (table_names self) \/ k = name ->
  In k (table_names (snd (add_table name self))).
Proof.
  rewrite add_table_eq. cbn [snd table_names].
  destruct (list_mem name (table_names self)) eqn:Hl.
  - intros [H| ->]; [exact H | apply list_mem_In; exact Hl].
  - intros [H| ->]; apply in_or_app; [left; exact H | right; left; reflexivity].
Qed.

(** The loop of discovery never raises, marks every name found with
    [True], leaves the world alone and keeps the correspondence. *)
Lemma add_discovered_inv (names : list string) :
  forall results self w,
    coordinator_inv self ->
    exists results' self',
      add_discovered names results (self, w) = (Ret results', (self', w)) /\
      coordinator_inv self' /\
      (forall k, In k (table_names self) \/ In k names -> In k (table_names self')) /\
      (forall k, Dict.get k results = Some true \/ In k names ->
                 Dict.get k results' = Some true).
Proof.
  induction names as [|name names IH]; intros results self w Hinv.
  - exists results, self. split; [reflexivity|]. split; [exact Hinv|].
    split; intros k [H|[]]; exact H.
  - rewrite add_discovered_cons.
    destruct (IH (Dict.set name true results) _ w (add_table_inv name self Hinv))
      as (results' & self' & Heq & Hinv' & Hreg & Hres).
    exists results', self'. split; [exact Heq|]. split; [exact Hinv'|]. split.
    + intros k [Hk|[<-|Hk]]; apply Hreg; auto using add_table_keeps_names.
    + intros k [Hk|[<-|Hk]]; apply Hres; auto.
      * left. destruct (String.eqb_spec name k) as [->|Hne].
        -- apply dict_get_set_same.
        -- rewrite dict_get_set_other by exact Hne. exact Hk.
      * left. apply dict_get_set_same.
Qed.

(** *** Discovery *)

Lemma printed_nil (w : world db) : printed w [] = w.
Proof. unfold printed. rewrite app_nil_r. destruct w; reflexivity. Qed.

Lemma get_tables_from_base_unreachable (self : AirtableMultiManager)
    (base : option string) (w : world db) (e : exn) :
  let b := match base with None => mm_base_id self | Some b => b end in
  requests_get (meta_url b) (meta_headers self) = Raise e ->
  get_tables_from_base self base w
  = (Ret None,
     printed w ["Error getting tables from base " +:+ b +:+ ": " +:+ exc_msg e]).
Proof.
  cbv zeta. intros H.
  unfold get_tables_from_base, try_except, bindM at 1, lift. rewrite H.
  reflexivity.
Qed.

Lemma get_tables_from_base_refused (self : AirtableMultiManager)
    (base : option string) (w : world db) (resp : response) :
  let b := match base with None => mm_base_id self | Some b => b end in
  requests_get (meta_url b) (meta_headers self) = Ret resp ->
  status_code resp <> 200%Z ->
  get_tables_from_base self base w
  = (Ret None,
     printed w ["Failed to get tables from base " +:+ b +:+ ": "
                  +:+ str_of_int (status_code resp);
                "Response: " +:+ text resp]).
Proof.
  cbv zeta. intros H Hs. apply Z.eqb_neq in Hs.
  unfold get_tables_from_base, try_except, bindM at 1, lift. rewrite H, Hs.
  unfold printed. cbn. rewrite <- app_assoc. reflexivity.
Qed.

(** [get_tables_from_base] returns whatever happens, and only
    prints. *)
Lemma get_tables_from_base_returns (self : AirtableMultiManager)
    (base : option string) (w : world db) :
  exists r lines, get_tables_from_base self base w = (Ret r, printed w lines).
Proof.
  destruct (requests_get
              (meta_url (match base with None => mm_base_id self | Some b => b end))
              (meta_headers self)) as [resp|e] eqn:Hreq.
  - destruct (Z.eq_dec (status_code resp) 200%Z) as [Hs|Hs].
    + unfold get_tables_from_base, try_except, bindM at 1, lift.
      rewrite Hreq. apply Z.eqb_eq in Hs. rewrite Hs.
      unfold bindM, lift.
      destruct (json resp) as [data|e].
      * destruct (names_of_tables (default [] data)) as [names|e].
        -- exists (Some names), []. rewrite printed_nil. reflexivity.
        -- eexists None, [_]. reflexivity.
      * eexists None, [_]. reflexivity.
    + eexists None, _. exact (get_tables_from_base_refused self base w resp Hreq Hs).
  - eexists None, _. exact (get_tables_from_base_unreachable self base w e Hreq).
Qed.

Lemma discover_none (self : AirtableMultiManager) (w w1 : world db) :
  get_tables_from_base self None w = (Ret None, w1) ->
  discover_and_add_tables_from_base (self, w)
  = (Ret [], (self, printed w1 ["No tables found or failed to retrieve tables from base "
                                +:+ mm_base_id self])).
Proof.
  intros H. unfold discover_and_add_tables_from_base.
  unfold bindM at 1, on_fst, get. cbn [fst snd].
  unfold bindM at 1, on_snd. cbn [fst snd]. rewrite H. reflexivity.
Qed.

Lemma discover_inv (self : AirtableMultiManager) (w : world db) :
  coordinator_inv self ->
  exists results self' w',
    discover_and_add_tables_from_base (self, w) = (Ret results, (self', w')) /\
    coordinator_inv self'.
Proof.
  intros Hinv. unfold discover_and_add_tables_from_base.
  unfold bindM at 1, on_fst, get. cbn [fst snd].
  unfold bindM at 1, on_snd. cbn [fst snd].
  destruct (get_tables_from_base_returns self None w) as (r & lines & ->).
  destruct r as [[|n ns]|]; try (eexists _, _, _; split; [reflexivity | exact Hinv]).
  destruct (add_discovered_inv (n :: ns) [] self (printed w lines) Hinv)
    as (results & self' & Heq & Hinv' & _).
  exists results, self', (printed w lines). split; assumption.
Qed.

Lemma run_ops_inv (ops : list op) :
  forall self w,
    coordinator_inv self ->
    exists self' w',
      run_ops ops (self, w) = (Ret tt, (self', w')) /\ coordinator_inv self'.
Proof.
  induction ops as [|o ops IH]; intros self w Hinv.
  - exists self, w. split; [reflexivity | exact Hinv].
  - cbn [run_ops]. unfold bindM at 1.
    assert (Hstep : exists self1 w1,
               apply_op o (self, w) = (Ret tt, (self1, w1)) /\ coordinator_inv self1).
    { destruct o as [name|name|]; cbn [apply_op].
      - exists (snd (add_table name self)), w. split; [|apply add_table_inv; exact Hinv].
        unfold on_fst. cbn [fst snd]. rewrite add_table_eq. reflexivity.
      - destruct (remove_table_inv name self Hinv) as (b & Hb & Hinv').
        exists (snd (remove_table name self)), w. split; [|exact Hinv'].
        unfold bindM, on_fst. cbn [fst snd].
        destruct (remove_table name self) as [r s]. cbn in Hb. subst r. reflexivity.
      - destruct (discover_inv self w Hinv) as (results & self' & w' & Heq & Hinv').
        exists self', w'. split; [|exact Hinv'].
        unfold bindM. rewrite Heq. reflexivity. }
    destruct Hstep as (self1 & w1 & -> & Hinv1). apply IH. exact Hinv1.
Qed.

(** From a list of names without repetition, construction and any
    sequence of registrations keep the names and the handles in
    correspondence. *)
Lemma coordinator_inv_reachable (key base : string) (names : option (list string))
    (st : storage_ref) (ops : list op) (w : world db) :
  NoDup (default ["DataHub_Craffft"] names) ->
  exists self0 self w',
    init key base names (Some st) w = (Ret self0, w) /\
    run_ops ops (self0, w) = (Ret tt, (self, w')) /\
    coordinator_inv self.
Proof.
  intros Hnd. rewrite init_eq.
  eexists. 
  destruct (run_ops_inv ops
              (_initialize_managers
                 (Coordinator key base [] st
                    (match names with None => ["DataHub_Craffft"] | Some l => l end)))
              w) as (self & w' & Heq & Hinv).
  - apply init_inv. destruct names; exact Hnd.
  - exists self, w'. split; [reflexivity|]. split; assumption.
Qed.

(** ** Claims about [AirtableMultiManager] *)

Lemma exc_type_arity_error (qualname : string) (params : list string)
    (given : nat) :
  exc_type (arity_error qualname params given) = "TypeError"%string.
Proof. unfold arity_error. destruct (given <? length params)%nat; reflexivity. Qed.

(** C5, as amended: for a name without a handle, [get_value],
    [execute_sql_query] and [update_csv_from_airtable] (and
    [get_manager], [get_csv_data], [convert_csv_to_json]) return
    [None], raise nothing and leave the world as it was; called by
    name with any number of arguments they return [None] or, when the
    number is wrong, raise [TypeError], the world left as it was.
    The class has no row lookup: [lookup_row] and [get_row] are not
    among its attributes. *)
Theorem C5_unknown_table_returns_none (self : AirtableMultiManager)
    (name : string) (w : world db) :
  get_manager self name = None ->
  (forall c v t, get_value self name c v t w = (Ret None, w)) /\
  (forall q, mm_execute_sql_query self name q w = (Ret None, w)) /\
  mm_update_csv_from_airtable self name w = (Ret None, w) /\
  get_csv_data self name w = (Ret None, w) /\
  convert_csv_to_json self name w = (Ret None, w) /\
  (forall attr args m,
     In attr ["get_value"; "execute_sql_query"; "update_csv_from_airtable"] ->
     call_table_method self attr name args = Some m ->
     m w = (Ret PNone, w) \/
     exists e, m w = (Raise e, w) /\ exc_type e = "TypeError"%string) /\
  list_mem "lookup_row" AirtableMultiManager_attributes = false /\
  list_mem "get_row" AirtableMultiManager_attributes = false.
Proof.
  intros Hnone.
  unfold get_value, mm_execute_sql_query, mm_update_csv_from_airtable,
    get_csv_data, convert_csv_to_json.
  rewrite Hnone. repeat (split; [reflexivity|]).
  split; [|split; reflexivity].
  intros attr args m Hattr Hcall.
  assert (Hwrong : forall q p g,
            @raise (world db) pyobj (arity_error q p g) w = (Ret PNone, w) \/
            exists e, @raise (world db) pyobj (arity_error q p g) w = (Raise e, w) /\
                      exc_type e = "TypeError"%string).
  { intros q p g. right. eexists. split; [reflexivity | apply exc_type_arity_error]. }
  destruct Hattr as [<-|[<-|[<-|[]]]];
    unfold call_table_method in Hcall; cbn [String.eqb Ascii.eqb Bool.eqb] in Hcall;
    injection Hcall as <-.
  - destruct args as [|c [|v [|t [|? ?]]]]; try apply Hwrong.
    left. unfold bindM, get_value. rewrite Hnone. reflexivity.
  - destruct args as [|q [|? ?]]; try apply Hwrong.
    left. unfold bindM, mm_execute_sql_query. rewrite Hnone. reflexivity.
  - destruct args as [|? ?]; try apply Hwrong.
    left. unfold bindM, mm_update_csv_from_airtable. rewrite Hnone. reflexivity.
Qed.

Lemma or_failed_success (name : string) :
  or_failed (Some (success_message name)) = success_message name.
Proof. reflexivity. Qed.

Lemma update_tables_cons (self : AirtableMultiManager) (name : string)
    (names : list string) (results : Dict.t string) (w : world db) :
  update_tables self (name :: names) results w
  = update_tables self names
      (Dict.set name
         (match fst (mm_update_csv_from_airtable self name w) with
          | Ret result => or_failed result
          | Raise e => "Error: " +:+ exc_msg e
          end) results)
      (snd (mm_update_csv_from_airtable self name w)).
Proof.
  cbn [update_tables]. unfold bindM at 1, try_except, bindM at 1.
  destruct (mm_update_csv_from_airtable self name w) as [[result|e] w1]; reflexivity.
Qed.

Lemma mm_update_outcome (self : AirtableMultiManager) (name : string) (w : world db) :
  outcome self name
    (match fst (mm_update_csv_from_airtable self name w) with
     | Ret result => or_failed result
     | Raise e => "Error: " +:+ exc_msg e
     end).
Proof.
  unfold outcome, mm_update_csv_from_airtable.
  destruct (get_manager self name) as [h|] eqn:Hget; [|right; left; reflexivity].
  destruct (update_csv_from_airtable_cases h w)
    as [(e & w' & ->)|[->|(w' & ->)]]; cbn [fst].
  - right. right. exists e. reflexivity.
  - right. left. reflexivity.
  - left. exists h. split; reflexivity.
Qed.

(** The loop of [update_all_tables] returns, and adds one entry per
    name visited, in the order of the visit. *)
Lemma update_tables_returns (self : AirtableMultiManager) (names : list string) :
  forall results w,
    NoDup names ->
    (forall n, In n names -> ~ In n (Dict.keys results)) ->
    exists results' w',
      update_tables self names results w = (Ret results', w') /\
      Dict.keys results' = Dict.keys results ++ names /\
      (forall n msg, In (n, msg) results' ->
                     In (n, msg) results \/ (In n names /\ outcome self n msg)).
Proof.
  induction names as [|name names IH]; intros results w Hnd Hfresh.
  - exists results, w. split; [reflexivity|].
    split; [rewrite app_nil_r; reflexivity | auto].
  - rewrite update_tables_cons.
    apply NoDup_cons in Hnd as [Hname Hnd].
    set (msg0 := match fst (mm_update_csv_from_airtable self name w) with
                 | Ret result => or_failed result
                 | Raise e => "Error: " +:+ exc_msg e
                 end).
    assert (Hkeys : Dict.keys (Dict.set name msg0 results)
                    = Dict.keys results ++ [name]).
    { rewrite dict_keys_set.
      destruct (Dict.mem name results) eqn:Hm; [|reflexivity].
      apply dict_mem_keys in Hm. exfalso.
      apply (Hfresh name); [left; reflexivity | exact Hm]. }
    destruct (IH (Dict.set name msg0 results)
                 (snd (mm_update_csv_from_airtable self name w)) Hnd)
      as (results' & w' & Heq & Hk & Hout).
    { intros n Hn. rewrite Hkeys, in_app_iff. intros [Hin|[<-|[]]].
      - apply (Hfresh n); [right; exact Hn | exact Hin].
      - apply Hname, list_elem_of_In. exact Hn. }
    exists results', w'. split; [exact Heq|]. split.
    + rewrite Hk, Hkeys, <- app_assoc. reflexivity.
    + intros n msg Hin. destruct (Hout n msg Hin) as [Hold|[Hn Ho]].
      * apply dict_In_set in Hold as [[-> ->]|Hold]; [|left; exact Hold].
        right. split; [left; reflexivity | apply mm_update_outcome].
      * right. split; [right; exact Hn | exact Ho].
Qed.

Lemma update_csv_from_airtable_success (self : AirtableCSVManager) (w : world db)
    (r : record) (rs : list record) :
  (forall name records csv_data d,
     build_csv records = Ret csv_data ->
     fst (import_csv_rows name csv_data d) = Ret tt) ->
  airtable_get_all (base_id self) (table_name self) (api_key self) = Ret (r :: rs) ->
  fst (update_csv_from_airtable self w)
  = Ret (Some (success_message (table_name self))).
Proof.
  intros Himport Hfetch.
  unfold update_csv_from_airtable, bindM, lift. rewrite Hfetch.
  destruct (build_csv (r :: rs)) as [csv_data|e] eqn:Hcsv;
    [|rewrite build_csv_text in Hcsv; discriminate].
  destruct (sqlite_storage self) as [st|]; [|reflexivity].
  unfold on_store.
  specialize (Himport (table_name self) (r :: rs) csv_data (stores w st) Hcsv).
  destruct (import_csv_rows _ _ _) as [res d']. cbn in Himport. subst res. reflexivity.
Qed.

Lemma update_csv_from_airtable_fetch_error (self : AirtableCSVManager) (w : world db)
    (e : exn) :
  airtable_get_all (base_id self) (table_name self) (api_key self) = Raise e ->
  update_csv_from_airtable self w = (Raise e, w).
Proof.
  intros Hfetch. unfold update_csv_from_airtable, bindM, lift. rewrite Hfetch.
  reflexivity.
Qed.

(** C6: [update_all_tables] always returns; its result has exactly one
    entry per key of [managers], in their order, and each entry is
    the success message of the table's handle, the text
    [Failed to update], or [Error: ] followed by the text of the
    exception caught.  With three tables of which the second's fetch
    raises while the two others fetch records, and a storage whose
    import accepts every text built from records, the entries are:
    success, the error text, success. *)
Theorem C6_update_all_tables_outcomes (self : AirtableMultiManager) (w : world db) :
  Dict.wf (managers self) ->
  (exists results w',
     update_all_tables self w = (Ret results, w') /\
     Dict.keys results = Dict.keys (managers self) /\
     Dict.wf results /\
     forall name msg, In (name, msg) results -> outcome self name msg)
  /\
  (forall t1 t2 t3 h1 h2 h3 r1 rs1 r3 rs3 e,
     managers self = [(t1, h1); (t2, h2); (t3, h3)] ->
     (forall name records csv_data d,
        build_csv records = Ret csv_data ->
        fst (import_csv_rows name csv_data d) = Ret tt) ->
     airtable_get_all (base_id h1) (table_name h1) (api_key h1) = Ret (r1 :: rs1) ->
     airtable_get_all (base_id h2) (table_name h2) (api_key h2) = Raise e ->
     airtable_get_all (base_id h3) (table_name h3) (api_key h3) = Ret (r3 :: rs3) ->
     fst (update_all_tables self w)
     = Ret [(t1, success_message (table_name h1));
            (t2, "Error: " +:+ exc_msg e);
            (t3, success_message (table_name h3))]).
Proof.
  intros Hwf. split.
  - unfold update_all_tables.
    destruct (update_tables_returns self (Dict.keys (managers self)) [] w Hwf)
      as (results & w' & Heq & Hk & Hout); [intros n _ []|].
    exists results, w'. split; [exact Heq|]. split; [exact Hk|].
    split; [unfold Dict.wf; rewrite Hk; exact Hwf|].
    intros name msg Hin. destruct (Hout name msg Hin) as [[]|[_ Ho]]. exact Ho.
  - intros t1 t2 t3 h1 h2 h3 r1 rs1 r3 rs3 e Hms Himport Hf1 Hf2 Hf3.
    unfold Dict.wf in Hwf. rewrite Hms in Hwf. cbn [Dict.keys map fst] in Hwf.
    apply NoDup_cons in Hwf as [H1 Hwf]. apply NoDup_cons in Hwf as [H2 _].
    assert (H12 : String.eqb t2 t1 = false).
    { apply String.eqb_neq. intros ->. apply H1. left. }
    assert (H13 : String.eqb t3 t1 = false).
    { apply String.eqb_neq. intros ->. apply H1. right. left. }
    assert (H23 : String.eqb t3 t2 = false).
    { apply String.eqb_neq. intros ->. apply H2. left. }
    unfold update_all_tables. rewrite Hms. cbn [Dict.keys map fst].
    rewrite !update_tables_cons. cbn [update_tables].
    unfold mm_update_csv_from_airtable, get_manager. rewrite Hms.
    cbn [Dict.get]. rewrite !String.eqb_refl, H12, H13, H23.
    rewrite (update_csv_from_airtable_success h1 w r1 rs1 Himport Hf1).
    rewrite (update_csv_from_airtable_fetch_error h2 _ e Hf2). cbn [fst snd].
    rewrite (update_csv_from_airtable_success h3 _ r3 rs3 Himport Hf3).
    rewrite !or_failed_success.
    cbn [Dict.set]. rewrite H12. cbn [Dict.set]. rewrite H13. cbn [Dict.set].
    rewrite H23. reflexivity.
Qed.

Lemma count_occ_app_one (l : list string) (x : string) :
  count_occ string_dec (l ++ [x]) x = S (count_occ string_dec l x).
Proof.
  rewrite count_occ_app. cbn [count_occ].
  destruct (string_dec x x); [lia | congruence].
Qed.

(** C7: after [add_table X] twice, whatever the coordinator held
    before, [managers] has exactly one entry [X]; its handle is the
    one built from the coordinator's base, key and storage object,
    whatever handle was there; the other handles are untouched; and
    [table_names] gained [X] only if it was not there ([X] occurs in
    it once, or as often as it did before when that was more).
    [remove_table X] twice returns both times, the second time
    [False], and changes nothing the second time; for a name without
    a handle it returns [False] at once. *)
Theorem C7_add_remove_idempotent (self : AirtableMultiManager) (X : string) :
  Dict.wf (managers self) ->
  (let self1 := snd (add_table X self) in
   let self2 := snd (add_table X self1) in
   fst (add_table X self) = Ret tt /\
   fst (add_table X self1) = Ret tt /\
   self2 = self1 /\
   Dict.wf (managers self2) /\
   count_occ string_dec (get_available_tables self2) X = 1 /\
   get_manager self2 X
     = Some (Handle (mm_base_id self) X (mm_api_key self)
                    (Some (mm_sqlite_storage self))) /\
   mm_sqlite_storage self2 = mm_sqlite_storage self /\
   (forall Y, Y <> X -> get_manager self2 Y = get_manager self Y) /\
   table_names self2
     = (if list_mem X (table_names self) then table_names self
        else table_names self ++ [X]) /\
   count_occ string_dec (table_names self2) X
     = Nat.max 1 (count_occ string_dec (table_names self) X))
  /\
  (let r1 := remove_table X self in
   let r2 := remove_table X (snd r1) in
   (exists b, fst r1 = Ret b) /\
   get_manager (snd r1) X = None /\
   fst r2 = Ret false /\
   snd r2 = snd r1)
  /\
  (get_manager self X = None -> remove_table X self = (Ret false, self)).
Proof.
  intros Hwf. split; [|split].
  - cbv zeta. rewrite !add_table_eq. cbn [fst snd]. rewrite ?add_table_eq.
    cbn [fst snd table_names managers mm_api_key mm_base_id mm_sqlite_storage].
    set (h := new_manager self X).
    set (names1 := if list_mem X (table_names self) then table_names self
                   else table_names self ++ [X]).
    assert (Hin1 : list_mem X names1 = true).
    { subst names1. destruct (list_mem X (table_names self)) eqn:Hl; [exact Hl|].
      apply list_mem_In, in_or_app. right. left. reflexivity. }
    rewrite Hin1.
    assert (Hset : Dict.set X h (Dict.set X h (managers self))
                   = Dict.set X h (managers self)).
    { clear. induction (managers self) as [|[k v] d IH]; cbn [Dict.set].
      - rewrite String.eqb_refl. reflexivity.
      - destruct (String.eqb X k) eqn:Hk; cbn [Dict.set]; rewrite Hk;
          [reflexivity | rewrite IH; reflexivity]. }
    assert (Hh : forall ms ns,
               new_manager (Coordinator (mm_api_key self) (mm_base_id self) ms
                              (mm_sqlite_storage self) ns) X = h) by reflexivity.
    rewrite Hh, Hset.
    split; [reflexivity|]. split; [reflexivity|]. split; [reflexivity|].
    assert (Hwf1 : Dict.wf (Dict.set X h (managers self))) by (apply dict_wf_set; exact Hwf).
    split; [exact Hwf1|].
    split.
    { unfold get_available_tables. cbn [managers]. apply dict_wf_count; [exact Hwf1|].
      apply dict_mem_keys. unfold Dict.mem. rewrite dict_get_set_same. reflexivity. }
    split; [unfold get_manager; cbn [managers]; apply dict_get_set_same|].
    split; [reflexivity|].
    split.
    { intros Y HY. unfold get_manager. cbn [managers].
      apply dict_get_set_other. congruence. }
    split; [reflexivity|].
    subst names1. destruct (list_mem X (table_names self)) eqn:Hl.
    + apply list_mem_In in Hl.
      apply (count_occ_In string_dec) in Hl. lia.
    + apply list_mem_false in Hl.
      rewrite count_occ_app_one.
      rewrite (proj1 (count_occ_not_In string_dec _ _) Hl). reflexivity.
  - cbv zeta.
    destruct (Dict.get X (managers self)) as [h|] eqn:Hget.
    + assert (Hin : In X (Dict.keys (managers self))).
      { apply dict_mem_keys. unfold Dict.mem. rewrite Hget. reflexivity. }
      destruct (remove_table_present X self Hwf Hin)
        as (ms & names & Heq & _ & Hgone & _).
      rewrite Heq. cbn [fst snd].
      assert (Hnone : get_manager (Coordinator (mm_api_key self) (mm_base_id self) ms
                                     (mm_sqlite_storage self) names) X = None).
      { unfold get_manager. cbn [managers]. apply dict_get_none_keys. exact Hgone. }
      rewrite (remove_table_absent _ _ Hnone).
      split; [exists true; reflexivity|]. split; [exact Hnone|]. split; reflexivity.
    + rewrite !(remove_table_absent X self Hget). cbn [fst snd].
      rewrite !(remove_table_absent X self Hget).
      split; [exists false; reflexivity|]. split; [exact Hget|]. split; reflexivity.
  - apply remove_table_absent.
Qed.

(** C9: when the metadata request raises, or answers with a status
    other than 200, [get_tables_from_base] returns [None] and only
    prints; it raises in no case at all; and when it returned [None],
    [discover_and_add_tables_from_base] returns the empty dictionary
    and leaves the coordinator as it was. *)
Theorem C9_discovery_failure_is_swallowed (self : AirtableMultiManager)
    (base : option string) (w : world db) :
  let b := match base with None => mm_base_id self | Some b => b end in
  (forall e,
     requests_get (meta_url b) (meta_headers self) = Raise e ->
     get_tables_from_base self base w
     = (Ret None,
        printed w ["Error getting tables from base " +:+ b +:+ ": " +:+ exc_msg e]))
  /\
  (forall resp,
     requests_get (meta_url b) (meta_headers self) = Ret resp ->
     status_code resp <> 200%Z ->
     get_tables_from_base self base w
     = (Ret None,
        printed w ["Failed to get tables from base " +:+ b +:+ ": "
                     +:+ str_of_int (status_code resp);
                   "Response: " +:+ text resp]))
  /\
  (exists r lines, get_tables_from_base self base w = (Ret r, printed w lines))
  /\
  (forall w1,
     get_tables_from_base self None w = (Ret None, w1) ->
     discover_and_add_tables_from_base (self, w)
     = (Ret [],
        (self, printed w1 ["No tables found or failed to retrieve tables from base "
                           +:+ mm_base_id self]))).
Proof.
  cbv zeta. split; [|split; [|split]].
  - intros e. apply get_tables_from_base_unreachable.
  - intros resp. apply get_tables_from_base_refused.
  - apply get_tables_from_base_returns.
  - intros w1. apply discover_none.
Qed.

(** ** Further properties of [AirtableMultiManager] *)

Lemma filter_other_absent (x : string) (l : list string) :
  ~ In x l -> List.filter (fun y => negb (String.eqb y x)) l = l.
Proof.
  induction l as [|y l IH]; intros Hx; [reflexivity|].
  cbn [List.filter]. destruct (String.eqb_spec y x) as [->|Hne].
  - exfalso. apply Hx. left. reflexivity.
  - cbn [negb]. rewrite IH; [reflexivity|]. intros H. apply Hx. right. exact H.
Qed.

Lemma list_remove_filter (x : string) (l l' : list string) :
  NoDup l -> list_remove x l = Ret l' ->
  l' = List.filter (fun y => negb (String.eqb y x)) l.
Proof.
  revert l'. induction l as [|y l IH]; intros l' Hnd Hrm; [discriminate Hrm|].
  apply NoDup_cons in Hnd as [Hy Hnd]. cbn [list_remove List.filter] in *.
  rewrite (String.eqb_sym y x).
  destruct (String.eqb_spec x y) as [->|Hne].
  - injection Hrm as <-. cbn [negb]. symmetry. apply filter_other_absent.
    rewrite <- list_elem_of_In. exact Hy.
  - cbn [negb]. destruct (list_remove x l) as [l0|e]; [|discriminate Hrm].
    injection Hrm as <-. rewrite (IH l0 Hnd eq_refl). reflexivity.
Qed.

Lemma list_remove_app_fresh (x : string) (l : list string) :
  ~ In x l -> list_remove x (l ++ [x]) = Ret l.
Proof.
  induction l as [|y l IH]; intros Hx; cbn [app list_remove].
  - rewrite String.eqb_refl. reflexivity.
  - destruct (String.eqb_spec x y) as [->|Hne].
    + exfalso. apply Hx. left. reflexivity.
    + rewrite IH; [reflexivity|]. intros H. apply Hx. right. exact H.
Qed.

Lemma list_remove_other (x y : string) (l l' : list string) :
  y <> x -> list_remove x l = Ret l' -> (In y l' <-> In y l).
Proof.
  intros Hne. revert l'. induction l as [|z l IH]; intros l' Hrm; [discriminate Hrm|].
  cbn [list_remove] in Hrm. destruct (String.eqb_spec x z) as [->|Hxz].
  - injection Hrm as <-. simpl. split; [auto|]. intros [H|H]; [congruence | exact H].
  - destruct (list_remove x l) as [l0|e]; [|discriminate Hrm].
    injection Hrm as <-. simpl. rewrite (IH l0 eq_refl). reflexivity.
Qed.

Section DictMore.
Context {V : Type}.
Implicit Types (d : Dict.t V) (k : string) (v : V).

Lemma dict_get_del_other k k' d d' :
  k <> k' -> Dict.del k d = Ret d' -> Dict.get k' d' = Dict.get k' d.
Proof.
  intros Hne. revert d'. induction d as [|[k0 v0] d IH]; intros d' Hdel;
    [discriminate Hdel|].
  cbn [Dict.del] in Hdel. destruct (String.eqb_spec k k0) as [->|Hk].
  - injection Hdel as <-. cbn [Dict.get].
    replace (String.eqb k' k0) with false
      by (symmetry; apply String.eqb_neq; congruence).
    reflexivity.
  - destruct (Dict.del k d) as [d0|e]; [|discriminate Hdel].
    injection Hdel as <-. cbn [Dict.get]. rewrite (IH d0 eq_refl). reflexivity.
Qed.

Lemma dict_del_set_fresh k v d :
  Dict.get k d = None -> Dict.del k (Dict.set k v d) = Ret d.
Proof.
  induction d as [|[k0 v0] d IH]; cbn [Dict.get Dict.set Dict.del].
  - rewrite String.eqb_refl. reflexivity.
  - destruct (String.eqb k k0) eqn:Hk; [discriminate|].
    intros Hget. cbn [Dict.del]. rewrite Hk, (IH Hget). reflexivity.
Qed.
End DictMore.

(** X4: Registering a table that is not known and removing it again
    gives back the coordinator as it was. *)
Theorem X_add_then_remove_restores (self : AirtableMultiManager) (name : string) :
  get_manager self name = None ->
  ~ In name (table_names self) ->
  remove_table name (snd (add_table name self)) = (Ret true, self).
Proof.
  intros Hget Hnot. rewrite add_table_eq. cbn [snd].
  apply list_mem_false in Hnot as Hmem. rewrite Hmem.
  unfold remove_table. cbn [managers table_names set_managers set_table_names
    mm_api_key mm_base_id mm_sqlite_storage].
  unfold Dict.mem. rewrite dict_get_set_same.
  unfold get_manager in Hget. rewrite (dict_del_set_fresh _ _ _ Hget).
  assert (Hin : list_mem name (table_names self ++ [name]) = true).
  { apply list_mem_In, in_or_app. right. left. reflexivity. }
  rewrite Hin, (list_remove_app_fresh _ _ Hnot).
  destruct self. reflexivity.
Qed.

Lemma remove_table_same_fields (self : AirtableMultiManager) (X : string) :
  mm_api_key (snd (remove_table X self)) = mm_api_key self /\
  mm_base_id (snd (remove_table X self)) = mm_base_id self /\
  mm_sqlite_storage (snd (remove_table X self)) = mm_sqlite_storage self.
Proof.
  unfold remove_table. destruct (Dict.mem X (managers self)); [|repeat split].
  destruct (Dict.del X (managers self)) as [ms|e]; [|repeat split].
  cbn [set_managers table_names].
  destruct (list_mem X (table_names self)); [|repeat split].
  destruct (list_remove X (table_names self)); repeat split.
Qed.

(** X5: [remove_table] never raises, returns whether the name had a
    handle, keeps every other handle and the order of the remaining
    ones, and changes nothing else of the coordinator. *)
Theorem X_remove_table_keeps_others (self : AirtableMultiManager) (X : string) :
  Dict.wf (managers self) ->
  exists b self',
    remove_table X self = (Ret b, self') /\
    (b = true <-> In X (get_available_tables self)) /\
    get_manager self' X = None /\
    get_available_tables self'
      = List.filter (fun y => negb (String.eqb y X)) (get_available_tables self) /\
    (forall Y, Y <> X -> get_manager self' Y = get_manager self Y) /\
    (forall Y, Y <> X -> (In Y (table_names self') <-> In Y (table_names self))) /\
    mm_api_key self' = mm_api_key self /\
    mm_base_id self' = mm_base_id self /\
    mm_sqlite_storage self' = mm_sqlite_storage self.
Proof.
  intros Hwf. unfold get_available_tables.
  destruct (Dict.get X (managers self)) as [h|] eqn:Hget.
  - assert (Hin : In X (Dict.keys (managers self))).
    { apply dict_mem_keys. unfold Dict.mem. rewrite Hget. reflexivity. }
    destruct (dict_del_present X (managers self) Hin) as (ms0 & Hdel & _).
    destruct (remove_table_present X self Hwf Hin)
      as (ms & names & Heq & Hrm & Hgone & _ & Hnames).
    exists true, (Coordinator (mm_api_key self) (mm_base_id self) ms
                    (mm_sqlite_storage self) names).
    split; [exact Heq|]. split; [tauto|].
    unfold get_manager. cbn [managers table_names mm_api_key mm_base_id mm_sqlite_storage].
    split; [apply dict_get_none_keys; exact Hgone|].
    split; [apply (list_remove_filter _ _ _ Hwf Hrm)|].
    split.
    { intros Y HY. unfold remove_table in Heq.
      rewrite (proj2 (dict_mem_keys X (managers self)) Hin), Hdel in Heq.
      assert (ms = ms0) as ->.
      { cbn [set_managers table_names] in Heq.
        destruct (list_mem X (table_names self));
          [destruct (list_remove X (table_names self))|];
          injection Heq; congruence. }
      apply (dict_get_del_other X Y _ _ (not_eq_sym HY) Hdel). }
    split; [|repeat split].
    intros Y HY. destruct Hnames as [[-> _]|Hrm']; [tauto|].
    apply (list_remove_other X Y _ _ HY Hrm').
  - exists false, self. rewrite (remove_table_absent X self Hget).
    split; [reflexivity|].
    split.
    { split; [discriminate|]. intros Hin. apply dict_get_none_keys in Hget.
      contradiction. }
    split; [exact Hget|].
    split.
    { symmetry. apply filter_other_absent. apply dict_get_none_keys. exact Hget. }
    split; [reflexivity|]. split; [tauto|]. repeat split.
Qed.

(** *** Construction *)

Lemma init_result (key base : string) (names : option (list string))
    (storage : option storage_ref) (w : world db) :
  init key base names storage w
  = (Ret (_initialize_managers
            (Coordinator key base [] (fst (chosen_storage storage w))
               (default ["DataHub_Craffft"] names))),
     snd (chosen_storage storage w)).
Proof. destruct storage, names; reflexivity. Qed.

(** X1: Whatever the list of names, duplicates included, construction
    returns a coordinator that keeps the list as given and holds
    exactly one handle per distinct name, built from the base, the key
    and the storage object of the coordinator. Without a storage
    argument a new storage object is made and nothing else of the
    world changes. *)
Theorem X_init_one_handle_per_name (key base : string)
    (names : option (list string)) (storage : option storage_ref) (w : world db) :
  exists self w',
    init key base names storage w = (Ret self, w') /\
    mm_api_key self = key /\
    mm_base_id self = base /\
    table_names self = default ["DataHub_Craffft"] names /\
    NoDup (get_available_tables self) /\
    (forall k, In k (get_available_tables self) <-> In k (table_names self)) /\
    (forall k, In k (table_names self) ->
               get_manager self k
               = Some (Handle base k key (Some (mm_sqlite_storage self)))) /\
    match storage with
    | Some st => mm_sqlite_storage self = st /\ w' = w
    | None =>
        mm_sqlite_storage self = next_ref w /\
        stores w' (next_ref w) = SQLiteStorage_new /\
        (forall st, st <> next_ref w -> stores w' st = stores w st) /\
        next_ref w' = Pos.succ (next_ref w) /\
        stdout w' = stdout w
    end.
Proof.
  rewrite init_result. eexists _, _. split; [reflexivity|].
  unfold _initialize_managers. cbn [table_names].
  set (self0 := Coordinator key base [] (fst (chosen_storage storage w))
                  (default ["DataHub_Craffft"] names)).
  pose proof (initialize_managers_from (default ["DataHub_Craffft"] names) self0) as H.
  cbv zeta in H. destruct H as (H1 & H2 & H3 & H4 & H5 & H6 & _ & H8).
  split; [exact H1|]. split; [exact H2|]. split; [exact H4|].
  split; [apply H6; apply NoDup_nil_2|].
  split.
  { intros k. unfold get_available_tables. rewrite H5, H4. cbn. tauto. }
  split.
  { intros k Hk. rewrite H4 in Hk.
    assert (Hin : In k (Dict.keys (managers
              (foldl (fun s name =>
                        set_managers s (Dict.set name (new_manager s name) (managers s)))
                     self0 (default ["DataHub_Craffft"] names)))))
      by (apply H5; right; exact Hk).
    apply dict_mem_keys in Hin. unfold Dict.mem in Hin. unfold get_manager.
    destruct (Dict.get k _) as [h|] eqn:Hget; [|discriminate].
    apply dict_get_In in Hget.
    rewrite (H8 (fun k h (F : In (k, h) []) => match F with end) k h Hget).
    rewrite H3. reflexivity. }
  rewrite H3. destruct storage as [st|]; cbn.
  - split; reflexivity.
  - rewrite decide_True by reflexivity.
    split; [reflexivity|]. split; [reflexivity|].
    split; [|split; reflexivity].
    intros st Hst. rewrite decide_False by exact Hst. reflexivity.
Qed.

(** *** What the registrations keep *)

Lemma printed_printed (w : world db) (a b : list string) :
  printed (printed w a) b = printed w (a ++ b).
Proof. unfold printed. cbn. rewrite app_assoc. reflexivity. Qed.

Lemma add_discovered_same_fields (names : list string) :
  forall results self w,
    let out := add_discovered names results (self, w) in
    mm_api_key (fst (snd out)) = mm_api_key self /\
    mm_base_id (fst (snd out)) = mm_base_id self /\
    mm_sqlite_storage (fst (snd out)) = mm_sqlite_storage self /\
    snd (snd out) = w.
Proof.
  induction names as [|name names IH]; intros results self w; cbv zeta.
  - repeat split.
  - rewrite add_discovered_cons, add_table_eq. cbn [snd].
    specialize (IH (Dict.set name true results)
                  (Coordinator (mm_api_key self) (mm_base_id self)
                     (Dict.set name (new_manager self name) (managers self))
                     (mm_sqlite_storage self)
                     (if list_mem name (table_names self) then table_names self
                      else table_names self ++ [name])) w).
    cbv zeta in IH. exact IH.
Qed.

(** A sequence of registrations, started from names and handles in
    correspondence, never raises, keeps the correspondence and the
    key, base and storage object of the coordinator, and does nothing
    to the world but print. *)
Lemma run_ops_keeps (ops : list op) :
  forall self w,
    coordinator_inv self ->
    exists self' lines,
      run_ops ops (self, w) = (Ret tt, (self', printed w lines)) /\
      coordinator_inv self' /\
      mm_api_key self' = mm_api_key self /\
      mm_base_id self' = mm_base_id self /\
      mm_sqlite_storage self' = mm_sqlite_storage self.
Proof.
  induction ops as [|o ops IH]; intros self w Hinv.
  - exists self, []. rewrite printed_nil. repeat split; apply Hinv.
  - cbn [run_ops]. unfold bindM at 1.
    assert (Hstep : exists self1 lines1,
               apply_op o (self, w) = (Ret tt, (self1, printed w lines1)) /\
               coordinator_inv self1 /\
               mm_api_key self1 = mm_api_key self /\
               mm_base_id self1 = mm_base_id self /\
               mm_sqlite_storage self1 = mm_sqlite_storage self).
    { destruct o as [name|name|]; cbn [apply_op].
      - exists (snd (add_table name self)), []. rewrite printed_nil.
        split; [unfold on_fst; cbn [fst snd]; rewrite add_table_eq; reflexivity|].
        split; [apply add_table_inv; exact Hinv|].
        rewrite add_table_eq. repeat split.
      - destruct (remove_table_inv name self Hinv) as (b & Hb & Hinv').
        destruct (remove_table_same_fields self name) as (Ha & Hb' & Hc).
        exists (snd (remove_table name self)), []. rewrite printed_nil.
        split.
        { unfold bindM, on_fst. cbn [fst snd].
          destruct (remove_table name self) as [r s]. cbn in Hb. subst r. reflexivity. }
        split; [exact Hinv'|]. split; [exact Ha|]. split; assumption.
      - unfold bindM at 1.
        destruct (discover_inv self w Hinv) as (results & self' & w' & Heq & Hinv').
        rewrite Heq.
        assert (Hfields : mm_api_key self' = mm_api_key self /\
                          mm_base_id self' = mm_base_id self /\
                          mm_sqlite_storage self' = mm_sqlite_storage self /\
                          exists lines, w' = printed w lines).
        { revert Heq. unfold discover_and_add_tables_from_base.
          unfold bindM at 1, on_fst, get. cbn [fst snd].
          unfold bindM at 1, on_snd. cbn [fst snd].
          destruct (get_tables_from_base_returns self None w) as (r & lines & ->).
          destruct r as [[|n ns]|].
          - intros [= _ <- <-]. repeat split.
            eexists. unfold bindM, on_snd, print. cbn. apply printed_printed.
          - intros Heq.
            pose proof (add_discovered_same_fields (n :: ns) [] self (printed w lines)) as Hk.
            cbv zeta in Hk. rewrite Heq in Hk. cbn [fst snd] in Hk.
            destruct Hk as (? & ? & ? & ->). repeat split; try assumption.
            exists lines. reflexivity.
          - intros [= _ <- <-]. repeat split.
            eexists. unfold bindM, on_snd, print. cbn. apply printed_printed. }
        destruct Hfields as (Ha & Hb & Hc & lines & ->).
        exists self', lines. split; [reflexivity|]. split; [exact Hinv'|].
        repeat split; assumption. }
    destruct Hstep as (self1 & lines1 & -> & Hinv1 & Ha & Hb & Hc).
    destruct (IH self1 (printed w lines1) Hinv1) as (self' & lines & Heq & Hinv' & Ha' & Hb' & Hc').
    exists self', (lines1 ++ lines). rewrite Heq, printed_printed.
    split; [reflexivity|]. split; [exact Hinv'|].
    rewrite Ha', Hb', Hc'. repeat split; assumption.
Qed.

(** X6: From a list of names without repetition (the default list is
    one), construction followed by any sequence of [add_table],
    [remove_table] and [discover_and_add_tables_from_base] never
    raises and ends with names and handles in correspondence, on the
    key, base and storage object chosen at construction; the sequence
    does nothing to the world but print. *)
Theorem X_registrations_keep_correspondence (key base : string)
    (names : option (list string)) (storage : option storage_ref)
    (ops : list op) (w : world db) :
  NoDup (default ["DataHub_Craffft"] names) ->
  exists self0 w0 self lines,
    init key base names storage w = (Ret self0, w0) /\
    run_ops ops (self0, w0) = (Ret tt, (self, printed w0 lines)) /\
    coordinator_inv self /\
    mm_api_key self = key /\
    mm_base_id self = base /\
    mm_sqlite_storage self = mm_sqlite_storage self0.
Proof.
  intros Hnd. rewrite init_result.
  set (self0 := _initialize_managers
                  (Coordinator key base [] (fst (chosen_storage storage w))
                     (default ["DataHub_Craffft"] names))).
  assert (Hinv0 : coordinator_inv self0) by (apply init_inv; exact Hnd).
  destruct (run_ops_keeps ops self0 (snd (chosen_storage storage w)) Hinv0)
    as (self & lines & Heq & Hinv & Ha & Hb & Hc).
  exists self0, (snd (chosen_storage storage w)), self, lines.
  split; [reflexivity|]. split; [exact Heq|]. split; [exact Hinv|].
  pose proof (initialize_managers_from (default ["DataHub_Craffft"] names)
                (Coordinator key base [] (fst (chosen_storage storage w))
                   (default ["DataHub_Craffft"] names))) as H.
  cbv zeta in H. destruct H as (H1 & H2 & _).
  rewrite Ha, Hb. split; [exact H1|]. split; [exact H2 | exact Hc].
Qed.

(** X7: With names and handles in correspondence, the calls for a
    registered table go to the storage object of the coordinator under
    the table's own name, and its sync fetches that table of the
    coordinator's base with the coordinator's key. *)
Theorem X_registered_table_is_routed (self : AirtableMultiManager)
    (name : string) (w : world db) :
  coordinator_inv self ->
  In name (table_names self) ->
  get_manager self name = Some (new_manager self name) /\
  (forall c v t,
     get_value self name c v t w
     = on_store (mm_sqlite_storage self)
         (find_value_by_row_and_column name c v t) w) /\
  (forall q,
     mm_execute_sql_query self name q w
     = on_store (mm_sqlite_storage self) (storage_execute_sql_query name q) w) /\
  (airtable_get_all (mm_base_id self) name (mm_api_key self) = Ret [] ->
   mm_update_csv_from_airtable self name w = (Ret None, w)) /\
  (forall e,
     airtable_get_all (mm_base_id self) name (mm_api_key self) = Raise e ->
     mm_update_csv_from_airtable self name w = (Raise e, w)) /\
  (forall r rs,
     airtable_get_all (mm_base_id self) name (mm_api_key self) = Ret (r :: rs) ->
     exists csv_data,
       build_csv (r :: rs) = Ret csv_data /\
       mm_update_csv_from_airtable self name w
       = (on_store (mm_sqlite_storage self) (import_csv_rows name csv_data) ;;;
          ret (Some (success_message name))) w).
Proof.
  intros (Hnd & Hkeys & Hh) Hin.
  assert (Hget : get_manager self name = Some (new_manager self name)).
  { unfold get_manager. rewrite <- Hkeys in Hin.
    apply dict_mem_keys in Hin. unfold Dict.mem in Hin.
    destruct (Dict.get name (managers self)) as [h|] eqn:Hg; [|discriminate].
    rewrite (Hh name h (dict_get_In _ _ _ Hg)). reflexivity. }
  split; [exact Hget|].
  unfold get_value, mm_execute_sql_query, mm_update_csv_from_airtable.
  rewrite Hget. split; [reflexivity|]. split; [reflexivity|].
  unfold update_csv_from_airtable, bindM at 1, lift.
  cbn [new_manager base_id table_name api_key sqlite_storage].
  split; [intros ->; reflexivity|]. split; [intros e ->; reflexivity|].
  intros r rs ->. exists (concat_rows (collect_fieldnames (r :: rs)
                            :: map (row_cells (collect_fieldnames (r :: rs))) (r :: rs))).
  split; [apply build_csv_text|].
  unfold bindM at 1. rewrite build_csv_text. reflexivity.
Qed.

(** *** What a bulk sync touches *)

Lemma on_store_frame {A} (st : storage_ref) (m : M db A) (w : world db) :
  next_ref (snd (on_store st m w)) = next_ref w /\
  stdout (snd (on_store st m w)) = stdout w /\
  forall st', st' <> st -> stores (snd (on_store st m w)) st' = stores w st'.
Proof.
  unfold on_store. destruct (m (stores w st)) as [r d']. cbn.
  split; [reflexivity|]. split; [reflexivity|].
  intros st' Hne. rewrite decide_False by exact Hne. reflexivity.
Qed.

Lemma update_csv_from_airtable_empty (self : AirtableCSVManager) (w : world db) :
  airtable_get_all (base_id self) (table_name self) (api_key self) = Ret [] ->
  update_csv_from_airtable self w = (Ret None, w).
Proof.
  intros Hf. unfold update_csv_from_airtable, bindM, lift. rewrite Hf. reflexivity.
Qed.

Lemma update_csv_from_airtable_records (self : AirtableCSVManager) (w : world db)
    (r : record) (rs : list record) :
  airtable_get_all (base_id self) (table_name self) (api_key self) = Ret (r :: rs) ->
  update_csv_from_airtable self w
  = match sqlite_storage self with
    | Some st =>
        let out := on_store st
                     (import_csv_rows (table_name self)
                        (concat_rows
                           (collect_fieldnames (r :: rs)
                            :: map (row_cells (collect_fieldnames (r :: rs))) (r :: rs))))
                     w in
        match fst out with
        | Ret _ => (Ret (Some (success_message (table_name self))), snd out)
        | Raise e => (Raise e, snd out)
        end
    | None => (Ret (Some (success_message (table_name self))), w)
    end.
Proof.
  intros Hf. unfold update_csv_from_airtable, bindM at 1, lift. rewrite Hf.
  unfold bindM at 1. rewrite build_csv_text.
  destruct (sqlite_storage self) as [st|]; [|reflexivity].
  unfold bindM. cbv zeta. destruct (on_store st _ w) as [[[]|e] w1]; reflexivity.
Qed.

Lemma update_csv_from_airtable_frame (self : AirtableCSVManager) (w : world db) :
  let w' := snd (update_csv_from_airtable self w) in
  next_ref w' = next_ref w /\
  stdout w' = stdout w /\
  (forall st, sqlite_storage self <> Some st -> stores w' st = stores w st) /\
  ((airtable_get_all (base_id self) (table_name self) (api_key self) = Ret [] \/
    exists e, airtable_get_all (base_id self) (table_name self) (api_key self)
              = Raise e) ->
   w' = w).
Proof.
  cbv zeta.
  destruct (airtable_get_all (base_id self) (table_name self) (api_key self))
    as [[|r rs]|e] eqn:Hf.
  - rewrite (update_csv_from_airtable_empty self w Hf). repeat split.
  - rewrite (update_csv_from_airtable_records self w r rs Hf).
    destruct (sqlite_storage self) as [st|].
    + cbv zeta.
      pose proof (on_store_frame st
                    (import_csv_rows (table_name self)
                       (concat_rows (collect_fieldnames (r :: rs)
                          :: map (row_cells (collect_fieldnames (r :: rs))) (r :: rs))))
                    w) as (H1 & H2 & H3).
      destruct (on_store st _ w) as [[[]|e] w1]; cbn [fst snd] in *;
        (split; [exact H1|]; split; [exact H2|]; split;
         [intros st' Hne; apply H3; congruence
         |intros [Hx|[e' Hx]]; discriminate Hx]).
    + cbn [snd]. split; [reflexivity|]. split; [reflexivity|]. split; [reflexivity|].
      intros [Hx|[e' Hx]]; discriminate Hx.
  - rewrite (update_csv_from_airtable_fetch_error self w e Hf). repeat split.
Qed.

Lemma update_tables_frame (self : AirtableMultiManager) (names : list string) :
  forall results w,
    let w' := snd (update_tables self names results w) in
    next_ref w' = next_ref w /\
    stdout w' = stdout w /\
    (forall st,
       (forall k h, In (k, h) (managers self) -> sqlite_storage h <> Some st) ->
       stores w' st = stores w st) /\
    ((forall k h, In (k, h) (managers self) ->
        airtable_get_all (base_id h) (table_name h) (api_key h) = Ret [] \/
        exists e, airtable_get_all (base_id h) (table_name h) (api_key h) = Raise e) ->
     w' = w).
Proof.
  induction names as [|name names IH]; intros results w; cbv zeta.
  - repeat split.
  - rewrite update_tables_cons.
    set (w1 := snd (mm_update_csv_from_airtable self name w)).
    assert (Hstep : next_ref w1 = next_ref w /\
                    stdout w1 = stdout w /\
                    (forall st,
                       (forall k h, In (k, h) (managers self) ->
                                    sqlite_storage h <> Some st) ->
                       stores w1 st = stores w st) /\
                    ((forall k h, In (k, h) (managers self) ->
                        airtable_get_all (base_id h) (table_name h) (api_key h) = Ret [] \/
                        exists e, airtable_get_all (base_id h) (table_name h) (api_key h)
                                  = Raise e) ->
                     w1 = w)).
    { subst w1. unfold mm_update_csv_from_airtable, get_manager.
      destruct (Dict.get name (managers self)) as [h|] eqn:Hget; [|repeat split].
      apply dict_get_In in Hget.
      pose proof (update_csv_from_airtable_frame h w) as (H1 & H2 & H3 & H4).
      cbv zeta in *. split; [exact H1|]. split; [exact H2|].
      split; [intros st Hst; apply H3, (Hst name h Hget)|].
      intros Hall. apply H4, (Hall name h Hget). }
    destruct Hstep as (S1 & S2 & S3 & S4).
    specialize (IH (Dict.set name
                      (match fst (mm_update_csv_from_airtable self name w) with
                       | Ret result => or_failed result
                       | Raise e => "Error: " +:+ exc_msg e
                       end) results) w1).
    cbv zeta in IH. destruct IH as (I1 & I2 & I3 & I4).
    split; [rewrite I1; exact S1|]. split; [rewrite I2; exact S2|].
    split; [intros st Hst; rewrite (I3 st Hst); apply S3, Hst|].
    intros Hall. rewrite (I4 Hall). apply S4, Hall.
Qed.

(** X8: [update_all_tables] never prints and makes no storage object;
    it leaves alone every storage object that no handle refers to, so
    with names and handles in correspondence every one but the
    coordinator's; and when no table yields a record (each fetch
    raises or is empty) it leaves the whole world as it was. *)
Theorem X_update_all_tables_frame (self : AirtableMultiManager) (w : world db) :
  let w' := snd (update_all_tables self w) in
  next_ref w' = next_ref w /\
  stdout w' = stdout w /\
  (forall st,
     (forall k h, In (k, h) (managers self) -> sqlite_storage h <> Some st) ->
     stores w' st = stores w st) /\
  (coordinator_inv self ->
   forall st, st <> mm_sqlite_storage self -> stores w' st = stores w st) /\
  ((forall k h, In (k, h) (managers self) ->
      airtable_get_all (base_id h) (table_name h) (api_key h) = Ret [] \/
      exists e, airtable_get_all (base_id h) (table_name h) (api_key h) = Raise e) ->
   w' = w).
Proof.
  pose proof (update_tables_frame self (Dict.keys (managers self)) [] w) as H.
  cbv zeta in *. unfold update_all_tables. destruct H as (H1 & H2 & H3 & H4).
  split; [exact H1|]. split; [exact H2|]. split; [exact H3|]. split; [|exact H4].
  intros (_ & _ & Hh) st Hst. apply H3. intros k h Hin.
  rewrite (Hh k h Hin). cbn. congruence.
Qed.

(** *** Discovery that succeeds *)

Lemma names_of_tables_named (tables : list (gmap string string)) (names : list string) :
  names_of_tables tables = Ret names
  <-> map (fun t : gmap string string => t !! "name") tables = map Some names.
Proof.
  revert names. induction tables as [|t tables IH]; intros names; cbn [names_of_tables map].
  - split.
    + intros [= <-]. reflexivity.
    + destruct names; [reflexivity | discriminate].
  - unfold table_name_of. destruct (t !! "name") as [n|]; cbn [bind].
    + destruct (names_of_tables tables) as [ns|e] eqn:Hns; cbn [bind].
      * split.
        -- intros [= <-]. cbn [map]. f_equal. apply IH. reflexivity.
        -- destruct names as [|n' names']; [discriminate|].
           cbn [map]. intros [= -> Hrest]. apply IH in Hrest.
           injection Hrest as ->. reflexivity.
      * split; [discriminate|].
        destruct names as [|n' names']; [discriminate|].
        cbn [map]. intros [= _ Hrest]. apply IH in Hrest. discriminate Hrest.
    + split; [discriminate|]. destruct names; discriminate.
Qed.

Lemma names_of_tables_unnamed (tables : list (gmap string string)) :
  (exists t, In t tables /\ t !! "name" = None) ->
  names_of_tables tables = Raise (Exception "KeyError" "'name'").
Proof.
  induction tables as [|t tables IH]; intros (t0 & Hin & Hnone); [destruct Hin|].
  cbn [names_of_tables]. unfold table_name_of.
  destruct (t !! "name") as [n|] eqn:Hn; [|reflexivity].
  destruct Hin as [->|Hin]; [congruence|].
  cbn [bind]. rewrite IH by eauto. reflexivity.
Qed.

(** X10: When the metadata request is answered with status 200,
    [get_tables_from_base] returns the names of the listed tables, in
    the order of the answer, and prints nothing; an answer without a
    ['tables'] entry gives the empty list; a body that cannot be
    decoded, or a listed table without a name, gives [None] after one
    printed line. *)
Theorem X_get_tables_from_base_answer (self : AirtableMultiManager)
    (base : option string) (w : world db) (resp : response) :
  let b := match base with None => mm_base_id self | Some b => b end in
  requests_get (meta_url b) (meta_headers self) = Ret resp ->
  status_code resp = 200%Z ->
  (forall e,
     json resp = Raise e ->
     get_tables_from_base self base w
     = (Ret None,
        printed w ["Error getting tables from base " +:+ b +:+ ": " +:+ exc_msg e]))
  /\
  (json resp = Ret None -> get_tables_from_base self base w = (Ret (Some []), w))
  /\
  (forall tables,
     json resp = Ret (Some tables) ->
     (forall names,
        map (fun t : gmap string string => t !! "name") tables = map Some names ->
        get_tables_from_base self base w = (Ret (Some names), w))
     /\
     ((exists t, In t tables /\ t !! "name" = None) ->
      get_tables_from_base self base w
      = (Ret None,
         printed w ["Error getting tables from base " +:+ b +:+ ": 'name'"]))).
Proof.
  cbv zeta. intros Hreq Hs. apply Z.eqb_eq in Hs.
  unfold get_tables_from_base, try_except, bindM, lift. rewrite Hreq.
  split; [intros e ->; rewrite Hs; reflexivity|].
  split; [intros ->; rewrite Hs; reflexivity|].
  intros tables ->. change (default [] (Some tables)) with tables. split.
  - intros names Hn. apply names_of_tables_named in Hn. rewrite Hn, Hs. reflexivity.
  - intros Hmiss. rewrite (names_of_tables_unnamed tables Hmiss), Hs. reflexivity.
Qed.

(** The loop of discovery: which names it appends and what it
    records. *)
Lemma add_discovered_names (names : list string) :
  forall results self w,
    exists results' self' added,
      add_discovered names results (self, w) = (Ret results', (self', w)) /\
      table_names self' = table_names self ++ added /\
      (forall k, In k added <-> In k names /\ ~ In k (table_names self)) /\
      (forall k, In k (Dict.keys results')
                 <-> In k (Dict.keys results) \/ In k names) /\
      (forall Y, ~ In Y names -> get_manager self' Y = get_manager self Y).
Proof.
  induction names as [|name names IH]; intros results self w.
  - exists results, self, []. rewrite app_nil_r. split; [reflexivity|].
    split; [reflexivity|]. cbn. split; [tauto|]. split; [tauto | reflexivity].
  - rewrite add_discovered_cons, add_table_eq. cbn [snd].
    pose (tn1 := if list_mem name (table_names self) then table_names self
                 else table_names self ++ [name]).
    pose (self1 := Coordinator (mm_api_key self) (mm_base_id self)
                     (Dict.set name (new_manager self name) (managers self))
                     (mm_sqlite_storage self) tn1).
    change (add_discovered names (Dict.set name true results) (_, w))
      with (add_discovered names (Dict.set name true results) (self1, w)).
    destruct (IH (Dict.set name true results) self1 w)
      as (results' & self' & added1 & Heq & Htn & Hadded & Hkeys & Hman).
    assert (Htn1 : table_names self1 = table_names self
                   ++ (if list_mem name (table_names self) then [] else [name])).
    { subst self1 tn1. cbn [table_names].
      destruct (list_mem name (table_names self));
        [rewrite app_nil_r|]; reflexivity. }
    rewrite Htn1 in Htn, Hadded.
    exists results', self',
      ((if list_mem name (table_names self) then [] else [name]) ++ added1).
    split; [exact Heq|].
    split; [rewrite Htn, <- app_assoc; reflexivity|].
    split.
    { intros k. rewrite in_app_iff, Hadded, in_app_iff.
      destruct (list_mem name (table_names self)) eqn:Hm.
      - apply list_mem_In in Hm. cbn. split.
        + intros [[]|[Hk Hn]]. split; [right; exact Hk | tauto].
        + intros [[<-|Hk] Hn]; [contradiction | right; split; [exact Hk | tauto]].
      - apply list_mem_false in Hm. cbn. split.
        + intros [[<-|[]]|[Hk Hn]]; [split; [left; reflexivity | exact Hm]|].
          split; [right; exact Hk | tauto].
        + intros [[<-|Hk] Hn]; [left; left; reflexivity|].
          destruct (String.eqb_spec name k) as [->|Hne]; [left; left; reflexivity|].
          right. split; [exact Hk|]. intros [H|[H|[]]]; [exact (Hn H) | exact (Hne H)]. }
    split.
    { intros k. rewrite Hkeys, dict_keys_set.
      destruct (Dict.mem name results) eqn:Hm.
      - apply dict_mem_keys in Hm. cbn. split; [tauto|].
        intros [H|[<-|H]]; auto.
      - rewrite in_app_iff. cbn. tauto. }
    intros Y HY. rewrite Hman by (intros H; apply HY; right; exact H).
    subst self1. unfold get_manager. cbn [managers].
    apply dict_get_set_other. intros ->. apply HY. left. reflexivity.
Qed.

(** X11: When discovery found tables, every name found is registered
    and recorded as [True], in one entry each; the names registered
    before stay where they were, the new ones follow them; handles of
    tables that were not found are untouched; nothing raises, the
    world is the one discovery left, and names and handles stay in
    correspondence. *)
Theorem X_discover_and_add_registers_all (self : AirtableMultiManager)
    (w w1 : world db) (n : string) (ns : list string) :
  coordinator_inv self ->
  get_tables_from_base self None w = (Ret (Some (n :: ns)), w1) ->
  exists results self' added,
    discover_and_add_tables_from_base (self, w) = (Ret results, (self', w1)) /\
    coordinator_inv self' /\
    table_names self' = table_names self ++ added /\
    (forall k, In k added <-> In k (n :: ns) /\ ~ In k (table_names self)) /\
    (forall k, In k (Dict.keys results) <-> In k (n :: ns)) /\
    (forall k, In k (n :: ns) -> Dict.get k results = Some true) /\
    (forall Y, ~ In Y (n :: ns) -> get_manager self' Y = get_manager self Y) /\
    mm_sqlite_storage self' = mm_sqlite_storage self.
Proof.
  intros Hinv Hfound.
  destruct (add_discovered_names (n :: ns) [] self w1)
    as (results & self' & added & Heq & Htn & Hadded & Hkeys & Hman).
  destruct (add_discovered_inv (n :: ns) [] self w1 Hinv)
    as (results2 & self2 & Heq2 & Hinv' & _ & Htrue).
  rewrite Heq in Heq2. injection Heq2 as <- <-.
  pose proof (add_discovered_same_fields (n :: ns) [] self w1) as Hf.
  cbv zeta in Hf. rewrite Heq in Hf. cbn [fst snd] in Hf.
  exists results, self', added.
  split.
  { unfold discover_and_add_tables_from_base.
    unfold bindM at 1, on_fst, get. cbn [fst snd].
    unfold bindM at 1, on_snd. cbn [fst snd]. rewrite Hfound. exact Heq. }
  split; [exact Hinv'|]. split; [exact Htn|]. split; [exact Hadded|].
  split; [intros k; rewrite Hkeys; cbn; tauto|].
  split; [intros k Hk; apply Htrue; right; exact Hk|].
  split; [exact Hman | apply Hf].
Qed.

(** *** Construction from the environment or a configuration *)

(** X2: [from_environment]: a missing or empty [AIRTABLE_API_KEY]
    raises [ValueError], and so does, once the key is there, a missing
    or empty [AIRTABLE_BASE_ID]; in both cases no storage object is
    made and the world is as it was. With both set, the result is the
    coordinator of the default table, on a storage object made for it,
    with names and handles in correspondence. *)
Theorem X_from_environment_outcomes (environ : gmap string string) (w : world db) :
  (str_falsy (environ !! "AIRTABLE_API_KEY") = true ->
   from_environment environ w
   = (Raise (value_error "AIRTABLE_API_KEY environment variable is required"), w))
  /\
  (str_falsy (environ !! "AIRTABLE_API_KEY") = false ->
   str_falsy (environ !! "AIRTABLE_BASE_ID") = true ->
   from_environment environ w
   = (Raise (value_error "AIRTABLE_BASE_ID environment variable is required"), w))
  /\
  (forall key base,
     environ !! "AIRTABLE_API_KEY" = Some key -> key <> EmptyString ->
     environ !! "AIRTABLE_BASE_ID" = Some base -> base <> EmptyString ->
     exists self w',
       from_environment environ w = (Ret self, w') /\
       from_environment environ w = init key base None None w /\
       self = Coordinator key base
                [("DataHub_Craffft",
                  Handle base "DataHub_Craffft" key (Some (next_ref w)))]
                (next_ref w) ["DataHub_Craffft"] /\
       coordinator_inv self /\
       stores w' (next_ref w) = SQLiteStorage_new /\
       (forall st, st <> next_ref w -> stores w' st = stores w st) /\
       stdout w' = stdout w).
Proof.
  unfold from_environment. cbv zeta.
  split; [intros ->; reflexivity|].
  split; [intros -> ->; reflexivity|].
  intros key base Hk Hkne Hb Hbne. rewrite Hk, Hb.
  destruct key as [|c key]; [contradiction|].
  destruct base as [|c' base]; [contradiction|].
  cbn [str_falsy is_empty default].
  eexists _, _. split; [reflexivity|]. split; [reflexivity|].
  split; [reflexivity|].
  split.
  { apply (init_inv (String c key) (String c' base) ["DataHub_Craffft"] (next_ref w)).
    apply NoDup_singleton. }
  cbn. rewrite decide_True by reflexivity. split; [reflexivity|].
  split; [|reflexivity].
  intros st Hst. rewrite decide_False by exact Hst. reflexivity.
Qed.

(** X3: [from_config_dict]: a missing or empty ['api_key'] raises
    [ValueError], then a missing or empty ['base_id'] does; the world
    is as it was. Otherwise the call is the construction, without a
    storage argument, from the key, the base and the optional list of
    names of the configuration. *)
Theorem X_from_config_dict_outcomes (cfg : config) (w : world db) :
  (str_falsy (cfg_api_key cfg) = true ->
   from_config_dict cfg w = (Raise (value_error "api_key is required in config"), w))
  /\
  (str_falsy (cfg_api_key cfg) = false ->
   str_falsy (cfg_base_id cfg) = true ->
   from_config_dict cfg w = (Raise (value_error "base_id is required in config"), w))
  /\
  (forall key base,
     cfg_api_key cfg = Some key -> key <> EmptyString ->
     cfg_base_id cfg = Some base -> base <> EmptyString ->
     from_config_dict cfg w = init key base (cfg_table_names cfg) None w /\
     exists self w',
       from_config_dict cfg w = (Ret self, w') /\
       mm_api_key self = key /\
       mm_base_id self = base /\
       mm_sqlite_storage self = next_ref w /\
       table_names self = default ["DataHub_Craffft"] (cfg_table_names cfg) /\
       (NoDup (default ["DataHub_Craffft"] (cfg_table_names cfg)) ->
        coordinator_inv self)).
Proof.
  unfold from_config_dict. cbv zeta.
  split; [intros ->; reflexivity|].
  split; [intros -> ->; reflexivity|].
  intros key base Hk Hkne Hb Hbne. rewrite Hk, Hb.
  destruct key as [|c key]; [contradiction|].
  destruct base as [|c' base]; [contradiction|].
  cbn [str_falsy is_empty default].
  split; [destruct (cfg_table_names cfg); reflexivity|].
  exists (_initialize_managers
            (Coordinator (String c key) (String c' base) [] (next_ref w)
               (default ["DataHub_Craffft"] (cfg_table_names cfg)))),
         (snd (chosen_storage None w)).
  split; [destruct (cfg_table_names cfg); reflexivity|].
  pose proof (initialize_managers_from (default ["DataHub_Craffft"] (cfg_table_names cfg))
                (Coordinator (String c key) (String c' base) [] (next_ref w)
                   (default ["DataHub_Craffft"] (cfg_table_names cfg)))) as H.
  cbv zeta in H. destruct H as (H1 & H2 & H3 & H4 & _).
  unfold _initialize_managers. cbn [table_names].
  split; [exact H1|]. split; [exact H2|]. split; [exact H3|]. split; [exact H4|].
  intros Hnd.
  apply (init_inv (String c key) (String c' base) _ (next_ref w) Hnd).
Qed.

(** *** What is read back after a sync *)

Lemma row_cells_lookup (header : list string) (r : record) (i : nat) (k : string) :
  header !! i = Some k ->
  row_cells header r !! i
  = Some (cell_text (default (VStr EmptyString)
                       (comma_check_value <$> fields r !! k))).
Proof.
  intros Hi. unfold row_cells.
  change (map ?f ?l) with (f <$> l). rewrite list_lookup_fmap, Hi.
  cbn [fmap option_fmap option_map]. rewrite lookup_record_comma_check. reflexivity.
Qed.

(** X13: The text built for any records reads back as a header and one
    row per record; the cell of a record under a column is empty for a
    missing field and for a null value, the decimal digits of an
    integer, [True] or [False] for a boolean, and for a string the
    string itself unless it holds a comma, in which case its quotes
    come back doubled: a string is read back as it was fetched exactly
    when it has no comma or no double quote. *)
Theorem X_cells_read_back (records : list record) :
  exists header rows,
    bind (build_csv records) csv_reader = Ret (header :: rows) /\
    length rows = length records /\
    forall j r i k,
      records !! j = Some r ->
      header !! i = Some k ->
      exists cells cell,
        rows !! j = Some cells /\
        cells !! i = Some cell /\
        match fields r !! k with
        | None | Some VNone => cell = EmptyString
        | Some (VInt n) => cell = str_of_int n
        | Some (VBool b) => cell = if b then "True" else "False"
        | Some (VStr s) =>
            cell = (if str_in "," s then double_quotes s else s) /\
            (cell = s <-> str_in "," s = false \/ str_count dq s = 0)
        end.
Proof.
  exists (collect_fieldnames records),
         (map (row_cells (collect_fieldnames records)) records).
  split; [apply build_csv_roundtrip|]. split; [apply length_map|].
  intros j r i k Hj Hi.
  exists (row_cells (collect_fieldnames records) r),
         (cell_text (default (VStr EmptyString)
                       (comma_check_value <$> fields r !! k))).
  split.
  { change (map ?f ?l) with (f <$> l). rewrite list_lookup_fmap, Hj. reflexivity. }
  split; [apply row_cells_lookup; exact Hi|].
  destruct (fields r !! k) as [[s|n|[|]|]|]; cbn [fmap option_fmap option_map default
    comma_check_value cell_text]; try reflexivity.
  destruct (str_in "," s) eqn:Hc; cbn [cell_text].
  - rewrite str_replace_quote. split; [reflexivity|]. split.
    + intros Heq. right.
      destruct (str_count dq s) as [|q] eqn:Hq; [reflexivity|].
      exfalso. apply (double_quotes_changes s); [lia | exact Heq].
    + intros [H|H]; [discriminate | apply double_quotes_none; exact H].
  - split; [reflexivity|]. split; [left; reflexivity | reflexivity].
Qed.

(** *** Escaping twice *)

Lemma str_in_comma_cons (a : ascii) (s : string) :
  str_in "," (String a s) = Ascii.eqb a comma || str_in "," s.
Proof.
  cbn [str_in]. change ","%string with (String comma EmptyString).
  rewrite prefix_one_char. reflexivity.
Qed.

Lemma str_in_comma_double_quotes (s : string) :
  str_in "," (double_quotes s) = str_in "," s.
Proof.
  induction s as [|a s IH]; [reflexivity|].
  cbn [double_quotes]. destruct (Ascii.eqb a dq) eqn:Ha.
  - apply Ascii.eqb_eq in Ha. subst a.
    rewrite !str_in_comma_cons, IH. reflexivity.
  - rewrite !str_in_comma_cons, IH. reflexivity.
Qed.

Lemma comma_check_value_fixed (v : value) :
  comma_check_value v = v
  <-> forall s, v = VStr s -> str_in "," s = true -> str_count dq s = 0.
Proof.
  destruct v as [s|n|b|]; cbn [comma_check_value];
    try (split; [intros _ s; discriminate | reflexivity]).
  destruct (str_in "," s) eqn:Hc.
  - rewrite str_replace_quote. split.
    + intros Heq s' [= <-] _.
      destruct (str_count dq s) eqn:Hq; [reflexivity|].
      exfalso. apply (double_quotes_changes s); [lia | congruence].
    + intros H. rewrite double_quotes_none; [reflexivity | apply (H s eq_refl Hc)].
  - split; [intros _ s' [= <-]; congruence | reflexivity].
Qed.

Lemma comma_check_value_twice (v : value) :
  comma_check_value (comma_check_value v) = comma_check_value v
  <-> comma_check_value v = v.
Proof.
  split; [|intros H; rewrite !H; reflexivity].
  destruct v as [s|n|b|]; cbn [comma_check_value]; try reflexivity.
  destruct (str_in "," s) eqn:Hc; [|reflexivity].
  rewrite str_replace_quote. cbn [comma_check_value].
  rewrite str_in_comma_double_quotes, Hc, str_replace_quote.
  intros [= Heq].
  destruct (str_count dq s) eqn:Hq.
  - rewrite double_quotes_none by exact Hq. reflexivity.
  - exfalso. apply (double_quotes_changes (double_quotes s)); [|exact Heq].
    rewrite double_quotes_count_dq. lia.
Qed.

Lemma record_eq_fields (r : record) (f : value -> value) :
  Record_ (rec_id r) (f <$> fields r) (createdTime r) = r
  <-> forall k v, fields r !! k = Some v -> f v = v.
Proof.
  split.
  - intros Heq k v Hk. apply (f_equal fields) in Heq. cbn [fields] in Heq.
    apply (f_equal (fun m => m !! k)) in Heq. rewrite lookup_fmap, Hk in Heq.
    injection Heq as Heq. exact Heq.
  - intros H. destruct r as [i m t]. cbn [rec_id fields createdTime] in *.
    f_equal. apply map_eq. intros k. rewrite lookup_fmap.
    destruct (m !! k) as [v|] eqn:Hk; [|reflexivity].
    cbn. rewrite (H k v Hk). reflexivity.
Qed.

(** X14: [record_comma_check] returns the record as it was exactly
    when no string field holds both a comma and a double quote;
    otherwise a second pass changes the record again, so the check is
    idempotent only on the records it leaves alone: a field with a
    comma has its quotes doubled by each pass. *)
Theorem X_record_comma_check_twice (r : record) :
  (record_comma_check r = r
   <-> forall k s, fields r !! k = Some (VStr s) ->
                   str_in "," s = true -> str_count dq s = 0) /\
  (record_comma_check (record_comma_check r) = record_comma_check r
   <-> record_comma_check r = r) /\
  (forall k s, fields r !! k = Some (VStr s) -> str_in "," s = true ->
     fields (record_comma_check (record_comma_check r)) !! k
     = Some (VStr (double_quotes (double_quotes s))) /\
     str_count dq (double_quotes (double_quotes s)) = 4 * str_count dq s).
Proof.
  split; [|split].
  - unfold record_comma_check. rewrite record_eq_fields. split.
    + intros H k s Hk. apply (comma_check_value_fixed (VStr s)); [|reflexivity].
      apply (H k). exact Hk.
    + intros H k v Hk. apply comma_check_value_fixed.
      intros s -> Hc. apply (H k s Hk Hc).
  - split; [|intros H; rewrite !H; reflexivity].
    intros H2. unfold record_comma_check in *.
    cbn [rec_id fields createdTime] in H2.
    apply record_eq_fields. intros k v Hk.
    apply comma_check_value_twice.
    apply (f_equal fields) in H2. cbn [fields] in H2.
    apply (f_equal (fun m => m !! k)) in H2.
    rewrite !lookup_fmap, Hk in H2. cbn in H2. injection H2 as H2. exact H2.
  - intros k s Hk Hc. rewrite !lookup_record_comma_check, Hk.
    cbn [fmap option_fmap option_map comma_check_value]. rewrite Hc, str_replace_quote.
    cbn [comma_check_value]. rewrite str_in_comma_double_quotes, Hc, str_replace_quote.
    split; [reflexivity|]. rewrite !double_quotes_count_dq. lia.
Qed.

(** *** The calls the handles do not answer *)

(** X9: [get_csv_data] and [convert_csv_to_json] never return data:
    for a name without a handle they return [None], and for every name
    with a handle they raise [AttributeError], since the handle has
    neither [read_csv] nor [convert_csv_to_json]; the world is left as
    it was. *)
Theorem X_csv_data_calls_never_answer (self : AirtableMultiManager)
    (name : string) (w : world db) :
  (In name (get_available_tables self) ->
   get_csv_data self name w = (Raise (no_attribute "read_csv"), w) /\
   convert_csv_to_json self name w
   = (Raise (no_attribute "convert_csv_to_json"), w)) /\
  (~ In name (get_available_tables self) ->
   get_csv_data self name w = (Ret None, w) /\
   convert_csv_to_json self name w = (Ret None, w)) /\
  (forall data,
     fst (get_csv_data self name w) <> Ret (Some data) /\
     fst (convert_csv_to_json self name w) <> Ret (Some data)) /\
  snd (get_csv_data self name w) = w /\
  snd (convert_csv_to_json self name w) = w.
Proof.
  unfold get_csv_data, convert_csv_to_json, get_available_tables, get_manager.
  destruct (Dict.get name (managers self)) as [h|] eqn:Hget.
  - split; [intros _; split; reflexivity|].
    split.
    + intros Hnot. apply dict_get_none_keys in Hnot. congruence.
    + split; [intros data; split; discriminate | split; reflexivity].
  - split.
    + intros Hin. apply dict_get_none_keys in Hget. contradiction.
    + split; [intros _; split; reflexivity|].
      split; [intros data; split; discriminate | split; reflexivity].
Qed.

(** *** Discovery of a base without tables *)

(** X12: When the metadata request is answered with status 200 and no
    table is listed (an empty ['tables'] list, or none at all),
    discovery registers nothing and returns the empty dictionary, and
    the one line it prints is that of a failed discovery. *)
Theorem X_discover_empty_base (self : AirtableMultiManager) (w : world db)
    (resp : response) :
  requests_get (meta_url (mm_base_id self)) (meta_headers self) = Ret resp ->
  status_code resp = 200%Z ->
  json resp = Ret None \/ json resp = Ret (Some []) ->
  get_tables_from_base self None w = (Ret (Some []), w) /\
  discover_and_add_tables_from_base (self, w)
  = (Ret [],
     (self, printed w ["No tables found or failed to retrieve tables from base "
                       +:+ mm_base_id self])).
Proof.
  intros Hreq Hs Hj.
  assert (Hg : get_tables_from_base self None w = (Ret (Some []), w)).
  { unfold get_tables_from_base. cbv zeta. unfold try_except, bindM, lift.
    rewrite Hreq. rewrite Hs.
    destruct Hj as [Hj|Hj]; rewrite Hj; reflexivity. }
  split; [exact Hg|].
  unfold discover_and_add_tables_from_base.
  unfold bindM at 1, on_fst, get. cbn [fst snd].
  unfold bindM at 1, on_snd. cbn [fst snd]. rewrite Hg. reflexivity.
Qed.

End Sync.

(** ** The sample storage and the sample data *)

Import Csv.

(** The sample storage imports every text built from records. *)
Lemma simple_import_accepts (name : string) (records : list record)
    (csv_data : string) (d : SimpleStorage.db) :
  build_csv records = Ret csv_data ->
  fst (SimpleStorage.import_csv_rows name csv_data d) = Ret tt.
Proof.
  intros H. pose proof (build_csv_roundtrip records) as Hr.
  rewrite H in Hr. cbn [bind] in Hr.
  unfold SimpleStorage.import_csv_rows, SimpleStorage.rows_of_csv.
  rewrite Hr. reflexivity.
Qed.

Lemma sample_coordinator_wf : Dict.wf (managers Sample.coordinator).
Proof. unfold Dict.wf. apply (bool_decide_unpack _). vm_compute. exact I. Defined.

(** C1 (the code departs from the claim): the record whose field
    [Quote] holds [He said "hi", bye] is written so that reading the
    text back gives the value with every quote doubled, not the
    original.  The writer alone round-trips the value; after a sync
    into the sample storage the row is found under the doubled value
    and not under the original one. *)
Theorem C1_escaping_roundtrip_is_broken :
  bind (build_csv [Sample.quote_record]) csv_reader
    = Ret [["Quote"]; [Sample.hi_bye_doubled]] /\
  Sample.hi_bye_doubled <> Sample.hi_bye /\
  csv_reader (concat_rows [["Quote"]; [Sample.hi_bye]])
    = Ret [["Quote"]; [Sample.hi_bye]] /\
  (let sync := update_csv_from_airtable SimpleStorage.import_csv_rows
                 Sample.airtable_quotes (Sample.handle "T1") in
   let lookup := get_value_by_row_and_column
                   SimpleStorage.find_value_by_row_and_column (Sample.handle "T1") in
   fst (sync Sample.w0) = Ret (Some (success_message "T1")) /\
   fst (lookup "Quote" Sample.hi_bye "Quote" (snd (sync Sample.w0))) = Ret None /\
   fst (lookup "Quote" Sample.hi_bye_doubled "Quote" (snd (sync Sample.w0)))
     = Ret (Some (VStr Sample.hi_bye_doubled))).
Proof.
  split; [vm_compute; reflexivity|].
  split; [intros H; apply (f_equal String.length) in H; vm_compute in H; discriminate|].
  split; [apply csv_roundtrip|].
  cbv zeta. repeat split; vm_compute; reflexivity.
Qed.

(** C2, counterexample: the value of [Note] holds a double quote and no
    comma; [record_comma_check] returns it as it is, the quote not
    doubled. *)
Lemma C2_quote_without_comma_not_doubled :
  fields Sample.plain_record !! "Note" = Some (VStr Sample.a_quote_b) /\
  str_count dq Sample.a_quote_b = 1 /\
  fields (record_comma_check Sample.plain_record) !! "Note"
    = Some (VStr Sample.a_quote_b) /\
  double_quotes Sample.a_quote_b <> Sample.a_quote_b.
Proof.
  repeat split; try (vm_compute; reflexivity).
  intros H. apply (f_equal String.length) in H. vm_compute in H. discriminate.
Qed.

(** C2, witness: the value [He said "hi", bye] of [Quote] has a comma
    and comes out with its quotes doubled. *)
Lemma C2_witness :
  fields Sample.quote_record !! "Quote" = Some (VStr Sample.hi_bye) /\
  fields (record_comma_check Sample.quote_record) !! "Quote"
    = Some (VStr Sample.hi_bye_doubled).
Proof.
  assert (H : fields Sample.quote_record !! "Quote" = Some (VStr Sample.hi_bye))
    by (vm_compute; reflexivity).
  split; [exact H|].
  destruct (C2_record_comma_check_escaping Sample.quote_record "Quote" _ H)
    as (v' & Hv' & _ & _ & _ & Hcomma).
  destruct (Hcomma Sample.hi_bye eq_refl eq_refl) as (-> & _).
  exact Hv'.
Defined.

(** C3, witness: two records with different fields. *)
Lemma C3_witness :
  [Sample.quote_record; Sample.mixed_record] <> [] /\
  exists csv_data header rows,
    build_csv [Sample.quote_record; Sample.mixed_record] = Ret csv_data /\
    csv_reader csv_data = Ret (header :: rows) /\
    NoDup header /\
    (forall k, k ∈ header <->
               exists r, r ∈ [Sample.quote_record; Sample.mixed_record] /\
                         k ∈ dom (fields r)) /\
    Forall (fun cells => length cells = length header) rows.
Proof.
  assert (H : [Sample.quote_record; Sample.mixed_record] <> []) by discriminate.
  split; [exact H|].
  destruct (C3_columns_are_union_of_fields SimpleStorage.import_csv_rows
              Sample.airtable_get_all _ H)
    as (csv_data & header & rows & H1 & _ & H2 & H3 & H4 & _ & H6 & _).
  exists csv_data, header, rows. auto.
Defined.

(** C4, witness: the sample base has no record in the table [T9]. *)
Lemma C4_witness :
  Sample.airtable_get_all "appBase" "T9" "key" = Ret [] /\
  update_csv_from_airtable SimpleStorage.import_csv_rows Sample.airtable_get_all
    (Sample.handle "T9") Sample.w0
  = (Ret None, Sample.w0).
Proof.
  split; [reflexivity|].
  apply (C4_empty_fetch_is_noop SimpleStorage.import_csv_rows Sample.airtable_get_all
           (Sample.handle "T9") Sample.w0 eq_refl).
Defined.

(** C5, counterexample: for the unknown table [Nope], calling
    [lookup_row] on the coordinator raises [AttributeError]. *)
Lemma C5_lookup_row_is_no_method :
  get_manager Sample.coordinator "Nope" = None /\
  exists m,
    call_table_method SimpleStorage.import_csv_rows
      SimpleStorage.find_value_by_row_and_column SimpleStorage.execute_sql_query
      Sample.airtable_get_all Sample.coordinator "lookup_row" "Nope" ["Name"; "Ada"]
    = Some m /\
    m Sample.w0 = (Raise (mm_no_attribute "lookup_row"), Sample.w0).
Proof. split; [reflexivity|]. eexists. split; reflexivity. Qed.

(** C5, witness: the sample coordinator has no table [Nope]. *)
Lemma C5_witness :
  get_manager Sample.coordinator "Nope" = None /\
  get_value SimpleStorage.find_value_by_row_and_column Sample.coordinator
    "Nope" "Name" "Ada" "Age" Sample.w0 = (Ret None, Sample.w0) /\
  mm_execute_sql_query SimpleStorage.execute_sql_query Sample.coordinator
    "Nope" "SELECT 1" Sample.w0 = (Ret None, Sample.w0) /\
  mm_update_csv_from_airtable SimpleStorage.import_csv_rows Sample.airtable_get_all
    Sample.coordinator "Nope" Sample.w0 = (Ret None, Sample.w0).
Proof.
  split; [reflexivity|].
  destruct (C5_unknown_table_returns_none SimpleStorage.import_csv_rows
              SimpleStorage.find_value_by_row_and_column
              SimpleStorage.execute_sql_query Sample.airtable_get_all
              Sample.coordinator "Nope" Sample.w0 eq_refl)
    as (H1 & H2 & H3 & _).
  split; [apply H1|]. split; [apply H2 | exact H3].
Defined.

(** C6, witness: the three sample tables, of which [T2] cannot be
    fetched. *)
Lemma C6_witness :
  Dict.wf (managers Sample.coordinator) /\
  fst (update_all_tables SimpleStorage.import_csv_rows Sample.airtable_get_all
         Sample.coordinator Sample.w0)
  = Ret [("T1", success_message "T1");
         ("T2", "Error: connection refused");
         ("T3", success_message "T3")].
Proof.
  split; [exact sample_coordinator_wf|].
  destruct (C6_update_all_tables_outcomes SimpleStorage.import_csv_rows
              Sample.airtable_get_all Sample.coordinator Sample.w0
              sample_coordinator_wf) as [_ H].
  apply (H "T1" "T2" "T3" _ _ _ Sample.quote_record [Sample.mixed_record]
           Sample.plain_record [] Sample.connection_error eq_refl
           simple_import_accepts eq_refl eq_refl eq_refl).
Defined.

(** C7, witness: [T2] added twice to, and removed twice from, the
    sample coordinator. *)
Lemma C7_witness :
  Dict.wf (managers Sample.coordinator) /\
  count_occ string_dec
    (get_available_tables (snd (add_table "T2" (snd (add_table "T2" Sample.coordinator)))))
    "T2" = 1 /\
  fst (remove_table "T2" (snd (remove_table "T2" Sample.coordinator))) = Ret false.
Proof.
  split; [exact sample_coordinator_wf|].
  destruct (C7_add_remove_idempotent Sample.coordinator "T2" sample_coordinator_wf)
    as (Hadd & Hrm & _).
  cbv zeta in Hadd, Hrm.
  destruct Hadd as (_ & _ & _ & _ & Hcount & _).
  destruct Hrm as (_ & _ & Hsecond & _).
  split; assumption.
Defined.

(** C8 (the code departs from the claim): built from the list
    [X, X], the coordinator keeps both names and one handle; after
    [remove_table X] the name [X] is still listed and has no handle. *)
Theorem C8_duplicate_names_break_correspondence :
  exists self,
    fst (init SimpleStorage.empty_db "key" "appBase" (Some ["X"; "X"])
           (Some 1%positive) Sample.w0) = Ret self /\
    table_names self = ["X"; "X"] /\
    get_available_tables self = ["X"] /\
    ~ NoDup (table_names self) /\
    ~ coordinator_inv self /\
    exists self',
      remove_table "X" self = (Ret true, self') /\
      table_names self' = ["X"] /\
      managers self' = [] /\
      get_manager self' "X" = None.
Proof.
  eexists. split; [vm_compute; reflexivity|].
  split; [reflexivity|]. split; [reflexivity|].
  assert (Hdup : ~ NoDup ["X"; "X"]).
  { intros H. apply NoDup_cons in H as [H _]. apply H. left. }
  split; [exact Hdup|]. split; [intros [H _]; exact (Hdup H)|].
  eexists. split; [vm_compute; reflexivity|]. repeat split.
Qed.

(** C9, witness: the metadata endpoint cannot be reached; discovery
    returns [None] after printing one line, and discover-and-add
    returns the empty dictionary. *)
Lemma C9_witness :
  Sample.requests_get_down (meta_url "appBase") (meta_headers Sample.coordinator)
    = Raise Sample.connection_error /\
  get_tables_from_base Sample.requests_get_down Sample.coordinator None Sample.w0
    = (Ret None,
       printed Sample.w0
         ["Error getting tables from base appBase: connection refused"]) /\
  fst (discover_and_add_tables_from_base Sample.requests_get_down
         (Sample.coordinator, Sample.w0)) = Ret [].
Proof.
  split; [reflexivity|].
  destruct (C9_discovery_failure_is_swallowed Sample.requests_get_down
              Sample.coordinator None Sample.w0) as (H1 & _ & _ & H4).
  split; [apply (H1 Sample.connection_error eq_refl)|].
  rewrite (H4 _ (H1 Sample.connection_error eq_refl)). reflexivity.
Defined.

(** C10, witness: a handle without storage on the sample table [T1]. *)
Lemma C10_witness :
  sqlite_storage Sample.bare_handle = None /\
  Sample.airtable_get_all "appBase" "T1" "key"
    = Ret [Sample.quote_record; Sample.mixed_record] /\
  update_csv_from_airtable SimpleStorage.import_csv_rows Sample.airtable_get_all
    Sample.bare_handle Sample.w0
  = (Ret (Some (success_message "T1")), Sample.w0).
Proof.
  split; [reflexivity|]. split; [reflexivity|].
  apply (C10_success_without_storage SimpleStorage.import_csv_rows
           Sample.airtable_get_all Sample.bare_handle Sample.w0
           Sample.quote_record [Sample.mixed_record] eq_refl eq_refl).
Defined.

(** ** Examples *)

Example str_replace_examples :
  str_replace "ab" "x" "cababa" = "cxxa" /\
  str_replace EmptyString "-" "abc" = "-a-b-c-" /\
  str_in "," "a,b" = true /\ str_in "," "ab" = false.
Proof. repeat split; reflexivity. Qed.

Example str_of_int_examples :
  str_of_int 0 = "0" /\ str_of_int (-42) = "-42" /\ str_of_int 2024 = "2024".
Proof. repeat split; reflexivity. Qed.

(** The text written for the record of the specification: the header
    line, then the value between quotes with each of its doubled quotes
    doubled again. *)
Example built_text :
  build_csv [Sample.quote_record]
  = Ret ("Quote" +:+ crlf
         +:+ String dq ("He said "
               +:+ String dq (String dq (String dq (String dq ("hi"
               +:+ String dq (String dq (String dq (String dq ", bye"))))))))
         +:+ String dq crlf).
Proof. vm_compute. reflexivity. Qed.

Example writer_examples :
  writer_writerow ["a"; "b,c"; EmptyString]
  = "a," +:+ String dq ("b,c" +:+ String dq ("," +:+ crlf)) /\
  writer_writerow [EmptyString] = String dq (String dq crlf) /\
  writer_writerow [] = crlf.
Proof. repeat split; vm_compute; reflexivity. Qed.

Example reader_examples :
  csv_reader ("a,b" +:+ crlf +:+ "1,2" +:+ crlf) = Ret [["a"; "b"]; ["1"; "2"]] /\
  csv_reader ("a,b" +:+ String lf "1,2") = Ret [["a"; "b"]; ["1"; "2"]] /\
  csv_reader ("a" +:+ String cr "b") = Raise (csv_error "new-line character seen in unquoted field - do you need to open the file in universal-newline mode?").
Proof. repeat split; vm_compute; reflexivity. Qed.

(** Construction without a list of names registers the default table
    on a storage made for the coordinator. *)
Example init_default :
  fst (init SimpleStorage.empty_db "key" "appBase" None None Sample.w0)
  = Ret (Coordinator "key" "appBase"
           [("DataHub_Craffft",
             Handle "appBase" "DataHub_Craffft" "key" (Some 2%positive))]
           2%positive ["DataHub_Craffft"]).
Proof. reflexivity. Qed.

(** Discovery against an endpoint that answers 404 prints three lines
    and registers nothing. *)
Example discover_404 :
  discover_and_add_tables_from_base Sample.requests_get_404
    (Sample.coordinator, Sample.w0)
  = (Ret [],
     (Sample.coordinator,
      printed Sample.w0
        ["Failed to get tables from base appBase: 404";
         "Response: NOT_FOUND";
         "No tables found or failed to retrieve tables from base appBase"])).
Proof. reflexivity. Qed.

(** The [TypeError] of a call with too few or too many arguments, as
    CPython words it. *)
Example arity_error_examples :
  arity_error "AirtableMultiManager.get_value"
    ["self"; "table_name"; "column_containing_reference"; "reference_value";
     "target_column"] 2
  = type_error "AirtableMultiManager.get_value() missing 3 required positional arguments: 'column_containing_reference', 'reference_value', and 'target_column'" /\
  arity_error "AirtableMultiManager.get_value"
    ["self"; "table_name"; "column_containing_reference"; "reference_value";
     "target_column"] 3
  = type_error "AirtableMultiManager.get_value() missing 2 required positional arguments: 'reference_value' and 'target_column'" /\
  arity_error "AirtableMultiManager.execute_sql_query"
    ["self"; "table_name"; "sql_query"] 2
  = type_error "AirtableMultiManager.execute_sql_query() missing 1 required positional argument: 'sql_query'" /\
  arity_error "AirtableMultiManager.get_value"
    ["self"; "table_name"; "column_containing_reference"; "reference_value";
     "target_column"] 6
  = type_error "AirtableMultiManager.get_value() takes 5 positional arguments but 6 were given".
Proof. repeat split; vm_compute; reflexivity. Qed.

(** Called by name for the unknown table [Nope] with one argument
    instead of three, [get_value] raises [TypeError]. *)
Example call_get_value_one_argument :
  exists m,
    call_table_method SimpleStorage.import_csv_rows
      SimpleStorage.find_value_by_row_and_column SimpleStorage.execute_sql_query
      Sample.airtable_get_all Sample.coordinator "get_value" "Nope" ["Name"]
    = Some m /\
    m Sample.w0
    = (Raise (type_error "AirtableMultiManager.get_value() missing 2 required positional arguments: 'reference_value' and 'target_column'"),
       Sample.w0).
Proof. eexists. split; [reflexivity | vm_compute; reflexivity]. Qed.

(** ** Instances of the further properties on the sample data *)

Lemma sample_coordinator_inv : coordinator_inv Sample.coordinator.
Proof.
  split; [apply (bool_decide_unpack _); vm_compute; exact I|].
  split; [reflexivity|].
  intros k h [[= <- <-]|[[= <- <-]|[[= <- <-]|[]]]]; reflexivity.
Defined.

(** X4, witness: the table [T4] is not known to the sample coordinator:
    added and removed, it leaves the coordinator as it was. *)
Lemma X_add_then_remove_restores_witness :
  get_manager Sample.coordinator "T4" = None /\
  ~ In "T4" (table_names Sample.coordinator) /\
  remove_table "T4" (snd (add_table "T4" Sample.coordinator))
  = (Ret true, Sample.coordinator).
Proof.
  assert (H1 : get_manager Sample.coordinator "T4" = None) by reflexivity.
  assert (H2 : ~ In "T4" (table_names Sample.coordinator)).
  { intros [H|[H|[H|[]]]]; discriminate H. }
  split; [exact H1|]. split; [exact H2|].
  apply (X_add_then_remove_restores Sample.coordinator "T4" H1 H2).
Defined.

(** X5, witness: removing [T2] from the sample coordinator leaves [T1] and
    [T3], in that order. *)
Lemma X_remove_table_keeps_others_witness :
  Dict.wf (managers Sample.coordinator) /\
  exists self',
    remove_table "T2" Sample.coordinator = (Ret true, self') /\
    get_manager self' "T2" = None /\
    get_available_tables self' = ["T1"; "T3"] /\
    get_manager self' "T3" = Some (Sample.handle "T3").
Proof.
  split; [exact sample_coordinator_wf|].
  destruct (X_remove_table_keeps_others Sample.coordinator "T2" sample_coordinator_wf)
    as (b & self' & Hrm & Hb & Hnone & Hav & Hothers & _).
  exists self'.
  assert (Htrue : b = true) by (apply Hb; right; left; reflexivity).
  subst b.
  split; [exact Hrm|]. split; [exact Hnone|]. split; [exact Hav|].
  rewrite (Hothers "T3") by discriminate. reflexivity.
Defined.

(** X6, witness: a coordinator built for [T1] and [T2], then changed by two
    registrations of [T5], a discovery that finds [T3] and [T4], and the
    removal of [T1]. *)
Lemma X_registrations_keep_correspondence_witness :
  NoDup (default ["DataHub_Craffft"] (Some ["T1"; "T2"])) /\
  exists self0 w0 self lines,
    init SimpleStorage.empty_db "key" "appBase" (Some ["T1"; "T2"]) None Sample.w0
    = (Ret self0, w0) /\
    run_ops Sample.requests_get_tables
      [OpAdd "T5"; OpDiscover; OpRemove "T1"; OpAdd "T5"] (self0, w0)
    = (Ret tt, (self, printed w0 lines)) /\
    coordinator_inv self /\
    mm_api_key self = "key" /\
    mm_base_id self = "appBase" /\
    mm_sqlite_storage self = mm_sqlite_storage self0.
Proof.
  assert (H : NoDup (default ["DataHub_Craffft"] (Some ["T1"; "T2"]))).
  { apply (bool_decide_unpack _). vm_compute. exact I. }
  split; [exact H|].
  exact (X_registrations_keep_correspondence SimpleStorage.empty_db
           Sample.requests_get_tables "key" "appBase" (Some ["T1"; "T2"]) None
           [OpAdd "T5"; OpDiscover; OpRemove "T1"; OpAdd "T5"] Sample.w0 H).
Defined.

(** X7, witness: the table [T2] of the sample coordinator: its lookups go to
    the storage object 1 under the name [T2], and its sync raises what the
    fetch of [T2] raises. *)
Lemma X_registered_table_is_routed_witness :
  coordinator_inv Sample.coordinator /\
  In "T2" (table_names Sample.coordinator) /\
  get_manager Sample.coordinator "T2" = Some (Sample.handle "T2") /\
  get_value SimpleStorage.find_value_by_row_and_column Sample.coordinator
    "T2" "Name" "Ada" "Age" Sample.w0
  = on_store 1%positive
      (SimpleStorage.find_value_by_row_and_column "T2" "Name" "Ada" "Age") Sample.w0 /\
  mm_update_csv_from_airtable SimpleStorage.import_csv_rows Sample.airtable_get_all
    Sample.coordinator "T2" Sample.w0
  = (Raise Sample.connection_error, Sample.w0).
Proof.
  assert (Hin : In "T2" (table_names Sample.coordinator)) by (right; left; reflexivity).
  split; [exact sample_coordinator_inv|]. split; [exact Hin|].
  destruct (X_registered_table_is_routed SimpleStorage.import_csv_rows
              SimpleStorage.find_value_by_row_and_column
              SimpleStorage.execute_sql_query Sample.airtable_get_all
              Sample.coordinator "T2" Sample.w0 sample_coordinator_inv Hin)
    as (Hget & Hvalue & _ & _ & Hraise & _).
  split; [exact Hget|]. split; [apply Hvalue|].
  apply (Hraise Sample.connection_error eq_refl).
Defined.

(** X10, witness: the metadata endpoint that lists [T3] and [T4]. *)
Lemma X_get_tables_from_base_answer_witness :
  Sample.requests_get_tables (meta_url "appBase") (meta_headers Sample.coordinator)
  = Ret (Response 200 "OK"
           (Ret (Some [ {[ "name" := "T3" ]};
                        <[ "id" := "tbl4" ]> {[ "name" := "T4" ]} ]))) /\
  get_tables_from_base Sample.requests_get_tables Sample.coordinator None Sample.w0
  = (Ret (Some ["T3"; "T4"]), Sample.w0).
Proof.
  split; [reflexivity|].
  destruct (X_get_tables_from_base_answer Sample.requests_get_tables
              Sample.coordinator None Sample.w0 _ eq_refl eq_refl)
    as (_ & _ & H).
  destruct (H _ eq_refl) as [Hnames _].
  apply (Hnames ["T3"; "T4"]). vm_compute. reflexivity.
Defined.

(** X11, witness: discovery of [T3] and [T4] by the sample coordinator,
    which knows [T3] already: only [T4] is appended. *)
Lemma X_discover_and_add_registers_all_witness :
  coordinator_inv Sample.coordinator /\
  get_tables_from_base Sample.requests_get_tables Sample.coordinator None Sample.w0
  = (Ret (Some ["T3"; "T4"]), Sample.w0) /\
  exists results self' added,
    discover_and_add_tables_from_base Sample.requests_get_tables
      (Sample.coordinator, Sample.w0)
    = (Ret results, (self', Sample.w0)) /\
    coordinator_inv self' /\
    table_names self' = ["T1"; "T2"; "T3"] ++ added /\
    (forall k, In k added <-> In k ["T3"; "T4"] /\ ~ In k ["T1"; "T2"; "T3"]) /\
    Dict.get "T3" results = Some true /\
    Dict.get "T4" results = Some true /\
    get_manager self' "T1" = Some (Sample.handle "T1").
Proof.
  assert (Hg : get_tables_from_base Sample.requests_get_tables Sample.coordinator
                 None Sample.w0
               = (Ret (Some ["T3"; "T4"]), Sample.w0)) by (vm_compute; reflexivity).
  split; [exact sample_coordinator_inv|]. split; [exact Hg|].
  destruct (X_discover_and_add_registers_all Sample.requests_get_tables
              Sample.coordinator Sample.w0 Sample.w0 "T3" ["T4"]
              sample_coordinator_inv Hg)
    as (results & self' & added & Hd & Hinv & Htn & Hadded & _ & Htrue & Hothers & _).
  exists results, self', added.
  split; [exact Hd|]. split; [exact Hinv|]. split; [exact Htn|].
  split; [exact Hadded|].
  split; [apply Htrue; left; reflexivity|].
  split; [apply Htrue; right; left; reflexivity|].
  rewrite (Hothers "T1"); [reflexivity|].
  intros [H|[H|[]]]; discriminate H.
Defined.

(** X12, witness: the metadata endpoint that lists no table. *)
Lemma X_discover_empty_base_witness :
  Sample.requests_get_empty (meta_url "appBase") (meta_headers Sample.coordinator)
  = Ret (Response 200 "OK" (Ret (Some []))) /\
  discover_and_add_tables_from_base Sample.requests_get_empty
    (Sample.coordinator, Sample.w0)
  = (Ret [],
     (Sample.coordinator,
      printed Sample.w0
        ["No tables found or failed to retrieve tables from base appBase"])).
Proof.
  split; [reflexivity|].
  destruct (X_discover_empty_base Sample.requests_get_empty Sample.coordinator
              Sample.w0 _ eq_refl eq_refl (or_intror eq_refl)) as [_ H].
  exact H.
Defined.

(** X2, witness: a process environment that sets the key and the base, and
    one that sets only the key. *)
Lemma X_from_environment_outcomes_witness :
  Sample.environ !! "AIRTABLE_API_KEY" = Some "key" /\
  Sample.environ !! "AIRTABLE_BASE_ID" = Some "appBase" /\
  fst (from_environment SimpleStorage.empty_db Sample.environ Sample.w0)
  = Ret (Coordinator "key" "appBase"
           [("DataHub_Craffft",
             Handle "appBase" "DataHub_Craffft" "key" (Some 2%positive))]
           2%positive ["DataHub_Craffft"]) /\
  Sample.environ_no_base !! "AIRTABLE_BASE_ID" = None /\
  from_environment SimpleStorage.empty_db Sample.environ_no_base Sample.w0
  = (Raise (value_error "AIRTABLE_BASE_ID environment variable is required"),
     Sample.w0).
Proof.
  assert (Hk : Sample.environ !! "AIRTABLE_API_KEY" = Some "key")
    by (vm_compute; reflexivity).
  assert (Hb : Sample.environ !! "AIRTABLE_BASE_ID" = Some "appBase")
    by (vm_compute; reflexivity).
  assert (Hn : Sample.environ_no_base !! "AIRTABLE_BASE_ID" = None)
    by (vm_compute; reflexivity).
  split; [exact Hk|]. split; [exact Hb|]. split; [|split; [exact Hn|]].
  - destruct (X_from_environment_outcomes SimpleStorage.empty_db Sample.environ
                Sample.w0) as (_ & _ & H).
    destruct (H "key" "appBase" Hk ltac:(discriminate) Hb ltac:(discriminate))
      as (self & w' & Heq & _ & Hself & _).
    rewrite Heq, Hself. reflexivity.
  - destruct (X_from_environment_outcomes SimpleStorage.empty_db
                Sample.environ_no_base Sample.w0) as (_ & H & _).
    apply H; [vm_compute; reflexivity | rewrite Hn; reflexivity].
Defined.

(** X3, witness: a configuration that names [T1] and [T2], and one whose key
    is empty. *)
Lemma X_from_config_dict_outcomes_witness :
  from_config_dict SimpleStorage.empty_db Sample.config_T1_T2 Sample.w0
  = init SimpleStorage.empty_db "key" "appBase" (Some ["T1"; "T2"]) None Sample.w0 /\
  from_config_dict SimpleStorage.empty_db Sample.config_empty_key Sample.w0
  = (Raise (value_error "api_key is required in config"), Sample.w0).
Proof.
  split.
  - destruct (X_from_config_dict_outcomes SimpleStorage.empty_db Sample.config_T1_T2
                Sample.w0) as (_ & _ & H).
    destruct (H "key" "appBase" eq_refl ltac:(discriminate) eq_refl ltac:(discriminate))
      as [Heq _].
    exact Heq.
  - destruct (X_from_config_dict_outcomes SimpleStorage.empty_db
                Sample.config_empty_key Sample.w0) as (H & _).
    apply H. reflexivity.
Defined.

(** X8, witness: a bulk sync of the sample coordinator, whose storage object
    is 1: nothing is printed and the storage object 2 is as it was. *)
Lemma X_update_all_tables_frame_witness :
  coordinator_inv Sample.coordinator /\
  stdout (snd (update_all_tables SimpleStorage.import_csv_rows Sample.airtable_get_all
                 Sample.coordinator Sample.w0)) = [] /\
  stores (snd (update_all_tables SimpleStorage.import_csv_rows Sample.airtable_get_all
                 Sample.coordinator Sample.w0)) 2%positive
  = SimpleStorage.empty_db.
Proof.
  split; [exact sample_coordinator_inv|].
  pose proof (X_update_all_tables_frame SimpleStorage.import_csv_rows
                Sample.airtable_get_all Sample.coordinator Sample.w0) as H.
  cbv zeta in H. destruct H as (_ & Hout & _ & Hinv & _).
  split; [exact Hout|].
  apply (Hinv sample_coordinator_inv 2%positive). discriminate.
Defined.

(** X9, witness: the sample table [T1] has a handle, the name [Nope] has
    none. *)
Lemma X_csv_data_calls_never_answer_witness :
  In "T1" (get_available_tables Sample.coordinator) /\
  get_csv_data Sample.coordinator "T1" Sample.w0
  = (Raise (no_attribute "read_csv"), Sample.w0) /\
  ~ In "Nope" (get_available_tables Sample.coordinator) /\
  convert_csv_to_json Sample.coordinator "Nope" Sample.w0 = (Ret None, Sample.w0).
Proof.
  assert (H1 : In "T1" (get_available_tables Sample.coordinator))
    by (left; reflexivity).
  assert (H2 : ~ In "Nope" (get_available_tables Sample.coordinator)).
  { intros [H|[H|[H|[]]]]; discriminate H. }
  split; [exact H1|]. split; [|split; [exact H2|]].
  - destruct (X_csv_data_calls_never_answer Sample.coordinator "T1" Sample.w0)
      as (H & _).
    apply (H H1).
  - destruct (X_csv_data_calls_never_answer Sample.coordinator "Nope" Sample.w0)
      as (_ & H & _).
    apply (H H2).
Defined.

(** X13, witness: the records of the sample table [T1]: under the column
    [Quote] the first record reads back with its quotes doubled, and the
    second, which has no such field, as the empty string. *)
Lemma X_cells_read_back_witness :
  exists header rows,
    bind (build_csv [Sample.quote_record; Sample.mixed_record]) csv_reader
    = Ret (header :: rows) /\
    length rows = 2 /\
    forall i,
      header !! i = Some "Quote"%string ->
      exists cells0 cells1,
        rows !! 0 = Some cells0 /\ cells0 !! i = Some Sample.hi_bye_doubled /\
        rows !! 1 = Some cells1 /\ cells1 !! i = Some EmptyString.
Proof.
  destruct (X_cells_read_back [Sample.quote_record; Sample.mixed_record])
    as (header & rows & Hread & Hlen & Hcell).
  exists header, rows. split; [exact Hread|]. split; [exact Hlen|].
  intros i Hi.
  assert (Hq : fields Sample.quote_record !! "Quote" = Some (VStr Sample.hi_bye))
    by (vm_compute; reflexivity).
  assert (Hm : fields Sample.mixed_record !! "Quote" = None)
    by (vm_compute; reflexivity).
  destruct (Hcell 0 Sample.quote_record i "Quote"%string eq_refl Hi)
    as (cells0 & cell0 & H0 & H0i & Hv0).
  destruct (Hcell 1 Sample.mixed_record i "Quote"%string eq_refl Hi)
    as (cells1 & cell1 & H1 & H1i & Hv1).
  rewrite Hq in Hv0. rewrite Hm in Hv1. destruct Hv0 as [-> _]. subst cell1.
  exists cells0, cells1.
  split; [exact H0|]. split; [exact H0i|]. split; [exact H1 | exact H1i].
Defined.

(** X14, witness: the sample record whose field [Quote] holds a comma and
    quotes: a second pass of the check changes it again. *)
Lemma X_record_comma_check_twice_witness :
  fields Sample.quote_record !! "Quote" = Some (VStr Sample.hi_bye) /\
  str_in "," Sample.hi_bye = true /\
  record_comma_check (record_comma_check Sample.quote_record)
  <> record_comma_check Sample.quote_record /\
  fields (record_comma_check (record_comma_check Sample.quote_record)) !! "Quote"
  = Some (VStr (double_quotes Sample.hi_bye_doubled)).
Proof.
  assert (Hq : fields Sample.quote_record !! "Quote" = Some (VStr Sample.hi_bye))
    by (vm_compute; reflexivity).
  assert (Hc : str_in "," Sample.hi_bye = true) by (vm_compute; reflexivity).
  split; [exact Hq|]. split; [exact Hc|].
  destruct (X_record_comma_check_twice Sample.quote_record) as (Hfix & Htwice & Hfield).
  split.
  - intros H. apply Htwice in H.
    pose proof (proj1 Hfix H "Quote"%string Sample.hi_bye Hq Hc) as Hcount.
    vm_compute in Hcount. discriminate Hcount.
  - destruct (Hfield "Quote"%string Sample.hi_bye Hq Hc) as [H _]. exact H.
Defined.
